(** * codecount.py: a shallow embedding and its checked properties

    The program counts the lines of the text files below a directory and
    classifies each line as code, comment or blank, by rules keyed on the
    file extension ([CodeCounter.langs]).  This development embeds
    [Filename.__init__], [CodeCounter.listfiles], [walk], [scanfile],
    [remove_duplicates], [output], the three reports and [run], and proves
    the properties stated about them.

    Python values are modelled as follows.
    - [str] is a list of Unicode code points ([list N]); [bytes] is a list
      of octets ([list N], each below 256 in a real file).
    - [int] is [Z]; [str.find] yields [-1] when nothing is found.
    - a [dict] is an association list in insertion order (Python 3.7 and
      later iterate a dict in insertion order).
    - [hashlib.sha256] is a parameter [sha256_digest : bytes -> bytes]; a
      hash object is the concatenation of the chunks fed to it so far.
    - the [while] loop of [scanfile] runs on fuel; a result [None] stands
      for a call that raises or never returns. *)

From Stdlib Require Import List ZArith NArith Bool Lia String Ascii.
From Stdlib Require Import Sorted Permutation.
Import ListNotations.

Set Implicit Arguments.
Set Warnings "-register-all".

(** ** Python strings *)

Definition pystr := list N.
Definition bytes := list N.

(** A string literal of the source, as code points. *)
Definition str (s : string) : pystr := map N_of_ascii (list_ascii_of_string s).

Module Str.

(** [a == b] on [str]. *)
Fixpoint eqb (a b : pystr) : bool :=
  match a, b with
  | [], [] => true
  | x :: a', y :: b' => N.eqb x y && eqb a' b'
  | _, _ => false
  end.

(** [len(s)]. *)
Definition len (s : pystr) : Z := Z.of_nat (List.length s).

(** The code points [str.strip()] removes: CPython's
    [_PyUnicode_IsWhitespace]. *)
Definition is_space (c : N) : bool :=
  ((0x09 <=? c) && (c <=? 0x0D) || (0x1C <=? c) && (c <=? 0x20)
   || (c =? 0x85) || (c =? 0xA0) || (c =? 0x1680)
   || (0x2000 <=? c) && (c <=? 0x200A)
   || (c =? 0x2028) || (c =? 0x2029) || (c =? 0x202F) || (c =? 0x205F)
   || (c =? 0x3000))%N.

Fixpoint lstrip (s : pystr) : pystr :=
  match s with
  | c :: r => if is_space c then lstrip r else s
  | [] => []
  end.

Definition rstrip (s : pystr) : pystr := rev (lstrip (rev s)).

(** [s.strip()]. *)
Definition strip (s : pystr) : pystr := rstrip (lstrip s).

(** [s.startswith(p)]. *)
Fixpoint startswith (s p : pystr) : bool :=
  match p, s with
  | [], _ => true
  | x :: p', y :: s' => N.eqb x y && startswith s' p'
  | _ :: _, [] => false
  end.

(** Offset of the leftmost occurrence of [sub] in [s]. *)
Fixpoint index (sub s : pystr) : option nat :=
  if startswith s sub then Some 0%nat
  else match s with
       | [] => None
       | _ :: r => option_map S (index sub r)
       end.

(** [sub in s]. *)
Definition contains (sub s : pystr) : bool :=
  match index sub s with Some _ => true | None => false end.

(** A slice bound, as Python normalises it: a negative bound counts from
    the end, and the result is clamped to [0 .. len(s)]. *)
Definition bound (s : pystr) (i : Z) : nat :=
  let n := len s in
  let i' := if (i <? 0)%Z then (i + n)%Z else i in
  Z.to_nat (Z.min n (Z.max 0 i')).

(** [s[a:b]]. *)
Definition slice (s : pystr) (a b : Z) : pystr :=
  let lo := bound s a in
  let hi := bound s b in
  firstn (hi - lo) (skipn lo s).

(** [s[a:]]. *)
Definition slice_from (s : pystr) (a : Z) : pystr := skipn (bound s a) s.

(** [s[:b]]. *)
Definition slice_to (s : pystr) (b : Z) : pystr := firstn (bound s b) s.

(** [s.find(sub)]. *)
Definition find (s sub : pystr) : Z :=
  match index sub s with
  | Some n => Z.of_nat n
  | None => (-1)%Z
  end.

(** [s.find(sub, start)]. *)
Definition find_from (s sub : pystr) (start : Z) : Z :=
  let n := len s in
  let st := if (start <? 0)%Z then Z.max 0 (start + n) else start in
  if (n <? st)%Z then (-1)%Z
  else match index sub (skipn (Z.to_nat st) s) with
       | Some k => (st + Z.of_nat k)%Z
       | None => (-1)%Z
       end.

(** [s.replace(old, new, 1)]: the leftmost occurrence only. *)
Definition replace1 (s old new : pystr) : pystr :=
  match index old s with
  | Some n => firstn n s ++ new ++ skipn (n + List.length old) s
  | None => s
  end.

(** [s.replace(old, new)] for a non-empty [old]: every occurrence, left
    to right, without overlap; [skip] counts the code points of the
    occurrence just replaced that are still to be dropped. *)
Fixpoint replace_from (old new : pystr) (skip : nat) (s : pystr) : pystr :=
  match s with
  | [] => []
  | c :: r =>
      match skip with
      | S k => replace_from old new k r
      | O =>
          if startswith s old
          then new ++ replace_from old new (List.length old - 1) r
          else c :: replace_from old new 0 r
      end
  end.

(** [s.replace(old, new)]; an empty [old] matches before every code
    point and at the end. *)
Definition replace (s old new : pystr) : pystr :=
  match old with
  | [] => new ++ flat_map (fun c => c :: new) s
  | _ :: _ => replace_from old new 0 s
  end.

(** [a < b] on [str]: lexicographic on code points. *)
Fixpoint ltb (a b : pystr) : bool :=
  match a, b with
  | _, [] => false
  | [], _ :: _ => true
  | x :: a', y :: b' =>
      if N.ltb x y then true
      else if N.eqb x y then ltb a' b' else false
  end.

(** [s.lower()] on the ASCII letters.  Code points above 127 are kept as
    they are; CPython maps the cased ones among them through the Unicode
    tables, and none of them becomes a string of the registry, whose
    extensions are ASCII and have no [k] (the lower case of U+212A). *)
Definition lower_char (c : N) : N :=
  if ((0x41 <=? c) && (c <=? 0x5A))%N then (c + 0x20)%N else c.

Definition lower (s : pystr) : pystr := map lower_char s.

(** [s.rfind(sub)] for a one-code-point [sub]. *)
Fixpoint rindex_char (ch : N) (s : pystr) : option nat :=
  match s with
  | [] => None
  | c :: r =>
      match rindex_char ch r with
      | Some k => Some (S k)
      | None => if N.eqb c ch then Some 0%nat else None
      end
  end.

Definition rfind_char (s : pystr) (ch : N) : Z :=
  match rindex_char ch s with
  | Some n => Z.of_nat n
  | None => (-1)%Z
  end.

End Str.

(** ** Text files

    [open(p, encoding="utf-8", errors="ignore")] followed by [for line in fp]:
    the bytes are decoded as UTF-8, every byte that is not part of a
    well-formed sequence is dropped, line ends are translated to ["\n"]
    (universal newlines), and the text is cut after each ["\n"]. *)

Module TextIO.

Local Open Scope N_scope.

Definition is_cont (b : N) : bool := (0x80 <=? b) && (b <=? 0xBF).

Definition lead2 (b0 : N) : bool := (0xC2 <=? b0) && (b0 <=? 0xDF).
Definition lead3 (b0 : N) : bool := (0xE0 <=? b0) && (b0 <=? 0xEF).
Definition lead4 (b0 : N) : bool := (0xF0 <=? b0) && (b0 <=? 0xF4).

(** The second byte of a three-byte sequence: no overlong form after
    [E0], no surrogate after [ED]. *)
Definition second3 (b0 b1 : N) : bool :=
  if b0 =? 0xE0 then (0xA0 <=? b1) && (b1 <=? 0xBF)
  else if b0 =? 0xED then (0x80 <=? b1) && (b1 <=? 0x9F)
  else is_cont b1.

(** The second byte of a four-byte sequence: no overlong form after
    [F0], nothing above U+10FFFF after [F4]. *)
Definition second4 (b0 b1 : N) : bool :=
  if b0 =? 0xF0 then (0x90 <=? b1) && (b1 <=? 0xBF)
  else if b0 =? 0xF4 then (0x80 <=? b1) && (b1 <=? 0x8F)
  else is_cont b1.

Definition cp2 (b0 b1 : N) : N := (b0 - 0xC0) * 64 + (b1 - 0x80).
Definition cp3 (b0 b1 b2 : N) : N :=
  (b0 - 0xE0) * 4096 + (b1 - 0x80) * 64 + (b2 - 0x80).
Definition cp4 (b0 b1 b2 b3 : N) : N :=
  (b0 - 0xF0) * 262144 + (b1 - 0x80) * 4096 + (b2 - 0x80) * 64 + (b3 - 0x80).

(** [bs.decode("utf-8", errors="ignore")].  When no well-formed sequence
    starts at a byte, the byte is dropped and decoding resumes at the
    next one; the continuation bytes of a sequence cut short are then
    dropped one by one, which is what CPython's handler leaves too. *)
Fixpoint utf8_decode (bs : bytes) : pystr :=
  match bs with
  | [] => []
  | b0 :: r0 =>
      if b0 <? 0x80 then b0 :: utf8_decode r0
      else
        match r0 with
        | [] => []
        | b1 :: r1 =>
            if lead2 b0 && is_cont b1 then cp2 b0 b1 :: utf8_decode r1
            else
              match r1 with
              | [] => utf8_decode r0
              | b2 :: r2 =>
                  if lead3 b0 && second3 b0 b1 && is_cont b2
                  then cp3 b0 b1 b2 :: utf8_decode r2
                  else
                    match r2 with
                    | [] => utf8_decode r0
                    | b3 :: r3 =>
                        if lead4 b0 && second4 b0 b1 && is_cont b2 && is_cont b3
                        then cp4 b0 b1 b2 b3 :: utf8_decode r3
                        else utf8_decode r0
                    end
              end
        end
  end.

(** One code point of [s.encode("utf-8")].  The strings encoded by the
    program come out of [utf8_decode], which yields no surrogate. *)
Definition encode_char (c : N) : bytes :=
  if c <? 0x80 then [c]
  else if c <? 0x800 then [0xC0 + c / 64; 0x80 + c mod 64]
  else if c <? 0x10000
       then [0xE0 + c / 4096; 0x80 + (c / 64) mod 64; 0x80 + c mod 64]
       else [0xF0 + c / 262144; 0x80 + (c / 4096) mod 64;
             0x80 + (c / 64) mod 64; 0x80 + c mod 64].

(** [s.encode("utf-8")]. *)
Definition utf8_encode (s : pystr) : bytes := flat_map encode_char s.

(** Universal newlines: ["\r\n"] and a lone ["\r"] become ["\n"]. *)
Fixpoint translate_newlines (s : pystr) : pystr :=
  match s with
  | [] => []
  | c :: r =>
      if c =? 13
      then 10 :: match r with
                 | c' :: r' => if c' =? 10 then translate_newlines r'
                               else translate_newlines r
                 | [] => []
                 end
      else c :: translate_newlines r
  end.

(** The lines [for line in fp] yields: each keeps its ["\n"]; the last
    one has none when the text does not end in one. *)
Fixpoint split_lines (s : pystr) : list pystr :=
  match s with
  | [] => []
  | c :: r =>
      if c =? 10 then [c] :: split_lines r
      else match split_lines r with
           | [] => [[c]]
           | l :: ls => (c :: l) :: ls
           end
  end.

(** The text a file object yields for the raw bytes of a file. *)
Definition decode_text (raw : bytes) : pystr :=
  translate_newlines (utf8_decode raw).

Definition read_lines (raw : bytes) : list pystr :=
  split_lines (decode_text raw).

End TextIO.

(** ** The language registry: [CodeCounter.langs] *)

Module Lang.

(** One value of [langs]: the keys ["bcomm"], ["comment"], ["endcode"]
    and ["ext"].  ["bcomm"] is a dict from start token to end token. *)
Record rule := {
  bcomm : list (pystr * pystr);
  comment : list pystr;
  endcode : list pystr;
  ext : list pystr
}.

End Lang.

Definition mkrule (b : list (string * string)) (c e x : list string) : Lang.rule :=
  {| Lang.bcomm := map (fun p => (str (fst p), str (snd p))) b;
     Lang.comment := map str c;
     Lang.endcode := map str e;
     Lang.ext := map str x |}.

Definition c_block : list (string * string) := [("/*", "*/")]%string.
Definition xml_block : list (string * string) := [("<!--", "-->")]%string.

Definition langs : list (pystr * Lang.rule) :=
  map (fun p => (str (fst p), snd p))
  [ ("C", mkrule c_block ["//"] [] [".c"]);
    ("C++", mkrule c_block ["//"] [] [".cpp"]);
    ("C#", mkrule c_block ["//"] [] [".cs"]);
    ("C Header", mkrule c_block ["//"] [] [".h"]);
    ("CSS", mkrule c_block [] [] [".css"]);
    ("Cython", mkrule [] ["#"] [] [".pyx"]);
    ("Go", mkrule [] ["//"] [] [".go"]);
    ("HTML", mkrule xml_block [] [] [".html"; ".htm"; ".jinja"]);
    ("IBM Macro", mkrule c_block ["'"] [] [".mac"]);
    ("Java", mkrule c_block ["//"] [] [".java"]);
    ("Javascript", mkrule c_block ["//"] [] [".js"]);
    ("Perl", mkrule [] ["//"; "#"] ["__END__"] [".pl"]);
    ("PHP", mkrule c_block ["//"; "#"] [] [".php"]);
    ("Python", mkrule [] ["#"] [] [".py"; ".pyw"]);
    ("RPG", mkrule [] ["*"; "*"; "C*"; "c*"; "D*"; "d*"; "F*"; "f*"; "H*"; "h*"]
                   [] [".rpgle"; ".sqlrpgle"]);
    ("Ruby", mkrule [] ["#"] ["__END__"] [".rb"]);
    ("SQL", mkrule [] [] [] [".sql"]);
    ("Text", mkrule [] [] [] [".txt"]);
    ("VB", mkrule c_block ["'"] [] [".vb"; ".mac"; ".frm"; ".bas"]);
    ("XML", mkrule xml_block [] [] [".xml"; ".csproj"]);
    ("Yaml", mkrule [] ["#"] [] [".yaml"]) ]%string.

Definition ignoredirs : list pystr :=
  map str [".hg"; ".bzr"; ".svn"; ".git"; ".idea"; "__pycache__"]%string.

(** [x in xs] for a list or tuple of strings. *)
Definition str_in (x : pystr) (xs : list pystr) : bool := existsb (Str.eqb x) xs.

(** [d[k]] on a dict with string keys; [None] is [KeyError]. *)
Fixpoint dict_get (A : Type) (k : pystr) (d : list (pystr * A)) : option A :=
  match d with
  | [] => None
  | (k', v) :: r => if Str.eqb k k' then Some v else dict_get k r
  end.


(** ** [os.path] on POSIX *)

Module OsPath.

Definition sep : N := 47%N.
Definition extsep : N := 46%N.

(** [os.path.splitext(p)]: the extension starts at the last dot of the last
    component, unless only dots precede it there. *)
Definition splitext (p : pystr) : pystr * pystr :=
  let sepIndex := Str.rfind_char p sep in
  let dotIndex := Str.rfind_char p extsep in
  if (sepIndex <? dotIndex)%Z
  then if forallb (N.eqb extsep) (Str.slice p (sepIndex + 1) dotIndex)
       then (p, [])
       else (Str.slice_to p dotIndex, Str.slice_from p dotIndex)
  else (p, []).

(** [os.path.join(a, b)]. *)
Definition join (a b : pystr) : pystr :=
  if Str.startswith b [sep] then b
  else match rev a with
       | [] => b
       | c :: _ => if N.eqb c sep then a ++ b else a ++ sep :: b
       end.

(** [s.rstrip("/")]. *)
Fixpoint lstrip_sep (s : pystr) : pystr :=
  match s with
  | c :: r => if N.eqb c sep then lstrip_sep r else s
  | [] => []
  end.

Definition rstrip_sep (s : pystr) : pystr := rev (lstrip_sep (rev s)).

(** [os.path.split(p)]. *)
Definition split (p : pystr) : pystr * pystr :=
  let i := (Str.rfind_char p sep + 1)%Z in
  let head := Str.slice_to p i in
  let tail := Str.slice_from p i in
  (match head with
   | [] => head
   | _ :: _ => if forallb (N.eqb sep) head then head else rstrip_sep head
   end, tail).

End OsPath.

(** ** The file system the program looks at *)

(** What [os.walk] finds in a directory: the names of its files and its
    subdirectories with what is below them.  The names in one directory
    are distinct. *)
Inductive dirtree : Type :=
| Dir (files : list pystr) (subdirs : list (pystr * dirtree)).

Record world := {
  isdir : pystr -> bool;            (* os.path.isdir *)
  isfile : pystr -> bool;           (* os.path.isfile *)
  listing : pystr -> dirtree;       (* what os.walk(path) visits *)
  st_size : pystr -> Z;             (* os.stat(p).st_size *)
  file_bytes : pystr -> bytes       (* the bytes of the file open(p) reads *)
}.

(** [st_size] and [file_bytes] are what [os.stat] and [open] give when they
    succeed, and [Filename_init], [listfiles], [scanfile] and [run] below
    follow a run in which every such call succeeds.  The calls that raise,
    and the run that ends with the first of them, are [faults] and
    [run_os] further down. *)

(** ** [class Filename] *)

Record Filename := {
  path : pystr;
  name : pystr;
  extension : pystr;
  lang : option pystr;
  lines : Z;
  comments : Z;
  blanks : Z;
  code : Z;
  size : Z;
  sha256 : option bytes;
  shortpath : option pystr;
  shortname : pystr
}.

(** [Filename.__init__(self, argpath, path, filename)], when [os.stat]
    succeeds; [run_os] has the run in which it raises. *)
Definition Filename_init (w : world) (argpath path0 filename : pystr) : Filename :=
  let extension0 := Str.lower (snd (OsPath.splitext filename)) in
  {| path := path0;
     name := filename;
     extension := extension0;
     lang := None;
     lines := 0;
     comments := 0;
     blanks := 0;
     code := 0;
     size := st_size w (OsPath.join path0 filename);
     sha256 := None;
     shortpath :=
       Some (str "." ++
             Str.strip (Str.slice path0 (Str.len argpath) (Str.len argpath + 78)));
     shortname :=
       if (30 <? Str.len filename)%Z
       then Str.strip (Str.slice_to filename 20) ++ str "~" ++ extension0
       else filename |}.

Definition set_lang (l : pystr) (f : Filename) : Filename :=
  {| path := path f; name := name f; extension := extension f;
     lang := Some l;
     lines := lines f; comments := comments f; blanks := blanks f;
     code := code f; size := size f; sha256 := sha256 f;
     shortpath := shortpath f; shortname := shortname f |}.

Definition set_sha256 (d : bytes) (f : Filename) : Filename :=
  {| path := path f; name := name f; extension := extension f;
     lang := lang f;
     lines := lines f; comments := comments f; blanks := blanks f;
     code := code f; size := size f; sha256 := Some d;
     shortpath := shortpath f; shortname := shortname f |}.

(** [filename.lines += 1]. *)
Definition incr_lines (f : Filename) : Filename :=
  {| path := path f; name := name f; extension := extension f;
     lang := lang f;
     lines := lines f + 1; comments := comments f; blanks := blanks f;
     code := code f; size := size f; sha256 := sha256 f;
     shortpath := shortpath f; shortname := shortname f |}.

Definition incr_blanks (f : Filename) : Filename :=
  {| path := path f; name := name f; extension := extension f;
     lang := lang f;
     lines := lines f; comments := comments f; blanks := blanks f + 1;
     code := code f; size := size f; sha256 := sha256 f;
     shortpath := shortpath f; shortname := shortname f |}.

Definition incr_comments (f : Filename) : Filename :=
  {| path := path f; name := name f; extension := extension f;
     lang := lang f;
     lines := lines f; comments := comments f + 1; blanks := blanks f;
     code := code f; size := size f; sha256 := sha256 f;
     shortpath := shortpath f; shortname := shortname f |}.

Definition incr_code (f : Filename) : Filename :=
  {| path := path f; name := name f; extension := extension f;
     lang := lang f;
     lines := lines f; comments := comments f; blanks := blanks f;
     code := code f + 1; size := size f; sha256 := sha256 f;
     shortpath := shortpath f; shortname := shortname f |}.

(** ** What a run does to its surroundings *)

(** A printed line of a report, by the function that formats it. *)
Inductive out_line : Type :=
| Header (reporttype : pystr)                         (* report_header *)
| Detail (text : pystr) (files blank comment code_ line : Z) (* report_detail *)
| DirLine (dir : pystr)                               (* "{:<78}".format(dir) *)
| Dashes                                              (* "-" * 79 *)
| Summary (tfiles tblanks tcomments tcode tlines : Z) (* report_summary *).

Inductive event : Type :=
| EvWalk (root : pystr)          (* os.walk lists the directory root *)
| EvStat (p : pystr)             (* os.stat(p), in Filename.__init__ *)
| EvOpen (p : pystr)             (* open(p) and the reading of its lines *)
| EvDumpLangs (file : pystr)     (* json.dump(self.langs, ...) into file *)
| EvPrint (o : out_line)         (* print of a report line *)
| EvPrintRuntime                 (* print of "Runtime: ... seconds" *).

(** How [run] ends. *)
Inductive outcome : Type :=
| Returned
| SystemExit (msg : pystr)
| AssertionError
| ScanFails                      (* a scanfile call raises or never returns *).

(** The parsed command line. *)
Record Args := {
  arg_path : pystr;
  byfile : bool;
  bygroup : bool;
  bylang : bool;
  output_languages : bool;
  time : bool;
  debug : bool;
  include : bool;
  markup : option pystr
}.

(** ** [CodeCounter.walk] and [CodeCounter.listfiles] *)

(** The files of one directory: [Filename(path, root, filename)] for each
    name that [os.path.isfile(root + "/" + filename)] accepts. *)
Definition walk_files (w : world) (argpath root : pystr) (files : list pystr)
  : list event * list Filename :=
  fold_right
    (fun filename acc =>
       if isfile w (root ++ str "/" ++ filename)
       then (EvStat (OsPath.join root filename) :: fst acc,
             Filename_init w argpath root filename :: snd acc)
       else acc)
    ([], []) files.

(** [for root, folders, files in os.walk(path)]: top down; the folders
    whose name is in [ignoredirs] are removed from [folders] and so are not
    descended into. *)
Fixpoint walk_tree (w : world) (argpath root : pystr) (t : dirtree)
  : list event * list Filename :=
  match t with
  | Dir files subdirs =>
      let here := walk_files w argpath root files in
      let below :=
        (fix descend (ds : list (pystr * dirtree)) : list event * list Filename :=
           match ds with
           | [] => ([], [])
           | (folder, sub) :: rest =>
               let r := descend rest in
               if str_in folder ignoredirs then r
               else
                 let s := walk_tree w argpath (OsPath.join root folder) sub in
                 (fst s ++ fst r, snd s ++ snd r)
           end) subdirs in
      (EvWalk root :: fst here ++ fst below, snd here ++ snd below)
  end.

Definition walk (w : world) (path0 : pystr) : list event * list Filename :=
  walk_tree w path0 path0 (listing w path0).

(** [listfiles]: the events and the new [self.filelist]. *)
Definition listfiles (args : Args) (w : world) : list event * list Filename :=
  if isdir w (arg_path args) then walk w (arg_path args)
  else
    let (root, filename) := OsPath.split (arg_path args) in
    if isfile w (root ++ str "/" ++ filename)
    then ([EvStat (OsPath.join root filename)],
          [Filename_init w (arg_path args) root filename])
    else ([], []).

(** ** [CodeCounter.scanfile] *)

(** The counter a line is added to. *)
Inductive kind : Type := Blank | Comment | Code.

(** The locals of [scanfile] that live across lines. *)
Record flags := {
  strblock : option pystr;
  endblock : option pystr;
  inblock : bool;
  endcode : bool
}.

Definition init_flags : flags :=
  {| strblock := None; endblock := None; inblock := false; endcode := false |}.

Definition set_block (s e : pystr) (fl : flags) : flags :=
  {| strblock := Some s; endblock := Some e;
     inblock := inblock fl; endcode := endcode fl |}.

Definition set_inblock (b : bool) (fl : flags) : flags :=
  {| strblock := strblock fl; endblock := endblock fl;
     inblock := b; endcode := endcode fl |}.

Definition set_endcode (fl : flags) : flags :=
  {| strblock := strblock fl; endblock := endblock fl;
     inblock := inblock fl; endcode := true |}.

(** [while token in line: ...] with [strblock = token]; the result is the
    line and [inblock] when the loop is left.  An iteration that does not
    [break] removes one occurrence of a slice of the line; [fuel] bounds
    the number of tests of the loop condition. *)
Fixpoint block_while (fuel : nat) (token endblock0 line : pystr) (inblock0 : bool)
  : option (pystr * bool) :=
  match fuel with
  | O => None
  | S fuel' =>
      if Str.contains token line then
        let spos := Str.find line token in
        let epos := Str.find_from line endblock0 spos in
        if (0 <? epos)%Z then
          let epos' := (epos + Str.len endblock0)%Z in
          if Str.contains endblock0 line
          then block_while fuel' token endblock0
                 (Str.replace1 line (Str.slice line spos epos') []) inblock0
          else block_while fuel' token endblock0
                 (Str.replace1 line (Str.slice_from line spos) []) true
        else Some (line, inblock0)
      else Some (line, inblock0)
  end.

(** [for token in self.langs[filename.lang]["bcomm"]: ...]. *)
Fixpoint block_for (pairs : list (pystr * pystr)) (fl : flags) (line : pystr)
  : option (flags * pystr) :=
  match pairs with
  | [] => Some (fl, line)
  | (token, e) :: rest =>
      match block_while (S (List.length line)) token e line (inblock fl) with
      | None => None
      | Some (line', inblock') =>
          block_for rest (set_inblock inblock' (set_block token e fl)) line'
      end
  end.

(** The [else] branch of [if not inblock]; [endblock] being [None] there
    would raise. *)
Definition block_continue (fl : flags) (line : pystr) : option (flags * pystr) :=
  match endblock fl with
  | None => None
  | Some e =>
      if Str.contains e line
      then Some (set_inblock false fl,
                 Str.strip
                   (Str.replace line
                      (Str.slice_to line (Str.find line e + Str.len e)) []))
      else Some (fl, [])
  end.

(** The body of [for line in fp] after the digest and [lines] updates: the
    counter the line goes to and the locals after it.  [line is ""] holds
    exactly of the empty string (CPython has one empty [str] object). *)
Definition classify (r : Lang.rule) (fl : flags) (raw_line : pystr)
  : option (kind * flags) :=
  let line := Str.strip raw_line in
  if Str.eqb line [] then Some (Blank, fl)
  else if endcode fl then Some (Comment, fl)
  else
    match (if negb (inblock fl)
           then block_for (Lang.bcomm r) fl line
           else block_continue fl line) with
    | None => None
    | Some (fl1, line1) =>
        if Str.eqb line1 [] then Some (Comment, fl1)
        else if existsb (Str.startswith line1) (Lang.comment r)
        then Some (Comment, fl1)
        else Some (Code,
                   if existsb (Str.eqb line1) (Lang.endcode r)
                   then set_endcode fl1 else fl1)
    end.

Definition count (k : kind) (f : Filename) : Filename :=
  match k with
  | Blank => incr_blanks f
  | Comment => incr_comments f
  | Code => incr_code f
  end.

(** [for line in fp: ...]: [fed] is what the [sha256] object has been fed
    so far. *)
Fixpoint scan_lines (r : Lang.rule) (ls : list pystr) (fl : flags) (fed : bytes)
  (f : Filename) : option (flags * bytes * Filename) :=
  match ls with
  | [] => Some (fl, fed, f)
  | line :: rest =>
      let fed' := fed ++ TextIO.utf8_encode line in
      let f1 := incr_lines f in
      match classify r fl line with
      | None => None
      | Some (k, fl') => scan_lines r rest fl' fed' (count k f1)
      end
  end.

(** [for l in self.langs: if filename.extension in self.langs[l]["ext"]:
    filename.lang = l; break]: the first language, in the order of the
    registry, that lists the extension. *)
Fixpoint find_lang (registry : list (pystr * Lang.rule)) (ext0 : pystr)
  : option pystr :=
  match registry with
  | [] => None
  | (l, r) :: rest =>
      if str_in ext0 (Lang.ext r) then Some l else find_lang rest ext0
  end.

Section Scan.

(** [hashlib.sha256(data).digest()]. *)
Variable sha256_digest : bytes -> bytes.

(** [scanfile(filename)]: the files opened and the record afterwards;
    [None] when the call does not return.  [open] and the reading are
    taken to succeed; [run_os] has the run in which they raise. *)
Definition scanfile (w : world) (f : Filename) : list event * option Filename :=
  if (size f =? 0)%Z then ([], Some f)
  else
    let f1 := match find_lang langs (extension f) with
              | Some l => set_lang l f
              | None => f
              end in
    match lang f1 with
    | None => ([], Some f1)
    | Some l =>
        let p := OsPath.join (path f1) (name f1) in
        ([EvOpen p],
         match dict_get l langs with
         | None => None
         | Some r =>
             match scan_lines r (TextIO.read_lines (file_bytes w p))
                     init_flags [] f1 with
             | None => None
             | Some (_, fed, f2) => Some (set_sha256 (sha256_digest fed) f2)
             end
         end)
    end.

(** [for filename in self.filelist: self.scanfile(filename)]. *)
Fixpoint scan_all (w : world) (fl : list Filename)
  : list event * option (list Filename) :=
  match fl with
  | [] => ([], Some [])
  | f :: rest =>
      match scanfile w f with
      | (ev, None) => (ev, None)
      | (ev, Some f') =>
          match scan_all w rest with
          | (ev', None) => (ev ++ ev', None)
          | (ev', Some rest') => (ev ++ ev', Some (f' :: rest'))
          end
      end
  end.

End Scan.

(** ** [CodeCounter.remove_duplicates] *)

(** Equality of the keys of [unique]: [None] or a digest. *)
Definition key_eqb (a b : option bytes) : bool :=
  match a, b with
  | None, None => true
  | Some x, Some y => Str.eqb x y
  | _, _ => false
  end.

(** [k in unique]. *)
Definition key_in (k : option bytes) (unique : list (option bytes * Filename))
  : bool :=
  existsb (fun kv => key_eqb k (fst kv)) unique.

(** [if filename.sha256 not in unique: unique[filename.sha256] = filename]:
    a new key goes to the end of the dict. *)
Definition remember (unique : list (option bytes * Filename)) (f : Filename)
  : list (option bytes * Filename) :=
  if key_in (sha256 f) unique then unique else unique ++ [(sha256 f, f)].

(** The new [self.filelist]: the values of [unique], in the order of its
    keys. *)
Definition remove_duplicates (filelist : list Filename) : list Filename :=
  map snd (fold_left remember filelist []).

(** ** Totals and reports *)

(** The attributes of a [CodeCounter] object. *)
Record CodeCounter := {
  filelist : list Filename;
  tfiles : Z;
  tlines : Z;
  tcode : Z;
  tcomments : Z;
  tblanks : Z
}.

(** [CodeCounter.__init__] with the file list put in. *)
Definition new_counter (fl : list Filename) : CodeCounter :=
  {| filelist := fl; tfiles := 0; tlines := 0; tcode := 0;
     tcomments := 0; tblanks := 0 |}.

(** One round of the totals loop of [run]. *)
Definition add_file (cc : CodeCounter) (f : Filename) : CodeCounter :=
  {| filelist := filelist cc;
     tfiles := if (0 <? lines f)%Z then tfiles cc + 1 else tfiles cc;
     tlines := tlines cc + lines f;
     tcode := tcode cc + code f;
     tcomments := tcomments cc + comments f;
     tblanks := tblanks cc + blanks f |}.

Definition accumulate (cc : CodeCounter) : CodeCounter :=
  fold_left add_file (filelist cc) cc.

(** [assert self.tlines - self.tcode - self.tcomments - self.tblanks == 0]. *)
Definition totals_assertion (cc : CodeCounter) : bool :=
  (tlines cc - tcode cc - tcomments cc - tblanks cc =? 0)%Z.

(** [sorted(l, key=...)]: a stable sort; [before y x] says that the key of
    [y] is strictly in front of the key of [x]. *)
Fixpoint insert_sorted (A : Type) (before : A -> A -> bool) (x : A) (l : list A)
  : list A :=
  match l with
  | [] => [x]
  | y :: r => if before y x then y :: insert_sorted before x r else x :: l
  end.

Definition sorted (A : Type) (before : A -> A -> bool) (l : list A) : list A :=
  fold_right (insert_sorted before) [] l.

(** [str(x)] for an attribute that is a string or [None]. *)
Definition str_of (x : option pystr) : pystr :=
  match x with
  | Some s => s
  | None => str "None"
  end.

(** [a == b] for attributes that are strings or [None]. *)
Definition opt_eqb (a b : option pystr) : bool :=
  match a, b with
  | None, None => true
  | Some x, Some y => Str.eqb x y
  | _, _ => false
  end.

(** The truth value of a string or [None]. *)
Definition truthy (x : option pystr) : bool :=
  match x with
  | Some (_ :: _) => true
  | _ => false
  end.

(** [report_file]. *)
Definition report_file (cc : CodeCounter) : list out_line :=
  Header (str "By File")
  :: flat_map
       (fun f =>
          match lang f with
          | None => []
          | Some _ =>
              [Detail (shortname f) 1 (blanks f) (comments f) (code f) (lines f)]
          end)
       (sorted (fun y x => (code x <? code y)%Z) (filelist cc))
  ++ [Summary (tfiles cc) (tblanks cc) (tcomments cc) (tcode cc) (tlines cc)].

(** The dict [total] of [report_dir] and [report_lang]; [key] is its
    ["dir"] or ["lang"] entry. *)
Record subtotal := {
  key : option pystr;
  blank : Z;
  comment : Z;
  file : Z;
  code_ : Z;
  line : Z
}.

Definition subtotal0 : subtotal :=
  {| key := None; blank := 0; comment := 0; file := 0; code_ := 0; line := 0 |}.

(** The branch that adds the file to the running subtotal. *)
Definition subtotal_add (t : subtotal) (f : Filename) : subtotal :=
  {| key := key t;
     blank := blank t + blanks f;
     comment := comment t + comments f;
     file := file t + 1;
     code_ := code_ t + code f;
     line := line t + lines f |}.

(** The branch that starts a subtotal with the file. *)
Definition subtotal_start (k : pystr) (f : Filename) : subtotal :=
  {| key := Some k;
     blank := blanks f;
     comment := comments f;
     file := 1;
     code_ := code f;
     line := lines f |}.

Definition subtotal_detail (text : pystr) (t : subtotal) : out_line :=
  Detail text (file t) (blank t) (comment t) (code_ t) (line t).

(** The body of the loop of [report_dir]; a record is passed over when
    [filename.shortpath is None]. *)
Definition report_dir_step (acc : subtotal * list out_line) (f : Filename)
  : subtotal * list out_line :=
  let (total, out) := acc in
  match shortpath f with
  | None => acc
  | Some sp =>
      if opt_eqb (Some sp) (key total) then (subtotal_add total f, out)
      else
        (subtotal_start sp f,
         out
         ++ (if truthy (key total)
             then [subtotal_detail [] total; Dashes] else [])
         ++ [DirLine sp])
  end.

(** [report_dir]. *)
Definition report_dir (cc : CodeCounter) : list out_line :=
  let (total, out) :=
    fold_left report_dir_step
      (sorted (fun y x => Str.ltb (str_of (shortpath y)) (str_of (shortpath x)))
         (filelist cc))
      (subtotal0, []) in
  Header (str "By Directory")
  :: out
  ++ (if truthy (key total) then [subtotal_detail [] total] else [])
  ++ [Summary (tfiles cc) (tblanks cc) (tcomments cc) (tcode cc) (tlines cc)].

(** The body of the loop of [report_lang]; a record is passed over when
    [filename.lang is None]. *)
Definition report_lang_step (acc : subtotal * list out_line) (f : Filename)
  : subtotal * list out_line :=
  let (total, out) := acc in
  match lang f with
  | None => acc
  | Some l =>
      if opt_eqb (Some l) (key total) then (subtotal_add total f, out)
      else
        (subtotal_start l f,
         out
         ++ (if truthy (key total)
             then [subtotal_detail (str_of (key total)) total] else []))
  end.

(** [report_lang]. *)
Definition report_lang (cc : CodeCounter) : list out_line :=
  let (total, out) :=
    fold_left report_lang_step
      (sorted (fun y x => Str.ltb (str_of (lang y)) (str_of (lang x)))
         (filelist cc))
      (subtotal0, []) in
  Header (str "By Language")
  :: out
  ++ (if truthy (key total)
      then [subtotal_detail (str_of (key total)) total] else [])
  ++ [Summary (tfiles cc) (tblanks cc) (tcomments cc) (tcode cc) (tlines cc)].

(** [report]. *)
Definition report (args : Args) (cc : CodeCounter) : list out_line :=
  if bylang args then report_lang cc
  else if bygroup args then report_dir cc
  else if byfile args then report_file cc
  else [].

(** ** [CodeCounter.output] and [CodeCounter.run] *)

(** [output]: with [--output-languages], [output_json_langs] writes
    [languages.json] and [sys.exit] ends the run; the two statements after
    that [sys.exit] are never reached. *)
Definition output (args : Args) : option (list event * pystr) :=
  if output_languages args
  then Some ([EvDumpLangs (str "languages.json")],
             str "File languages.json created.")
  else None.

(** What is left of a run: what it did, how it ended, and the counter
    object at that point. *)
Record run_result := {
  trace : list event;
  ending : outcome;
  counter : CodeCounter
}.

Section Run.

Variable sha256_digest : bytes -> bytes.

(** [run], from the parsed command line on. *)
Definition run (args : Args) (w : world) : run_result :=
  let (ev_list, fl0) := listfiles args w in
  match output args with
  | Some (ev_out, msg) =>
      {| trace := ev_list ++ ev_out;
         ending := SystemExit msg;
         counter := new_counter fl0 |}
  | None =>
      match scan_all sha256_digest w fl0 with
      | (ev_scan, None) =>
          {| trace := ev_list ++ ev_scan;
             ending := ScanFails;
             counter := new_counter fl0 |}
      | (ev_scan, Some fl1) =>
          let fl2 := if include args then fl1 else remove_duplicates fl1 in
          let cc := accumulate (new_counter fl2) in
          if totals_assertion cc
          then {| trace := ev_list ++ ev_scan
                           ++ map EvPrint (report args cc)
                           ++ (if time args then [EvPrintRuntime] else []);
                  ending := Returned;
                  counter := cc |}
          else {| trace := ev_list ++ ev_scan;
                  ending := AssertionError;
                  counter := cc |}
      end
  end.

End Run.

(** ** Calls of the operating system that raise *)

(** [Filename.__init__] calls [os.stat] and [scanfile] calls [open] and
    reads the file.  Each raises [OSError] ([FileNotFoundError],
    [PermissionError], ...) when it fails, and the program has no handler:
    the exception ends the run where it is raised.  [faults] says on which
    paths the calls raise. *)
Record faults := {
  stat_raises : pystr -> bool;      (* os.stat(p) raises *)
  open_raises : pystr -> bool       (* open(p), or the reading of p, raises *)
}.


Definition raises (ft : faults) (e : event) : bool :=
  match e with
  | EvStat p => stat_raises ft p
  | EvOpen p => open_raises ft p
  | _ => false
  end.

(** How a run ends when calls may raise: as [run] ends, or with the
    exception of the call [e]. *)
Inductive os_outcome : Type :=
| Ends (o : outcome)
| OSError (e : event).

(** The events up to and including the first call that raises, and that
    call. *)
Fixpoint until_raise (ft : faults) (evs : list event) : list event * option event :=
  match evs with
  | [] => ([], None)
  | e :: rest =>
      if raises ft e then ([e], Some e)
      else let (done, failed) := until_raise ft rest in (e :: done, failed)
  end.

(** [run] with the exceptions of [os.stat] and [open]: up to the first
    call that raises the run is the run of [run]; there it ends. *)
Definition run_os (sha256_digest : bytes -> bytes) (ft : faults) (args : Args)
  (w : world) : list event * os_outcome :=
  let r := run sha256_digest args w in
  match until_raise ft (trace r) with
  | (done, Some e) => (done, OSError e)
  | (_, None) => (trace r, Ends (ending r))
  end.

(** ** Notions used in the statements *)

(** The four counters of a record: code, comments, blanks, lines. *)
Definition counts (f : Filename) : Z * Z * Z * Z :=
  (code f, comments f, blanks f, lines f).

(** The invariant of a record. *)
Definition balanced (f : Filename) : Prop :=
  lines f = (code f + comments f + blanks f)%Z.

(** The counter each line of a file goes to, line by line. *)
Fixpoint classify_lines (r : Lang.rule) (fl : flags) (ls : list pystr)
  : option (list kind) :=
  match ls with
  | [] => Some []
  | l :: rest =>
      match classify r fl l with
      | None => None
      | Some (k, fl') => option_map (cons k) (classify_lines r fl' rest)
      end
  end.

(** How many lines of a file went to the counter [k]. *)
Definition kind_eqb (a b : kind) : bool :=
  match a, b with
  | Blank, Blank | Comment, Comment | Code, Code => true
  | _, _ => false
  end.

Definition tally (k : kind) (ks : list kind) : Z :=
  Z.of_nat (List.length (filter (kind_eqb k) ks)).

(** No end token of the rule is the empty string. *)
Definition ends_nonempty (r : Lang.rule) : bool :=
  forallb (fun p => negb (Str.eqb (snd p) [])) (Lang.bcomm r).

(** A record as [Filename.__init__] leaves it: no language, no digest,
    all counters zero. *)
Definition fresh (f : Filename) : Prop :=
  lang f = None /\ sha256 f = None /\
  lines f = 0%Z /\ code f = 0%Z /\ comments f = 0%Z /\ blanks f = 0%Z.

(** [f'] is [f] after [n] more lines were counted: [lines] grew by [n],
    the three counters grew by [n] together, none shrank, and nothing
    else changed. *)
Definition counted_from (f f' : Filename) (n : Z) : Prop :=
  lines f' = (lines f + n)%Z /\
  (code f' + comments f' + blanks f' = code f + comments f + blanks f + n)%Z /\
  (code f <= code f')%Z /\ (comments f <= comments f')%Z /\
  (blanks f <= blanks f')%Z /\
  lang f' = lang f /\ sha256 f' = sha256 f /\ size f' = size f /\
  extension f' = extension f /\ path f' = path f /\ name f' = name f /\
  shortpath f' = shortpath f /\ shortname f' = shortname f.

(** [filename.sha256 == k]. *)
Definition has_key (k : option bytes) (f : Filename) : bool :=
  key_eqb (sha256 f) k.

(** The records a pass over [l] keeps when the keys in [seen] are taken:
    the first record of each further key. *)
Fixpoint firsts (seen : list (option bytes)) (l : list Filename) : list Filename :=
  match l with
  | [] => []
  | f :: r =>
      if existsb (key_eqb (sha256 f)) seen then firsts seen r
      else f :: firsts (seen ++ [sha256 f]) r
  end.

(** The events of [listfiles]: a directory is listed, or [os.stat] is
    called.  No file is opened, nothing is written or printed. *)
Definition walk_event (e : event) : bool :=
  match e with
  | EvWalk _ | EvStat _ => true
  | _ => false
  end.

(** ** Sample inputs *)

(** A line of text with its line end. *)
Definition ln (s : string) : pystr := str s ++ [10%N].

(** The rules of ["C"] and ["Perl"] in [langs]. *)
Definition c_rule : Lang.rule := mkrule c_block ["//"%string] [] [".c"%string].
Definition perl_rule : Lang.rule :=
  mkrule [] ["//"; "#"]%string ["__END__"%string] [".pl"%string].

(** A block comment that is opened on one line and closed two lines on. *)
Definition block_example : list pystr :=
  [ln "int x; /* start"; ln "still comment"; ln "end */ int y;"].

(** An end-of-code sentinel followed by a line of text and an empty line. *)
Definition sentinel_example : list pystr :=
  [ln "code();"; ln "__END__"; ln "more(); "; ln ""].

(** A record with nothing in it, to count lines into. *)
Definition empty_record : Filename :=
  {| path := []; name := []; extension := []; lang := None;
     lines := 0; comments := 0; blanks := 0; code := 0; size := 0;
     sha256 := None; shortpath := None; shortname := [] |}.

(** The counters after the lines [ls] were scanned under the rule [r]. *)
Definition scan_counts (r : Lang.rule) (ls : list pystr) : option (Z * Z * Z * Z) :=
  match scan_lines r ls init_flags [] empty_record with
  | Some (_, _, f) => Some (counts f)
  | None => None
  end.

(** The directory ["."] with the given files in it and nothing else. *)
Definition flat_world (files : list (string * bytes)) : world :=
  let at_path (p : pystr) :=
    List.find (fun nb => Str.eqb p (str "./" ++ str (fst nb))) files in
  {| isdir := fun p => Str.eqb p (str ".");
     isfile := fun p => match at_path p with Some _ => true | None => false end;
     listing := fun _ => Dir (map (fun nb => str (fst nb)) files) [];
     st_size := fun p => match at_path p with
                         | Some nb => Z.of_nat (List.length (snd nb))
                         | None => 0%Z
                         end;
     file_bytes := fun p => match at_path p with
                            | Some nb => snd nb
                            | None => []
                            end |}.

(** The directory with the file [x.c] that holds these three lines. *)
Definition block_world : world :=
  flat_world [("x.c"%string, TextIO.utf8_encode (List.concat block_example))].

(** The command lines [codecount.py], [codecount.py -g],
    [codecount.py -l], [codecount.py -i] and [codecount.py -o]. *)
Definition args_default : Args :=
  {| arg_path := str "."; byfile := true; bygroup := false; bylang := false;
     output_languages := false; time := true; debug := false;
     include := false; markup := None |}.

Definition args_bygroup : Args :=
  {| arg_path := str "."; byfile := true; bygroup := true; bylang := false;
     output_languages := false; time := true; debug := false;
     include := false; markup := None |}.

Definition args_bylang : Args :=
  {| arg_path := str "."; byfile := true; bygroup := false; bylang := true;
     output_languages := false; time := true; debug := false;
     include := false; markup := None |}.

Definition args_include : Args :=
  {| arg_path := str "."; byfile := true; bygroup := false; bylang := false;
     output_languages := false; time := true; debug := false;
     include := true; markup := None |}.

Definition args_output_languages : Args :=
  {| arg_path := str "."; byfile := true; bygroup := false; bylang := false;
     output_languages := true; time := true; debug := false;
     include := false; markup := None |}.

(** The record [listfiles] makes for the file [n] of [flat_world]. *)
Definition record_of (w : world) (n : string) : Filename :=
  Filename_init w (str ".") (str ".") (str n).

(** Whether a line is empty once stripped. *)
Definition is_blank (raw_line : pystr) : bool := Str.eqb (Str.strip raw_line) [].

(** Two Python files: [a.py] holds the bytes of ["a\n"] with the byte
    [0xFF], which is no UTF-8, in between; [b.py] holds ["a\n"]. *)
Definition invalid_byte_world : world :=
  flat_world [("a.py"%string, [97; 255; 10]%N); ("b.py"%string, [97; 10]%N)].

(** A byte of ASCII text other than a carriage return. *)
Definition plain_byte (b : N) : bool := ((b <? 0x80) && negb (b =? 13))%N.

(** A directory with one Python file of one line. *)
Definition one_file_world : world := flat_world [("a.py"%string, [120; 10]%N)].

(** A directory with one file whose extension no language lists. *)
Definition unknown_world : world := flat_world [("notes.xyz"%string, [120; 10]%N)].

(** A directory with two files of the same bytes, the first of which has
    an extension that no language lists. *)
Definition mixed_world : world :=
  flat_world [("a.foo"%string, [120; 10]%N); ("b.py"%string, [120; 10]%N)].

(** The lines a run prints. *)
Definition printed (r : run_result) : list out_line :=
  flat_map (fun e => match e with EvPrint o => [o] | _ => [] end) (trace r).

(** Three Python files with the text ["a\n"]: [a.py] ends its line with a
    carriage return and a line feed, [b.py] and [c.py] with a line feed. *)
Definition crlf_world : world :=
  flat_world [("a.py"%string, [97; 13; 10]%N); ("b.py"%string, [97; 10]%N);
              ("c.py"%string, [97; 10]%N)].

(** Two Python files with the same bytes. *)
Definition twin_world : world :=
  flat_world [("a.py"%string, [120; 10]%N); ("b.py"%string, [120; 10]%N)].

(** The path [scanfile] opens for a record. *)
Definition path_of (f : Filename) : pystr := OsPath.join (path f) (name f).

(** Two code points that are the same, or an ASCII capital letter and its
    small letter. *)
Definition is_upper (c : N) : bool := ((0x41 <=? c) && (c <=? 0x5A))%N.

Definition same_letter (a b : N) : bool :=
  ((a =? b) || is_upper a && (b =? a + 0x20) || is_upper b && (a =? b + 0x20))%N.

(** Two strings that differ in the case of ASCII letters at most. *)
Fixpoint case_variant (a b : pystr) : bool :=
  match a, b with
  | [], [] => true
  | x :: a', y :: b' => same_letter x y && case_variant a' b'
  | _, _ => false
  end.

(** The files [scanfile] returns from at once: those of size zero and
    those whose extension no language lists. *)
Definition skipped (f : Filename) : bool :=
  (size f =? 0)%Z
  || match find_lang langs (extension f) with Some _ => false | None => true end.

(** A directory with two empty files, a file of an unknown extension and
    a Python file. *)
Definition skipped_world : world :=
  flat_world [("empty.py"%string, []); ("also_empty.c"%string, []);
              ("notes.xyz"%string, [120; 10]%N); ("b.py"%string, [120; 10]%N)].

(** A directory with the files [Main.PY], [util.py], [X.FOO], [y.foo] and
    [m.MAC]. *)
Definition case_world : world :=
  flat_world [("Main.PY"%string, [120; 10]%N); ("util.py"%string, [121; 10]%N);
              ("X.FOO"%string, [120; 10]%N); ("y.foo"%string, [121; 10]%N);
              ("m.MAC"%string, [39; 120; 10]%N)].

(** ** Notions used in the further properties *)

(** The line starts with one of the line-comment tokens of the rule. *)
Definition line_comment (r : Lang.rule) (line : pystr) : bool :=
  existsb (Str.startswith line) (Lang.comment r).

(** No start token of a block comment of the rule occurs in the line. *)
Definition no_block_token (r : Lang.rule) (line : pystr) : bool :=
  forallb (fun p => negb (Str.contains (fst p) line)) (Lang.bcomm r).

(** The counter a line goes to when it is the first line of a file. *)
Definition kind_alone (r : Lang.rule) (raw_line : pystr) : option kind :=
  option_map fst (classify r init_flags raw_line).

(** The list of the values, when every element has one. *)
Fixpoint all_some (A : Type) (l : list (option A)) : option (list A) :=
  match l with
  | [] => Some []
  | None :: _ => None
  | Some a :: r => option_map (cons a) (all_some r)
  end.

(** [l] is [l'] with some elements left out, the others in their order. *)
Inductive subseq (A : Type) : list A -> list A -> Prop :=
| subseq_nil : subseq [] []
| subseq_skip (x : A) (l l' : list A) : subseq l l' -> subseq l (x :: l')
| subseq_keep (x : A) (l l' : list A) : subseq l l' -> subseq (x :: l) (x :: l').

(** The record has a language. *)
Definition has_lang (f : Filename) : bool :=
  match lang f with Some _ => true | None => false end.

(** The row [report_file] prints for a record. *)
Definition file_row (f : Filename) : out_line :=
  Detail (shortname f) 1 (blanks f) (comments f) (code f) (lines f).

(** The five numbers of a detail row; zero for any other line. *)
Definition row_files (o : out_line) : Z :=
  match o with Detail _ n _ _ _ _ => n | _ => 0%Z end.
Definition row_blank (o : out_line) : Z :=
  match o with Detail _ _ n _ _ _ => n | _ => 0%Z end.
Definition row_comment (o : out_line) : Z :=
  match o with Detail _ _ _ n _ _ => n | _ => 0%Z end.
Definition row_code (o : out_line) : Z :=
  match o with Detail _ _ _ _ n _ => n | _ => 0%Z end.
Definition row_line (o : out_line) : Z :=
  match o with Detail _ _ _ _ _ n => n | _ => 0%Z end.

(** The sum of a column over the lines of a report. *)
Definition col_sum (sel : out_line -> Z) (out : list out_line) : Z :=
  fold_right (fun o a => (sel o + a)%Z) 0%Z out.

(** The sum of a counter over a list of records. *)
Definition total_of (m : Filename -> Z) (l : list Filename) : Z :=
  fold_right (fun f a => (m f + a)%Z) 0%Z l.

(** The order [sorted(l, key=k, reverse=True)] sorts by: [y] goes in front
    of [x] when its key is the greater one. *)
Definition key_before (A : Type) (key_of : A -> Z) (y x : A) : bool :=
  (key_of x <? key_of y)%Z.

(** A directory tree without the folders that [walk] does not enter. *)
Fixpoint prune (t : dirtree) : dirtree :=
  match t with
  | Dir files subdirs =>
      Dir files
        ((fix keep (ds : list (pystr * dirtree)) : list (pystr * dirtree) :=
            match ds with
            | [] => []
            | (folder, sub) :: rest =>
                if str_in folder ignoredirs then keep rest
                else (folder, prune sub) :: keep rest
            end) subdirs)
  end.

(** The texts of the detail rows of a report, and the directories of its
    directory lines, in the order printed. *)
Definition labels (out : list out_line) : list pystr :=
  flat_map (fun o => match o with Detail t _ _ _ _ _ => [t] | _ => [] end) out.

Definition dirlines (out : list out_line) : list pystr :=
  flat_map (fun o => match o with DirLine d => [d] | _ => [] end) out.

(** A list of names without the names that repeat the one before them;
    [prev] is the name before the first. *)
Fixpoint squeeze (prev : option pystr) (ns : list pystr) : list pystr :=
  match ns with
  | [] => []
  | n :: r =>
      if opt_eqb (Some n) prev then squeeze prev r else n :: squeeze (Some n) r
  end.

(** The names of the languages, and the short paths, of a list of records. *)
Definition lang_names (l : list Filename) : list pystr :=
  flat_map (fun f => match lang f with Some n => [n] | None => [] end) l.

Definition short_paths (l : list Filename) : list pystr :=
  flat_map (fun f => match shortpath f with Some n => [n] | None => [] end) l.

(** What holds of a record once [scanfile] is through with it: it has a
    short path; its language, when it has one, has a name; and its counters
    are zero when it has none. *)
Definition well_scanned (g : Filename) : Prop :=
  truthy (shortpath g) = true /\
  lang g <> Some [] /\
  balanced g /\
  (has_lang g = false ->
   lines g = 0%Z /\ code g = 0%Z /\ comments g = 0%Z /\ blanks g = 0%Z).


(** * Properties *)

(** ** Strings *)

Lemma eqb_eq (a b : pystr) : Str.eqb a b = true <-> a = b.
Proof.
  revert b; induction a as [|x a IH]; intros [|y b]; simpl;
    try (split; [discriminate | discriminate]); try tauto.
  rewrite andb_true_iff, N.eqb_eq, IH.
  split; [intros [-> ->]; reflexivity | intros E; inversion E; auto].
Qed.

Lemma eqb_refl (a : pystr) : Str.eqb a a = true.
Proof. apply eqb_eq; reflexivity. Qed.

Lemma eqb_neq (a b : pystr) : Str.eqb a b = false <-> a <> b.
Proof.
  rewrite <- eqb_eq. destruct (Str.eqb a b); split; congruence.
Qed.

Lemma startswith_length (s p : pystr) :
  Str.startswith s p = true -> (List.length p <= List.length s)%nat.
Proof.
  revert s; induction p as [|x p IH]; intros [|y s]; simpl; try lia;
    try discriminate.
  rewrite andb_true_iff. intros [_ E]. apply IH in E. lia.
Qed.

Lemma startswith_firstn (s : pystr) (k : nat) :
  Str.startswith s (firstn k s) = true.
Proof.
  revert k; induction s as [|y s IH]; intros [|k]; simpl; auto.
  rewrite N.eqb_refl; simpl; apply IH.
Qed.

Lemma index_eq (sub s : pystr) :
  Str.index sub s =
  if Str.startswith s sub then Some 0%nat
  else match s with
       | [] => None
       | _ :: r => option_map S (Str.index sub r)
       end.
Proof. destruct s; reflexivity. Qed.

Lemma index_sound (sub s : pystr) (n : nat) :
  Str.index sub s = Some n ->
  Str.startswith (skipn n s) sub = true /\ (n + List.length sub <= List.length s)%nat.
Proof.
  revert n; induction s as [|c s IH]; intros n; rewrite index_eq;
    destruct (Str.startswith _ sub) eqn:E; try discriminate.
  - intros [= <-]. split; [exact E|]. apply startswith_length in E. simpl in *; lia.
  - intros [= <-]. split; [exact E|]. apply startswith_length in E. simpl in *; lia.
  - destruct (Str.index sub s) as [m|]; simpl; [|discriminate].
    intros [= <-]. destruct (IH m eq_refl) as [E1 E2]. split; [exact E1 | lia].
Qed.

Lemma index_complete (sub s : pystr) (i : nat) :
  Str.startswith (skipn i s) sub = true ->
  exists n, Str.index sub s = Some n /\ (n <= i)%nat.
Proof.
  revert i; induction s as [|c s IH]; intros i E; rewrite index_eq.
  - rewrite skipn_nil in E. rewrite E. exists 0%nat; split; [reflexivity | lia].
  - destruct (Str.startswith (c :: s) sub) eqn:E0.
    + exists 0%nat; split; [reflexivity | lia].
    + destruct i as [|i]; [rewrite skipn_O in E; congruence|].
      rewrite skipn_cons in E. destruct (IH i E) as (n & -> & Hn).
      exists (S n); split; [reflexivity | lia].
Qed.

Lemma contains_index (sub s : pystr) :
  Str.contains sub s = true <-> exists n, Str.index sub s = Some n.
Proof.
  unfold Str.contains. destruct (Str.index sub s) as [n|].
  - split; [eauto | reflexivity].
  - split; [discriminate | intros [n E]; discriminate].
Qed.

Lemma replace1_length (s old : pystr) (n : nat) :
  Str.index old s = Some n ->
  (List.length (Str.replace1 s old []) + List.length old = List.length s)%nat.
Proof.
  intros E. unfold Str.replace1. rewrite E.
  apply index_sound in E. destruct E as [_ E].
  simpl. rewrite length_app, length_firstn, length_skipn. lia.
Qed.

(** ** The [while] loop of [scanfile] *)

Lemma bound_of_nat (s : pystr) (n : nat) :
  (n <= List.length s)%nat -> Str.bound s (Z.of_nat n) = n.
Proof.
  intros Hn. unfold Str.bound, Str.len.
  destruct (Z.ltb_spec (Z.of_nat n) 0); lia.
Qed.

Lemma find_from_nat (line e : pystr) (n : nat) :
  (n <= List.length line)%nat ->
  Str.find_from line e (Z.of_nat n) =
  match Str.index e (skipn n line) with
  | Some k => Z.of_nat (n + k)
  | None => (-1)%Z
  end.
Proof.
  intros Hn. unfold Str.find_from, Str.len.
  destruct (Z.ltb_spec (Z.of_nat n) 0); [lia|].
  destruct (Z.ltb_spec (Z.of_nat (List.length line)) (Z.of_nat n)); [lia|].
  rewrite Nat2Z.id. destruct (Str.index e (skipn n line)); [lia | reflexivity].
Qed.

(** What a positive [epos] tells: the end token occurs [k] code points
    after [spos], inside the line. *)
Lemma epos_positive (line token e : pystr) :
  Str.contains token line = true ->
  (0 < Str.find_from line e (Str.find line token))%Z ->
  exists n k,
    Str.index token line = Some n /\
    Str.find line token = Z.of_nat n /\
    Str.index e (skipn n line) = Some k /\
    Str.find_from line e (Z.of_nat n) = Z.of_nat (n + k) /\
    (n + k + List.length e <= List.length line)%nat.
Proof.
  intros Hc Hpos. apply contains_index in Hc. destruct Hc as [n Hn].
  unfold Str.find in *. rewrite Hn in *.
  destruct (index_sound _ _ Hn) as [_ Hle].
  assert (Hn' : (n <= List.length line)%nat) by lia.
  rewrite (find_from_nat _ e Hn') in *.
  destruct (Str.index e (skipn n line)) as [k|] eqn:Hk; [|lia].
  exists n, k. repeat split; auto.
  - rewrite (find_from_nat _ e Hn'), Hk. reflexivity.
  - apply index_sound in Hk. destruct Hk as [_ Hk].
    rewrite length_skipn in Hk. lia.
Qed.

(** The test [if endblock in line] under [if epos > 0] never fails: the
    branch that sets [inblock = True] is not reachable. *)
Lemma epos_positive_contains (line token e : pystr) :
  Str.contains token line = true ->
  (0 < Str.find_from line e (Str.find line token))%Z ->
  Str.contains e line = true.
Proof.
  intros Hc Hpos. destruct (epos_positive _ _ _ Hc Hpos) as (n & k & _ & _ & Hk & _).
  apply index_sound in Hk. destruct Hk as [Hk _].
  rewrite skipn_skipn in Hk.
  apply contains_index. destruct (index_complete _ _ _ Hk) as (m & Hm & _). eauto.
Qed.

(** The slice that an iteration removes is [k + len(endblock)] long and
    occurs in the line. *)
Lemma removed_slice (line token e : pystr) :
  Str.contains token line = true ->
  (0 < Str.find_from line e (Str.find line token))%Z ->
  let spos := Str.find line token in
  let epos := (Str.find_from line e spos + Str.len e)%Z in
  (List.length (Str.replace1 line (Str.slice line spos epos) []) + List.length e
   <= List.length line)%nat.
Proof.
  intros Hc Hpos. destruct (epos_positive _ _ _ Hc Hpos) as (n & k & _ & Hf & _ & He & Hle).
  simpl. rewrite Hf, He. unfold Str.len.
  replace (Z.of_nat (n + k) + Z.of_nat (List.length e))%Z
    with (Z.of_nat (n + k + List.length e)) by lia.
  unfold Str.slice. rewrite !bound_of_nat by lia.
  set (old := firstn _ _).
  assert (Hlen : List.length old = (k + List.length e)%nat).
  { unfold old. rewrite length_firstn, length_skipn. lia. }
  assert (Hs : Str.startswith (skipn n line) old = true) by apply startswith_firstn.
  destruct (index_complete _ _ _ Hs) as (m & Hm & _).
  pose proof (replace1_length _ _ Hm). lia.
Qed.

Lemma block_while_inblock (fuel : nat) (token e line line' : pystr) (ib ib' : bool) :
  block_while fuel token e line ib = Some (line', ib') -> ib' = ib.
Proof.
  revert line; induction fuel as [|fuel IH]; intros line; simpl; [discriminate|].
  destruct (Str.contains token line) eqn:Hc; [|congruence].
  destruct (Z.ltb_spec 0 (Str.find_from line e (Str.find line token))); [|congruence].
  rewrite (epos_positive_contains _ _ _ Hc) by assumption.
  apply IH.
Qed.

(** With a non-empty end token the loop is left before the fuel is. *)
Lemma block_while_total (fuel : nat) (token e line : pystr) (ib : bool) :
  e <> [] -> (List.length line < fuel)%nat ->
  exists line', block_while fuel token e line ib = Some (line', ib).
Proof.
  intros He. revert line; induction fuel as [|fuel IH]; intros line Hf; [lia|].
  simpl.
  destruct (Str.contains token line) eqn:Hc; [|eauto].
  destruct (Z.ltb_spec 0 (Str.find_from line e (Str.find line token))); [|eauto].
  rewrite (epos_positive_contains _ _ _ Hc) by assumption.
  apply IH. pose proof (removed_slice _ _ _ Hc H) as Hr. simpl in Hr.
  destruct e; [congruence|]. simpl in Hr. lia.
Qed.

(** ** The classifier *)

Lemma block_for_flags (pairs : list (pystr * pystr)) (fl fl' : flags)
  (line line' : pystr) :
  block_for pairs fl line = Some (fl', line') ->
  inblock fl' = inblock fl /\ endcode fl' = endcode fl.
Proof.
  revert fl line; induction pairs as [|[token e] rest IH]; intros fl line;
    cbn [block_for].
  - intros [= <- <-]; auto.
  - destruct (block_while (S (List.length line)) token e line (inblock fl))
      as [[l1 ib1]|] eqn:Hw; [|discriminate].
    apply block_while_inblock in Hw. subst ib1.
    intros Hf. apply IH in Hf. simpl in Hf. exact Hf.
Qed.

Lemma block_for_total (pairs : list (pystr * pystr)) (fl : flags) (line : pystr) :
  forallb (fun p => negb (Str.eqb (snd p) [])) pairs = true ->
  exists fl' line', block_for pairs fl line = Some (fl', line').
Proof.
  revert fl line; induction pairs as [|[token e] rest IH]; intros fl line;
    cbn [block_for forallb snd].
  - eauto.
  - rewrite andb_true_iff, negb_true_iff, eqb_neq. intros [He Hrest].
    destruct (@block_while_total (S (List.length line)) token e line (inblock fl)
                He (Nat.lt_succ_diag_r _)) as [l1 ->].
    apply IH, Hrest.
Qed.

(** From the start of a file on, [inblock] is never set: the classifier
    does not enter the block-comment state. *)
Lemma classify_inblock (r : Lang.rule) (fl fl' : flags) (raw : pystr) (k : kind) :
  inblock fl = false -> classify r fl raw = Some (k, fl') -> inblock fl' = false.
Proof.
  intros Hib. unfold classify. rewrite Hib. simpl.
  destruct (Str.eqb (Str.strip raw) []); [intros [= <- <-]; exact Hib|].
  destruct (endcode fl); [intros [= <- <-]; exact Hib|].
  destruct (block_for _ fl _) as [[fl1 line1]|] eqn:Hb; [|discriminate].
  apply block_for_flags in Hb. destruct Hb as [Hb _]. rewrite Hib in Hb.
  destruct (Str.eqb line1 []); [intros [= <- <-]; exact Hb|].
  destruct (existsb _ (Lang.comment r)); [intros [= <- <-]; exact Hb|].
  destruct (existsb _ (Lang.endcode r)); intros [= <- <-]; exact Hb.
Qed.

Lemma classify_total (r : Lang.rule) (fl : flags) (raw : pystr) :
  ends_nonempty r = true -> inblock fl = false ->
  exists k fl', classify r fl raw = Some (k, fl').
Proof.
  intros Hr Hib. unfold classify. rewrite Hib. simpl.
  destruct (Str.eqb (Str.strip raw) []); [eauto|].
  destruct (endcode fl); [eauto|].
  destruct (@block_for_total (Lang.bcomm r) fl (Str.strip raw) Hr) as (fl1 & line1 & ->).
  destruct (Str.eqb line1 []); [eauto|].
  destruct (existsb _ (Lang.comment r)); eauto.
Qed.

Lemma count_counted (k : kind) (f : Filename) :
  counted_from f (count k (incr_lines f)) 1.
Proof.
  destruct k; unfold counted_from; simpl; repeat split; lia.
Qed.

Lemma counted_from_trans (f f1 f2 : Filename) (n m : Z) :
  counted_from f f1 n -> counted_from f1 f2 m -> counted_from f f2 (n + m).
Proof.
  unfold counted_from. intros H1 H2.
  decompose [and] H1. decompose [and] H2.
  repeat split; try lia; congruence.
Qed.

Lemma counted_from_refl (f : Filename) : counted_from f f 0.
Proof. unfold counted_from; repeat split; lia. Qed.

Lemma utf8_encode_app (a b : pystr) :
  TextIO.utf8_encode (a ++ b) = TextIO.utf8_encode a ++ TextIO.utf8_encode b.
Proof. apply flat_map_app. Qed.

(** The loop over the lines, when it ends: the digest has been fed the
    encoding of every line, in order, whatever the lines were counted as. *)
Lemma scan_lines_spec (r : Lang.rule) (ls : list pystr) (fl fl' : flags)
  (fed fed' : bytes) (f f' : Filename) :
  scan_lines r ls fl fed f = Some (fl', fed', f') ->
  fed' = fed ++ TextIO.utf8_encode (List.concat ls) /\
  counted_from f f' (Z.of_nat (List.length ls)) /\
  (inblock fl = false -> inblock fl' = false).
Proof.
  revert fl fed f; induction ls as [|l ls IH]; intros fl fed f.
  - simpl. intros [= <- <- <-]. rewrite app_nil_r.
    split; [reflexivity|]. split; [apply counted_from_refl | auto].
  - cbn [scan_lines].
    destruct (classify r fl l) as [[k fl1]|] eqn:Hc; [|discriminate].
    intros Hs. apply IH in Hs. destruct Hs as (-> & Hcnt & Hib).
    split; [|split].
    + cbn [List.concat]. rewrite utf8_encode_app, app_assoc. reflexivity.
    + replace (Z.of_nat (List.length (l :: ls)))
        with (1 + Z.of_nat (List.length ls))%Z by (cbn [List.length]; lia).
      eapply counted_from_trans; [apply count_counted | exact Hcnt].
    + intros H0. apply Hib. eapply classify_inblock; eauto.
Qed.

Lemma scan_lines_total (r : Lang.rule) (ls : list pystr) (fl : flags)
  (fed : bytes) (f : Filename) :
  ends_nonempty r = true -> inblock fl = false ->
  exists fl' fed' f', scan_lines r ls fl fed f = Some (fl', fed', f').
Proof.
  intros Hr. revert fl fed f; induction ls as [|l ls IH]; intros fl fed f Hib.
  - simpl; eauto.
  - cbn [scan_lines].
    destruct (@classify_total r fl l Hr Hib) as (k & fl1 & Hc). rewrite Hc.
    apply IH. eapply classify_inblock; eauto.
Qed.

(** ** The registry *)

Lemma langs_ends_nonempty :
  forallb (fun p => ends_nonempty (snd p)) langs = true.
Proof. vm_compute. reflexivity. Qed.

Lemma dict_get_In (A : Type) (k : pystr) (d : list (pystr * A)) (v : A) :
  dict_get k d = Some v -> In (k, v) d.
Proof.
  induction d as [|[k' v'] d IH]; simpl; [discriminate|].
  destruct (Str.eqb k k') eqn:E.
  - apply eqb_eq in E. subst. intros [= ->]. auto.
  - auto.
Qed.

Lemma find_lang_key (registry : list (pystr * Lang.rule)) (e l : pystr) :
  find_lang registry e = Some l -> exists r, dict_get l registry = Some r.
Proof.
  induction registry as [|[l0 r0] rest IH]; simpl; [discriminate|].
  destruct (str_in e (Lang.ext r0)).
  - intros [= <-]. rewrite eqb_refl. eauto.
  - intros Hf. destruct (Str.eqb l l0); eauto.
Qed.

Lemma langs_rule_ok (l : pystr) (r : Lang.rule) :
  dict_get l langs = Some r -> ends_nonempty r = true.
Proof.
  intros Hg. apply dict_get_In in Hg.
  pose proof langs_ends_nonempty as Hall. rewrite forallb_forall in Hall.
  exact (Hall _ Hg).
Qed.

(** ** Text files *)

Lemma concat_split_lines (s : pystr) : List.concat (TextIO.split_lines s) = s.
Proof.
  induction s as [|c s IH]; simpl; [reflexivity|].
  destruct (c =? 10)%N; simpl; [rewrite IH; reflexivity|].
  destruct (TextIO.split_lines s) as [|l ls]; simpl in *; rewrite <- IH; reflexivity.
Qed.

Lemma concat_read_lines (raw : bytes) :
  List.concat (TextIO.read_lines raw) = TextIO.decode_text raw.
Proof. apply concat_split_lines. Qed.

(** ** [remove_duplicates] *)

Lemma key_eqb_eq (a b : option bytes) : key_eqb a b = true <-> a = b.
Proof.
  destruct a as [x|], b as [y|]; simpl; try (split; congruence).
  rewrite eqb_eq. split; congruence.
Qed.

Lemma key_eqb_refl (a : option bytes) : key_eqb a a = true.
Proof. apply key_eqb_eq; reflexivity. Qed.

Lemma key_eqb_sym (a b : option bytes) : key_eqb a b = key_eqb b a.
Proof.
  destruct (key_eqb a b) eqn:E1, (key_eqb b a) eqn:E2; auto.
  - apply key_eqb_eq in E1. subst. rewrite key_eqb_refl in E2. discriminate.
  - apply key_eqb_eq in E2. subst. rewrite key_eqb_refl in E1. discriminate.
Qed.

Lemma key_in_map (k : option bytes) (u : list (option bytes * Filename)) :
  key_in k u = existsb (key_eqb k) (map fst u).
Proof.
  unfold key_in. induction u as [|kv u IH]; simpl; [reflexivity|].
  rewrite IH. reflexivity.
Qed.

Lemma fold_remember (l : list Filename) (u : list (option bytes * Filename)) :
  map snd (fold_left remember l u) = map snd u ++ firsts (map fst u) l.
Proof.
  revert u; induction l as [|f l IH]; intros u; simpl.
  - rewrite app_nil_r. reflexivity.
  - rewrite IH. unfold remember. rewrite key_in_map.
    destruct (existsb (key_eqb (sha256 f)) (map fst u)); [reflexivity|].
    rewrite !map_app. simpl. rewrite <- app_assoc. reflexivity.
Qed.

Lemma remove_duplicates_firsts (l : list Filename) :
  remove_duplicates l = firsts [] l.
Proof. unfold remove_duplicates. rewrite fold_remember. reflexivity. Qed.

Lemma filter_firsts (k : option bytes) (l : list Filename) (seen : list (option bytes)) :
  filter (has_key k) (firsts seen l) =
  if existsb (key_eqb k) seen then [] else firstn 1 (filter (has_key k) l).
Proof.
  revert seen; induction l as [|f l IH]; intros seen; simpl.
  - destruct (existsb _ seen); reflexivity.
  - destruct (existsb (key_eqb (sha256 f)) seen) eqn:Es.
    + rewrite IH. unfold has_key at 2.
      destruct (key_eqb (sha256 f) k) eqn:Ek; [|reflexivity].
      apply key_eqb_eq in Ek. subst k. rewrite Es. reflexivity.
    + simpl. rewrite IH, existsb_app. simpl. rewrite orb_false_r.
      unfold has_key. rewrite (key_eqb_sym k (sha256 f)).
      destruct (key_eqb (sha256 f) k) eqn:Ek.
      * apply key_eqb_eq in Ek. subst k. rewrite Es, orb_true_r. reflexivity.
      * rewrite orb_false_r. reflexivity.
Qed.

(** Of the records with a given digest, [remove_duplicates] keeps the
    first one of the list and no other. *)
Lemma remove_duplicates_filter (k : option bytes) (l : list Filename) :
  filter (has_key k) (remove_duplicates l) = firstn 1 (filter (has_key k) l).
Proof. rewrite remove_duplicates_firsts. apply filter_firsts. Qed.

Lemma firsts_incl (l : list Filename) (seen : list (option bytes)) (f : Filename) :
  In f (firsts seen l) -> In f l.
Proof.
  revert seen; induction l as [|g l IH]; intros seen; simpl; [auto|].
  destruct (existsb _ seen); simpl; intros Hin; [eauto|].
  destruct Hin; eauto.
Qed.

Lemma remove_duplicates_incl (l : list Filename) (f : Filename) :
  In f (remove_duplicates l) -> In f l.
Proof. rewrite remove_duplicates_firsts. apply firsts_incl. Qed.

(** ** Totals *)

Lemma fold_add_file (l : list Filename) (cc : CodeCounter) :
  let cc' := fold_left add_file l cc in
  filelist cc' = filelist cc /\
  tlines cc' = (tlines cc + fold_right (fun f a => lines f + a) 0 l)%Z /\
  tcode cc' = (tcode cc + fold_right (fun f a => code f + a) 0 l)%Z /\
  tcomments cc' = (tcomments cc + fold_right (fun f a => comments f + a) 0 l)%Z /\
  tblanks cc' = (tblanks cc + fold_right (fun f a => blanks f + a) 0 l)%Z /\
  tfiles cc' =
    (tfiles cc + Z.of_nat (List.length (filter (fun f => 0 <? lines f) l)))%Z.
Proof.
  revert cc; induction l as [|f l IH]; intros cc; simpl.
  - repeat split; lia.
  - specialize (IH (add_file cc f)). simpl in IH.
    destruct IH as (E0 & E1 & E2 & E3 & E4 & E5).
    rewrite E0, E1, E2, E3, E4, E5. simpl.
    repeat split; try lia.
    destruct (0 <? lines f)%Z; simpl; lia.
Qed.

Lemma sums_balanced (l : list Filename) :
  Forall balanced l ->
  (fold_right (fun f a => lines f + a) 0 l =
   fold_right (fun f a => code f + a) 0 l
   + fold_right (fun f a => comments f + a) 0 l
   + fold_right (fun f a => blanks f + a) 0 l)%Z.
Proof.
  induction 1 as [|f l Hf _ IH]; simpl; [reflexivity|].
  unfold balanced in Hf. lia.
Qed.

Lemma accumulate_balanced (l : list Filename) :
  Forall balanced l ->
  let cc := accumulate (new_counter l) in
  filelist cc = l /\
  tlines cc = (tcode cc + tcomments cc + tblanks cc)%Z /\
  totals_assertion cc = true.
Proof.
  intros Hl. unfold accumulate.
  destruct (fold_add_file l (new_counter l)) as (E0 & E1 & E2 & E3 & E4 & _).
  simpl in *. pose proof (sums_balanced Hl) as Hs.
  split; [exact E0|].
  assert (tlines (fold_left add_file l (new_counter l)) =
          (tcode (fold_left add_file l (new_counter l))
           + tcomments (fold_left add_file l (new_counter l))
           + tblanks (fold_left add_file l (new_counter l)))%Z) as Ht by lia.
  split; [exact Ht|].
  unfold totals_assertion. apply Z.eqb_eq. lia.
Qed.

(** ** [listfiles] *)

Lemma Filename_init_fresh (w : world) (argpath p n : pystr) :
  fresh (Filename_init w argpath p n).
Proof. unfold fresh; simpl; repeat split. Qed.

Lemma walk_files_fresh (w : world) (argpath root : pystr) (files : list pystr) :
  Forall fresh (snd (walk_files w argpath root files)).
Proof.
  unfold walk_files. induction files as [|n files IH]; simpl; [constructor|].
  destruct (isfile w _); simpl; [|exact IH].
  constructor; [apply Filename_init_fresh | exact IH].
Qed.

Lemma walk_tree_fresh (w : world) (argpath : pystr) :
  forall (t : dirtree) (root : pystr),
    Forall fresh (snd (walk_tree w argpath root t)).
Proof.
  fix IH 1. intros [files subdirs] root. cbn [walk_tree snd].
  apply Forall_app. split; [apply walk_files_fresh|].
  induction subdirs as [|[folder sub] rest IHr]; [constructor|].
  destruct (str_in folder ignoredirs); [exact IHr|].
  cbn [snd]. apply Forall_app. split; [apply IH | exact IHr].
Qed.

Lemma listfiles_fresh (args : Args) (w : world) :
  Forall fresh (snd (listfiles args w)).
Proof.
  unfold listfiles. destruct (isdir w (arg_path args)).
  - apply walk_tree_fresh.
  - destruct (OsPath.split (arg_path args)) as [root filename].
    destruct (isfile w _); simpl; [|constructor].
    constructor; [apply Filename_init_fresh | constructor].
Qed.

Lemma walk_files_events (w : world) (argpath root : pystr) (files : list pystr) :
  forallb walk_event (fst (walk_files w argpath root files)) = true.
Proof.
  unfold walk_files. induction files as [|n files IH]; simpl; [reflexivity|].
  destruct (isfile w _); simpl; exact IH.
Qed.

Lemma walk_tree_events (w : world) (argpath : pystr) :
  forall (t : dirtree) (root : pystr),
    forallb walk_event (fst (walk_tree w argpath root t)) = true.
Proof.
  fix IH 1. intros [files subdirs] root. cbn [walk_tree fst forallb walk_event].
  rewrite forallb_app, walk_files_events. cbn [andb].
  induction subdirs as [|[folder sub] rest IHr]; [reflexivity|].
  destruct (str_in folder ignoredirs); [exact IHr|].
  cbn [fst]. rewrite forallb_app, IH. exact IHr.
Qed.

Lemma listfiles_events (args : Args) (w : world) :
  forallb walk_event (fst (listfiles args w)) = true.
Proof.
  unfold listfiles. destruct (isdir w (arg_path args)).
  - apply walk_tree_events.
  - destruct (OsPath.split (arg_path args)) as [root filename].
    destruct (isfile w _); reflexivity.
Qed.

(** ** [scanfile] *)

Section ScanFacts.

Variable sha256_digest : bytes -> bytes.

(** A file of size zero, or one whose extension no language lists, is
    returned as it is and is not opened. *)
Lemma scanfile_skipped (w : world) (f : Filename) :
  lang f = None ->
  size f = 0%Z \/ find_lang langs (extension f) = None ->
  scanfile sha256_digest w f = ([], Some f).
Proof.
  intros Hl Hs. unfold scanfile.
  destruct (Z.eqb_spec (size f) 0) as [|Hne]; [reflexivity|].
  destruct Hs as [Hs|Hs]; [contradiction|].
  rewrite Hs, Hl. reflexivity.
Qed.

(** Any other file is opened and scanned to its end: the call returns,
    the language is the first that lists the extension, the digest is that
    of the re-encoded text, and one of the three counters went up for each
    line. *)
Lemma scanfile_scanned (w : world) (f : Filename) (l : pystr) :
  size f <> 0%Z ->
  find_lang langs (extension f) = Some l ->
  let p := OsPath.join (path f) (name f) in
  exists f2,
    scanfile sha256_digest w f =
      ([EvOpen p],
       Some (set_sha256
               (sha256_digest (TextIO.utf8_encode (TextIO.decode_text (file_bytes w p))))
               f2)) /\
    counted_from (set_lang l f) f2
      (Z.of_nat (List.length (TextIO.read_lines (file_bytes w p)))).
Proof.
  intros Hs Hf p. unfold scanfile.
  destruct (Z.eqb_spec (size f) 0) as [|_]; [contradiction|].
  rewrite Hf. cbn [lang set_lang path name]. fold p.
  destruct (find_lang_key _ _ Hf) as [r Hr]. rewrite Hr.
  pose proof (langs_rule_ok _ Hr) as Hok.
  destruct (@scan_lines_total r (TextIO.read_lines (file_bytes w p)) init_flags []
              (set_lang l f) Hok eq_refl) as (fl' & fed' & f2 & Hscan).
  rewrite Hscan. apply scan_lines_spec in Hscan.
  destruct Hscan as (-> & Hcnt & _).
  rewrite concat_read_lines. exists f2. split; [reflexivity | exact Hcnt].
Qed.

(** [scanfile] returns for every record that has no language yet. *)
Lemma scanfile_returns (w : world) (f : Filename) :
  lang f = None ->
  exists f', snd (scanfile sha256_digest w f) = Some f' /\
             (balanced f -> balanced f') /\
             (sha256 f = None ->
              (sha256 f' = None <->
               size f = 0%Z \/ find_lang langs (extension f) = None)).
Proof.
  intros Hl.
  destruct (Z.eq_dec (size f) 0) as [Hz|Hz];
    [|destruct (find_lang langs (extension f)) as [l|] eqn:Hf].
  - exists f. rewrite scanfile_skipped by auto. simpl. tauto.
  - destruct (scanfile_scanned w f Hz Hf) as (f2 & -> & Hc).
    eexists; split; [reflexivity|]. split.
    + unfold balanced, counted_from in *. simpl in *. lia.
    + simpl. intros _. split; [discriminate|]. intros [?|?]; congruence.
  - exists f. rewrite scanfile_skipped by auto. simpl. tauto.
Qed.

Lemma scan_all_returns (w : world) (fl : list Filename) :
  Forall fresh fl ->
  exists fl',
    snd (scan_all sha256_digest w fl) = Some fl' /\
    Forall2 (fun f f' => snd (scanfile sha256_digest w f) = Some f') fl fl'.
Proof.
  induction 1 as [|f fl Hf _ IH]; simpl.
  - exists []. split; [reflexivity | constructor].
  - destruct Hf as (Hl & _).
    destruct (scanfile_returns w f Hl) as (f' & Hs & _).
    destruct IH as (fl' & Ha & Hall).
    destruct (scanfile sha256_digest w f) as [ev o] eqn:E. simpl in Hs. subst o.
    destruct (scan_all sha256_digest w fl) as [ev' o']. simpl in Ha. subst o'.
    exists (f' :: fl'). split; [reflexivity|].
    constructor; [rewrite E; reflexivity | exact Hall].
Qed.

Lemma fresh_balanced (f : Filename) : fresh f -> balanced f.
Proof. unfold fresh, balanced. intros (_ & _ & -> & -> & -> & ->). reflexivity. Qed.

Lemma scan_all_balanced (w : world) (fl fl' : list Filename) :
  Forall fresh fl ->
  Forall2 (fun f f' => snd (scanfile sha256_digest w f) = Some f') fl fl' ->
  Forall balanced fl'.
Proof.
  intros Hfr Hall. induction Hall as [|f f' fl fl' Hs _ IH]; [constructor|].
  inversion Hfr as [|? ? Hf Hfl]; subst.
  constructor; [|apply IH, Hfl].
  destruct (scanfile_returns w f (proj1 Hf)) as (g & Hg & Hb & _).
  rewrite Hs in Hg. injection Hg as <-. apply Hb, fresh_balanced, Hf.
Qed.

End ScanFacts.

(** * The claims *)

(** ** C1: a block comment left open at the end of a line *)

(** In [block_while], [epos > 0] fails when no end token follows the start
    token, and the loop is left by [break] before [inblock = True] is
    reached; when it holds, [endblock in line] holds too.  So no run of
    [scan_lines] that starts outside a block ends inside one. *)
Lemma scan_never_inblock (r : Lang.rule) (ls : list pystr) (fed fed' : bytes)
  (f f' : Filename) (fl' : flags) :
  scan_lines r ls init_flags fed f = Some (fl', fed', f') -> inblock fl' = false.
Proof.
  intros Hs. apply scan_lines_spec in Hs. destruct Hs as (_ & _ & Hib).
  apply Hib. reflexivity.
Qed.

(** C1 (the code departs from the claim).  On the three lines
    ["int x; /* start"], ["still comment"], ["end */ int y;"] under the rule
    of C, [scanfile] counts every line as code: 3 code, 0 comment, 0 blank,
    3 lines, where the claim has Code, Comment, Code and 2, 1, 0, 3.  The
    first line is Code with the text from ["/*"] on still in it and
    [inblock] still false. *)
Theorem C1_open_block_not_entered :
  classify_lines c_rule init_flags block_example = Some [Code; Code; Code] /\
  scan_counts c_rule block_example = Some (3, 0, 0, 3)%Z /\
  block_for (Lang.bcomm c_rule) init_flags (str "int x; /* start") =
    Some (set_block (str "/*") (str "*/") init_flags, str "int x; /* start") /\
  dict_get (str "C") langs = Some c_rule /\
  forall sha256_digest,
    option_map counts
      (snd (scanfile sha256_digest block_world (record_of block_world "x.c")))
    = Some (3, 0, 0, 3)%Z.
Proof.
  repeat split; vm_compute; reflexivity.
Qed.

(** ** C2: the lines after an end-of-code sentinel *)

(** C2 as stated fails: of the four lines ["code();"], ["__END__"],
    ["more(); "], [""] under the rule of Perl, the last one is counted as
    blank, so the totals are 2 code, 1 comment, 1 blank, 4 lines, not
    2, 2, 0, 4. *)
Lemma C2_counterexample :
  classify_lines perl_rule init_flags sentinel_example
    = Some [Code; Code; Comment; Blank] /\
  scan_counts perl_rule sentinel_example = Some (2, 1, 1, 4)%Z /\
  scan_counts perl_rule sentinel_example <> Some (2, 2, 0, 4)%Z /\
  dict_get (str "Perl") langs = Some perl_rule.
Proof.
  vm_compute. repeat split. discriminate.
Qed.

Lemma classify_after_endcode (r : Lang.rule) (fl : flags) (raw : pystr) :
  endcode fl = true ->
  classify r fl raw = Some (if is_blank raw then Blank else Comment, fl).
Proof.
  intros He. unfold classify, is_blank. rewrite He.
  destruct (Str.eqb (Str.strip raw) []); reflexivity.
Qed.

(** C2, amended.  Once [endcode] is set it stays set, and every later line
    is counted as blank when it is empty after stripping and as comment
    otherwise; none is counted as code. *)
Theorem C2_after_endcode (r : Lang.rule) (ls : list pystr) (fl : flags)
  (fed : bytes) (f : Filename) :
  endcode fl = true ->
  classify_lines r fl ls
    = Some (map (fun l => if is_blank l then Blank else Comment) ls) /\
  exists fed' f',
    scan_lines r ls fl fed f = Some (fl, fed', f') /\
    code f' = code f /\
    blanks f' = (blanks f + Z.of_nat (List.length (filter is_blank ls)))%Z /\
    comments f' =
      (comments f
       + Z.of_nat (List.length (filter (fun l => negb (is_blank l)) ls)))%Z.
Proof.
  intros He. split.
  - induction ls as [|l ls IH]; [reflexivity|].
    cbn [classify_lines map]. rewrite classify_after_endcode by exact He.
    rewrite IH. reflexivity.
  - revert fed f; induction ls as [|l ls IH]; intros fed f.
    + exists fed, f. simpl. repeat split; lia.
    + cbn [scan_lines]. rewrite classify_after_endcode by exact He.
      destruct (IH (fed ++ TextIO.utf8_encode l)
                  (count (if is_blank l then Blank else Comment) (incr_lines f)))
        as (fed' & f' & -> & Hc & Hb & Hm).
      exists fed', f'. split; [reflexivity|].
      cbn [filter]. destruct (is_blank l); simpl in *; repeat split; lia.
Qed.

Lemma C2_after_endcode_witness :
  endcode (set_endcode init_flags) = true /\
  classify_lines perl_rule (set_endcode init_flags) [ln "more(); "; ln ""]
    = Some [Comment; Blank].
Proof.
  split; [reflexivity|].
  exact (proj1 (@C2_after_endcode perl_rule [ln "more(); "; ln ""]
                  (set_endcode init_flags) [] empty_record eq_refl)).
Defined.

(** ** C3: what the content digest is a digest of *)

Lemma map_encode_read_lines (raw : bytes) :
  List.concat (map TextIO.utf8_encode (TextIO.read_lines raw))
  = TextIO.utf8_encode (TextIO.decode_text raw).
Proof.
  rewrite <- concat_read_lines.
  induction (TextIO.read_lines raw) as [|l ls IH]; [reflexivity|].
  cbn [map List.concat]. rewrite IH, utf8_encode_app. reflexivity.
Qed.

Lemma plain_text_unchanged (raw : bytes) :
  forallb plain_byte raw = true ->
  TextIO.utf8_encode (TextIO.decode_text raw) = raw.
Proof.
  unfold TextIO.decode_text.
  induction raw as [|b raw IH]; [reflexivity|].
  cbn [forallb]. rewrite andb_true_iff. intros [Hb Hraw].
  unfold plain_byte in Hb. rewrite andb_true_iff, negb_true_iff in Hb.
  destruct Hb as [Hlt Hcr].
  cbn [TextIO.utf8_decode]. rewrite Hlt.
  cbn [TextIO.translate_newlines]. rewrite Hcr.
  unfold TextIO.utf8_encode in *. cbn [flat_map].
  rewrite (IH Hraw). unfold TextIO.encode_char. rewrite Hlt. reflexivity.
Qed.

(** C3 as stated fails: [a.py] and [b.py] differ in a byte that is no
    UTF-8, and [scanfile] gives them the same digest, for any hash function:
    the digest of the bytes of ["a\n"], which are not the bytes of [a.py]. *)
Lemma C3_counterexample :
  file_bytes invalid_byte_world (str "./a.py") = [97; 255; 10]%N /\
  file_bytes invalid_byte_world (str "./b.py") = [97; 10]%N /\
  forall sha256_digest,
    option_map sha256
      (snd (scanfile sha256_digest invalid_byte_world
              (record_of invalid_byte_world "a.py")))
    = Some (Some (sha256_digest [97; 10]%N)) /\
    option_map sha256
      (snd (scanfile sha256_digest invalid_byte_world
              (record_of invalid_byte_world "b.py")))
    = Some (Some (sha256_digest [97; 10]%N)).
Proof.
  repeat split; vm_compute; reflexivity.
Qed.

(** C3, amended.  For every file that is scanned, the digest is the hash
    of what the lines of the decoded text encode to, fed line by line: the
    UTF-8 encoding of the text of the file after the bytes that are no
    UTF-8 were dropped and the line ends were made ["\n"].  It does not
    depend on the language or on what the lines are counted as, and it is
    the hash of the bytes of the file when these are ASCII without a
    carriage return. *)
Theorem C3_digest_of_decoded_text (sha256_digest : bytes -> bytes) (w : world)
  (f : Filename) (l : pystr) :
  size f <> 0%Z ->
  find_lang langs (extension f) = Some l ->
  let raw := file_bytes w (OsPath.join (path f) (name f)) in
  exists f',
    snd (scanfile sha256_digest w f) = Some f' /\
    sha256 f' =
      Some (sha256_digest
              (List.concat (map TextIO.utf8_encode (TextIO.read_lines raw)))) /\
    List.concat (map TextIO.utf8_encode (TextIO.read_lines raw))
      = TextIO.utf8_encode (TextIO.decode_text raw) /\
    (forallb plain_byte raw = true -> sha256 f' = Some (sha256_digest raw)).
Proof.
  intros Hs Hf raw.
  destruct (scanfile_scanned sha256_digest w f Hs Hf) as (f2 & E & _).
  rewrite E. eexists. split; [reflexivity|].
  cbn [sha256 set_sha256]. fold raw. rewrite map_encode_read_lines.
  repeat split. intros Hp. rewrite (plain_text_unchanged _ Hp). reflexivity.
Qed.

Lemma C3_digest_of_decoded_text_witness :
  let f := record_of invalid_byte_world "b.py" in
  size f <> 0%Z /\
  find_lang langs (extension f) = Some (str "Python") /\
  exists f',
    snd (scanfile (fun b => b) invalid_byte_world f) = Some f' /\
    sha256 f' = Some [97; 10]%N.
Proof.
  intros f.
  assert (Hs : size f <> 0%Z) by (vm_compute; discriminate).
  assert (Hf : find_lang langs (extension f) = Some (str "Python"))
    by (vm_compute; reflexivity).
  split; [exact Hs|]. split; [exact Hf|].
  destruct (@C3_digest_of_decoded_text (fun b => b) invalid_byte_world f
              (str "Python") Hs Hf) as (f' & E1 & _ & _ & E4).
  exists f'. split; [exact E1|]. apply E4. vm_compute. reflexivity.
Defined.

(** ** C4: lines = code + comments + blanks *)

Lemma remove_duplicates_balanced (l : list Filename) :
  Forall balanced l -> Forall balanced (remove_duplicates l).
Proof.
  rewrite !Forall_forall. intros Hl f Hin.
  apply Hl, remove_duplicates_incl, Hin.
Qed.

(** What a run that is not cut short by [--output-languages] leaves: the
    scan of every file returns, and the totals are those of the records
    kept. *)
Lemma run_counter (sha256_digest : bytes -> bytes) (args : Args) (w : world) :
  output_languages args = false ->
  exists fl1,
    snd (scan_all sha256_digest w (snd (listfiles args w))) = Some fl1 /\
    Forall2 (fun f f' => snd (scanfile sha256_digest w f) = Some f')
      (snd (listfiles args w)) fl1 /\
    Forall balanced fl1 /\
    let fl2 := if include args then fl1 else remove_duplicates fl1 in
    counter (run sha256_digest args w) = accumulate (new_counter fl2) /\
    ending (run sha256_digest args w) = Returned.
Proof.
  intros Ho. pose proof (listfiles_fresh args w) as Hfr.
  unfold run, output. rewrite Ho.
  destruct (listfiles args w) as [ev fl0]. cbn [snd] in *.
  destruct (@scan_all_returns sha256_digest w fl0 Hfr) as (fl1 & Hs & Hall).
  pose proof (@scan_all_balanced sha256_digest w fl0 fl1 Hfr Hall) as Hb.
  exists fl1. split; [exact Hs|]. split; [exact Hall|]. split; [exact Hb|].
  destruct (scan_all sha256_digest w fl0) as [ev' o]. cbn [snd] in Hs. subst o.
  assert (Hb2 : Forall balanced (if include args then fl1 else remove_duplicates fl1)).
  { destruct (include args); [exact Hb | apply remove_duplicates_balanced, Hb]. }
  destruct (accumulate_balanced Hb2) as (_ & _ & Ha).
  cbv zeta. rewrite Ha. split; reflexivity.
Qed.

Lemma scan_lines_tally (r : Lang.rule) (ls : list pystr) (fl fl' : flags)
  (fed fed' : bytes) (f f' : Filename) :
  scan_lines r ls fl fed f = Some (fl', fed', f') ->
  exists ks,
    classify_lines r fl ls = Some ks /\
    List.length ks = List.length ls /\
    lines f' = (lines f + Z.of_nat (List.length ls))%Z /\
    code f' = (code f + tally Code ks)%Z /\
    comments f' = (comments f + tally Comment ks)%Z /\
    blanks f' = (blanks f + tally Blank ks)%Z.
Proof.
  revert fl fed f; induction ls as [|l ls IH]; intros fl fed f.
  - cbn [scan_lines]. intros [= _ _ <-]. exists [].
    unfold tally. cbn. repeat split; lia.
  - cbn [scan_lines classify_lines].
    destruct (classify r fl l) as [[k fl1]|] eqn:Hc; [|discriminate].
    intros Hs. destruct (IH _ _ _ Hs) as (ks & -> & Hlen & E0 & E1 & E2 & E3).
    exists (k :: ks). split; [reflexivity|].
    rewrite E0, E1, E2, E3. unfold tally. cbn [List.length filter].
    rewrite Hlen. destruct k; cbn [kind_eqb List.length]; simpl; repeat split; lia.
Qed.

Lemma scanfile_lines (sha256_digest : bytes -> bytes) (w : world) (f : Filename)
  (l : pystr) :
  fresh f -> size f <> 0%Z -> find_lang langs (extension f) = Some l ->
  exists (r : Lang.rule) (ks : list kind) (f' : Filename),
    dict_get l langs = Some r /\
    classify_lines r init_flags (TextIO.read_lines (file_bytes w (path_of f)))
    = Some ks /\
    List.length ks = List.length (TextIO.read_lines (file_bytes w (path_of f))) /\
    scanfile sha256_digest w f = ([EvOpen (path_of f)], Some f') /\
    lines f' = Z.of_nat (List.length (TextIO.read_lines (file_bytes w (path_of f)))) /\
    code f' = tally Code ks /\
    comments f' = tally Comment ks /\
    blanks f' = tally Blank ks.
Proof.
  intros (_ & _ & Hn & Hc & Hm & Hb) Hz Hf.
  destruct (find_lang_key _ _ Hf) as [r Hr].
  pose proof (langs_rule_ok _ Hr) as Hok.
  destruct (@scan_lines_total r (TextIO.read_lines (file_bytes w (path_of f)))
              init_flags [] (set_lang l f) Hok eq_refl)
    as (fl' & fed' & f2 & Hscan).
  destruct (scan_lines_tally _ _ _ _ _ Hscan) as (ks & Hk & Hlen & E0 & E1 & E2 & E3).
  exists r, ks, (set_sha256 (sha256_digest fed') f2).
  split; [exact Hr|]. split; [exact Hk|]. split; [exact Hlen|]. split.
  - unfold scanfile. destruct (Z.eqb_spec (size f) 0) as [|_]; [contradiction|].
    rewrite Hf. cbn [lang set_lang path name]. fold (path_of f).
    rewrite Hr, Hscan. reflexivity.
  - cbn [lines code comments blanks set_sha256 set_lang] in *.
    rewrite E0, E1, E2, E3, Hn, Hc, Hm, Hb. repeat split; lia.
Qed.

(** C4.  Each line adds one to [lines] and one to exactly one of [code],
    [comments] and [blanks].  The scan of every listed file returns a
    record with [lines = code + comments + blanks].  A skipped file (size
    zero or no language) comes back as it is, all counters zero.  For a
    scanned file every line read goes to exactly one counter: [lines] is
    the number of lines read, and [code], [comments] and [blanks] are the
    numbers of lines classified as code, comment and blank.  In a run the
    totals are the sums of the counters over the records kept (all scanned
    records, or those left by [remove_duplicates]); they satisfy
    [tlines = tcode + tcomments + tblanks], and the assertion of [run]
    holds. *)
Theorem C4_lines_balanced (sha256_digest : bytes -> bytes) (args : Args) (w : world) :
  let r := run sha256_digest args w in
  (forall (k : kind) (f : Filename), counted_from f (count k (incr_lines f)) 1) /\
  Forall
    (fun f =>
       exists f',
         snd (scanfile sha256_digest w f) = Some f' /\ balanced f' /\
         if skipped f then f' = f /\ counts f' = (0, 0, 0, 0)%Z
         else
           exists (l : pystr) (rule : Lang.rule) (ks : list kind),
             find_lang langs (extension f) = Some l /\
             dict_get l langs = Some rule /\
             classify_lines rule init_flags
               (TextIO.read_lines (file_bytes w (path_of f))) = Some ks /\
             List.length ks
             = List.length (TextIO.read_lines (file_bytes w (path_of f))) /\
             lines f'
             = Z.of_nat (List.length (TextIO.read_lines (file_bytes w (path_of f)))) /\
             code f' = tally Code ks /\
             comments f' = tally Comment ks /\
             blanks f' = tally Blank ks)
    (snd (listfiles args w)) /\
  Forall balanced (filelist (counter r)) /\
  (if output_languages args
   then filelist (counter r) = snd (listfiles args w)
   else
     exists scanned,
       Forall2 (fun f f' => snd (scanfile sha256_digest w f) = Some f')
         (snd (listfiles args w)) scanned /\
       filelist (counter r)
       = (if include args then scanned else remove_duplicates scanned) /\
       tlines (counter r) = total_of lines (filelist (counter r)) /\
       tcode (counter r) = total_of code (filelist (counter r)) /\
       tcomments (counter r) = total_of comments (filelist (counter r)) /\
       tblanks (counter r) = total_of blanks (filelist (counter r))) /\
  tlines (counter r) = (tcode (counter r) + tcomments (counter r) + tblanks (counter r))%Z /\
  totals_assertion (counter r) = true /\
  ending r <> AssertionError /\
  ending r <> ScanFails.
Proof.
  intros r. split; [apply count_counted|]. split.
  - pose proof (listfiles_fresh args w) as Hfr.
    rewrite Forall_forall in *. intros f Hin.
    pose proof (Hfr f Hin) as Hfresh.
    destruct Hfresh as (Hl & Hd & Hn & Hc & Hm & Hb).
    unfold skipped.
    destruct (Z.eqb_spec (size f) 0) as [Hz|Hz]; cbn [orb];
      [|destruct (find_lang langs (extension f)) as [l|] eqn:Hf].
    + exists f. rewrite scanfile_skipped by auto.
      split; [reflexivity|]. split; [unfold balanced; lia|].
      split; [reflexivity|]. unfold counts. rewrite Hn, Hc, Hm, Hb. reflexivity.
    + destruct (@scanfile_lines sha256_digest w f l (Hfr f Hin) Hz Hf)
        as (rule & ks & f' & Hr & Hk & Hlen & -> & E0 & E1 & E2 & E3).
      exists f'. split; [reflexivity|]. split.
      * unfold balanced. rewrite E0, E1, E2, E3, <- Hlen. unfold tally.
        clear. induction ks as [|k ks IH]; cbn [List.length filter]; [reflexivity|].
        destruct k; cbn [kind_eqb List.length]; lia.
      * exists l, rule, ks. repeat split; assumption.
    + exists f. rewrite scanfile_skipped by auto.
      split; [reflexivity|]. split; [unfold balanced; lia|].
      split; [reflexivity|]. unfold counts. rewrite Hn, Hc, Hm, Hb. reflexivity.
  - subst r. destruct (output_languages args) eqn:Ho.
    + pose proof (listfiles_fresh args w) as Hfr.
      unfold run, output. rewrite Ho.
      destruct (listfiles args w) as [ev fl0]. cbn [snd] in Hfr.
      cbn. repeat split; try discriminate.
      eapply Forall_impl; [|exact Hfr]. intros f. apply fresh_balanced.
    + destruct (run_counter sha256_digest args w Ho) as (fl1 & _ & Hall & Hb & Hc & He).
      cbv zeta in Hc. rewrite Hc, He.
      set (kept := if include args then fl1 else remove_duplicates fl1) in *.
      assert (Hb2 : Forall balanced kept).
      { unfold kept. destruct (include args);
          [exact Hb | apply remove_duplicates_balanced, Hb]. }
      destruct (accumulate_balanced Hb2) as (E0 & E1 & E2).
      destruct (fold_add_file kept (new_counter kept)) as (_ & T1 & T2 & T3 & T4 & _).
      change (fold_left add_file kept (new_counter kept))
        with (accumulate (new_counter kept)) in T1, T2, T3, T4.
      cbn [new_counter tlines tcode tcomments tblanks] in T1, T2, T3, T4.
      rewrite E0. split; [exact Hb2|]. split.
      * exists fl1. split; [exact Hall|]. split; [reflexivity|].
        unfold total_of. repeat split; lia.
      * repeat split; auto; discriminate.
Qed.

(** ** C5: [--output-languages] *)

(** C5 as stated fails: with [--output-languages] the directory is walked,
    and [os.stat] is called on its file, before the registry is dumped. *)
Lemma C5_counterexample :
  output_languages args_output_languages = true /\
  forall sha256_digest,
    trace (run sha256_digest args_output_languages one_file_world)
    = [EvWalk (str "."); EvStat (str "./a.py");
       EvDumpLangs (str "languages.json")].
Proof.
  split; [reflexivity|]. intros sha256_digest. vm_compute. reflexivity.
Qed.

(** C5, amended.  With [--output-languages], [run] first lists the files
    ([listfiles] walks the directory and makes a record for every file),
    then dumps the registry into [languages.json] and exits: no file is
    opened or scanned, nothing is reported, and the records are left as
    [Filename.__init__] made them. *)
Theorem C5_dump_after_walk (sha256_digest : bytes -> bytes) (args : Args) (w : world) :
  output_languages args = true ->
  let r := run sha256_digest args w in
  trace r = fst (listfiles args w) ++ [EvDumpLangs (str "languages.json")] /\
  forallb walk_event (fst (listfiles args w)) = true /\
  ending r = SystemExit (str "File languages.json created.") /\
  (forall p, ~ In (EvOpen p) (trace r)) /\
  (forall o, ~ In (EvPrint o) (trace r)) /\
  filelist (counter r) = snd (listfiles args w) /\
  Forall fresh (filelist (counter r)).
Proof.
  intros Ho r. subst r.
  pose proof (listfiles_fresh args w) as Hfr.
  pose proof (listfiles_events args w) as Hev.
  unfold run, output. rewrite Ho.
  destruct (listfiles args w) as [ev fl0]. cbn [fst snd] in *. cbn.
  assert (Hno : forall e, In e (ev ++ [EvDumpLangs (str "languages.json")]) ->
                          (forall p, e <> EvOpen p) /\ (forall o, e <> EvPrint o)).
  { rewrite forallb_forall in Hev. intros e Hin.
    apply in_app_or in Hin. destruct Hin as [Hin|[<-|[]]].
    - apply Hev in Hin. destruct e; try discriminate; split; discriminate.
    - split; discriminate. }
  split; [reflexivity|]. split; [exact Hev|]. split; [reflexivity|].
  split; [intros p Hin; apply Hno in Hin; apply (proj1 Hin p); reflexivity|].
  split; [intros o Hin; apply Hno in Hin; apply (proj2 Hin o); reflexivity|].
  split; [reflexivity | exact Hfr].
Qed.

Lemma C5_dump_after_walk_witness :
  output_languages args_output_languages = true /\
  trace (run (fun b => b) args_output_languages one_file_world)
  = fst (listfiles args_output_languages one_file_world)
    ++ [EvDumpLangs (str "languages.json")].
Proof.
  split; [reflexivity|].
  exact (proj1 (@C5_dump_after_walk (fun b => b) args_output_languages
                  one_file_world eq_refl)).
Defined.

(** ** C6: files of no known language in the reports *)

(** C6 (the code departs from the claim).  For a directory that holds the
    single file [notes.xyz], the report by directory prints the directory
    with a file count of 1, while the reports by file and by language
    print no row; next to a Python file of one line, the unknown file
    makes the file count of the directory 2 while the total of files is 1.
    [report_dir] passes over a record when [shortpath is None], which is
    never the case, where [report_file] and [report_lang] test
    [lang is None]. *)
Theorem C6_report_dir_counts_unknown_file (sha256_digest : bytes -> bytes) :
  printed (run sha256_digest args_bygroup unknown_world)
  = [Header (str "By Directory"); DirLine (str ".");
     Detail [] 1 0 0 0 0; Summary 0 0 0 0 0] /\
  printed (run sha256_digest args_default unknown_world)
  = [Header (str "By File"); Summary 0 0 0 0 0] /\
  printed (run sha256_digest args_bylang unknown_world)
  = [Header (str "By Language"); Summary 0 0 0 0 0] /\
  printed (run sha256_digest args_bygroup mixed_world)
  = [Header (str "By Directory"); DirLine (str ".");
     Detail [] 2 0 0 1 1; Summary 1 0 0 1 1].
Proof.
  repeat split; vm_compute; reflexivity.
Qed.

(** ** C7: files with the same bytes *)

Lemma Forall2_nth_error (A B : Type) (R : A -> B -> Prop) (l : list A)
  (l' : list B) (i : nat) (x : A) :
  Forall2 R l l' -> nth_error l i = Some x ->
  exists y, nth_error l' i = Some y /\ R x y.
Proof.
  intros Hall. revert i. induction Hall as [|a b l l' Hab _ IH]; intros i.
  - destruct i; discriminate.
  - destruct i as [|i]; simpl.
    + intros [= <-]. eauto.
    + apply IH.
Qed.

Lemma find_filter (A : Type) (p : A -> bool) (l : list A) :
  List.find p l = hd_error (filter p l).
Proof.
  induction l as [|a l IH]; simpl; [reflexivity|].
  destruct (p a); [reflexivity | exact IH].
Qed.

Lemma find_at_or_before (A : Type) (p : A -> bool) (l : list A) (i : nat) (x : A) :
  nth_error l i = Some x -> p x = true ->
  exists g, List.find p l = Some g /\
            (g = x \/ exists k, (k < i)%nat /\ nth_error l k = Some g).
Proof.
  revert i; induction l as [|a l IH]; intros i; [destruct i; discriminate|].
  destruct i as [|i]; simpl.
  - intros [= ->] Hp. rewrite Hp. eauto.
  - intros Hn Hp. destruct (p a) eqn:Ha.
    + exists a. split; [reflexivity|]. right. exists 0%nat. split; [lia | reflexivity].
    + destruct (IH i Hn Hp) as (g & Hg & [->|(k & Hk & Hnk)]).
      * eauto.
      * exists g. split; [exact Hg|]. right. exists (S k). split; [lia | exact Hnk].
Qed.

Lemma accumulate_filelist (l : list Filename) :
  filelist (accumulate (new_counter l)) = l.
Proof.
  unfold accumulate. destruct (fold_add_file l (new_counter l)) as (E & _).
  exact E.
Qed.

(** C7 as stated fails in two ways.  In [mixed_world] the two files have
    the same bytes and the first has an unknown extension: without
    [--include] both records are kept and the one that is counted is the
    second; with [--include] both are kept and one is counted.  In
    [crlf_world], [b.py] and [c.py] have the same bytes and [a.py] has
    other bytes but the same text: without [--include] the record of
    [a.py] is kept and neither that of [b.py] nor that of [c.py]. *)
Lemma C7_counterexample :
  file_bytes mixed_world (str "./a.foo") = file_bytes mixed_world (str "./b.py") /\
  file_bytes crlf_world (str "./b.py") = file_bytes crlf_world (str "./c.py") /\
  file_bytes crlf_world (str "./a.py") <> file_bytes crlf_world (str "./b.py") /\
  forall sha256_digest,
    let kept args w := map name (filelist (counter (run sha256_digest args w))) in
    let counted args w :=
      map name (filter (fun f => 0 <? lines f)%Z
                  (filelist (counter (run sha256_digest args w)))) in
    kept args_default mixed_world = [str "a.foo"; str "b.py"] /\
    counted args_default mixed_world = [str "b.py"] /\
    kept args_include mixed_world = [str "a.foo"; str "b.py"] /\
    counted args_include mixed_world = [str "b.py"] /\
    tfiles (counter (run sha256_digest args_include mixed_world)) = 1%Z /\
    kept args_default crlf_world = [str "a.py"].
Proof.
  split; [reflexivity|]. split; [reflexivity|]. split; [vm_compute; discriminate|].
  intros sha256_digest kept counted. subst kept counted.
  repeat split; try (vm_compute; reflexivity).
  cbv -[key_eqb]. rewrite !key_eqb_refl. cbv -[key_eqb]. reflexivity.
Qed.

(** C7, amended.  Take two listed files, the one at [i] before the one at
    [j], that are both scanned (size not zero, extension of a known
    language) and have the same bytes.  Their records get the same digest
    [d].  Without [--include], exactly one record with the digest [d] is
    kept: the first record of the list with that digest, which is the
    record at [i] or one before it.  With [--include] the list is kept as
    it is, with both records, and the totals are summed over it. *)
Theorem C7_same_bytes (sha256_digest : bytes -> bytes) (args : Args) (w : world)
  (i j : nat) (fi fj : Filename) (li lj : pystr) :
  output_languages args = false ->
  (i < j)%nat ->
  nth_error (snd (listfiles args w)) i = Some fi ->
  nth_error (snd (listfiles args w)) j = Some fj ->
  size fi <> 0%Z -> size fj <> 0%Z ->
  find_lang langs (extension fi) = Some li ->
  find_lang langs (extension fj) = Some lj ->
  file_bytes w (path_of fi) = file_bytes w (path_of fj) ->
  exists (fl1 : list Filename) (fi' fj' : Filename) (d : bytes),
    snd (scan_all sha256_digest w (snd (listfiles args w))) = Some fl1 /\
    nth_error fl1 i = Some fi' /\ nth_error fl1 j = Some fj' /\
    sha256 fi' = Some d /\ sha256 fj' = Some d /\
    counter (run sha256_digest args w) =
      accumulate (new_counter (filelist (counter (run sha256_digest args w)))) /\
    if include args
    then filelist (counter (run sha256_digest args w)) = fl1
    else exists g,
        List.find (has_key (Some d)) fl1 = Some g /\
        filter (has_key (Some d)) (filelist (counter (run sha256_digest args w)))
          = [g] /\
        (g = fi' \/ exists k, (k < i)%nat /\ nth_error fl1 k = Some g).
Proof.
  intros Ho Hij Hi Hj Hsi Hsj Hli Hlj Hraw.
  destruct (run_counter sha256_digest args w Ho) as (fl1 & Hs & Hall & _ & Hc & _).
  destruct (Forall2_nth_error _ Hall Hi) as (fi' & Hi' & Ei).
  destruct (Forall2_nth_error _ Hall Hj) as (fj' & Hj' & Ej).
  destruct (scanfile_scanned sha256_digest w fi Hsi Hli) as (gi & Egi & _).
  destruct (scanfile_scanned sha256_digest w fj Hsj Hlj) as (gj & Egj & _).
  rewrite Egi in Ei. rewrite Egj in Ej. cbn [snd] in Ei, Ej.
  injection Ei as <-. injection Ej as <-.
  fold (path_of fi) in *. fold (path_of fj) in *. rewrite <- Hraw in *.
  set (d := sha256_digest _) in *.
  exists fl1, (set_sha256 d gi), (set_sha256 d gj), d.
  split; [exact Hs|]. split; [exact Hi'|]. split; [exact Hj'|].
  split; [reflexivity|]. split; [reflexivity|].
  cbv zeta in Hc. rewrite Hc, accumulate_filelist.
  split; [reflexivity|].
  destruct (include args); [reflexivity|].
  destruct (@find_at_or_before _ (has_key (Some d)) fl1 i (set_sha256 d gi) Hi')
    as (g & Hg & Hwhere).
  { unfold has_key. apply key_eqb_refl. }
  exists g. split; [exact Hg|]. split; [|exact Hwhere].
  rewrite remove_duplicates_filter. rewrite find_filter in Hg.
  destruct (filter (has_key (Some d)) fl1) as [|a rest]; [discriminate|].
  simpl in Hg. injection Hg as ->. reflexivity.
Qed.

Lemma C7_same_bytes_witness :
  let fa := record_of twin_world "a.py" in
  let fb := record_of twin_world "b.py" in
  file_bytes twin_world (path_of fa) = file_bytes twin_world (path_of fb) /\
  exists (fl1 : list Filename) (fi' fj' : Filename) (d : bytes),
    nth_error fl1 0 = Some fi' /\ nth_error fl1 1 = Some fj' /\
    sha256 fi' = Some d /\ sha256 fj' = Some d /\
    exists g,
      filter (has_key (Some d))
        (filelist (counter (run (fun b => b) args_default twin_world))) = [g].
Proof.
  intros fa fb. split; [reflexivity|].
  destruct (@C7_same_bytes (fun b => b) args_default twin_world 0 1 fa fb
              (str "Python") (str "Python"))
    as (fl1 & fi' & fj' & d & _ & H1 & H2 & H3 & H4 & _ & H6);
    try reflexivity; try (vm_compute; discriminate); try lia.
  cbn [include args_default] in H6. destruct H6 as (g & _ & Hg & _).
  exists fl1, fi', fj', d. repeat split; try assumption. exists g. exact Hg.
Defined.

(** ** C8: the case of the extension *)

Lemma same_letter_lower (a b : N) :
  same_letter a b = true -> Str.lower_char a = Str.lower_char b.
Proof.
  unfold same_letter, is_upper, Str.lower_char.
  destruct (N.eqb_spec a b);
    destruct (N.leb_spec 0x41 a); destruct (N.leb_spec a 0x5A);
    destruct (N.leb_spec 0x41 b); destruct (N.leb_spec b 0x5A);
    destruct (N.eqb_spec b (a + 0x20)); destruct (N.eqb_spec a (b + 0x20));
    simpl; intros; try discriminate; lia.
Qed.

Lemma case_variant_lower (a b : pystr) :
  case_variant a b = true -> Str.lower a = Str.lower b.
Proof.
  revert b; induction a as [|x a IH]; intros [|y b]; simpl; try discriminate;
    [reflexivity|].
  rewrite andb_true_iff. intros [Hxy Hab].
  rewrite (same_letter_lower _ _ Hxy), (IH _ Hab). reflexivity.
Qed.

(** The language of the record a fresh record is scanned to. *)
Lemma scanfile_lang (sha256_digest : bytes -> bytes) (w : world) (f : Filename) :
  lang f = None ->
  exists g,
    snd (scanfile sha256_digest w f) = Some g /\
    lang g = if (size f =? 0)%Z then None else find_lang langs (extension f).
Proof.
  intros Hl. destruct (Z.eqb_spec (size f) 0) as [Hz|Hz];
    [|destruct (find_lang langs (extension f)) as [l|] eqn:Hf].
  - exists f. rewrite scanfile_skipped by auto. split; [reflexivity | exact Hl].
  - destruct (scanfile_scanned sha256_digest w f Hz Hf) as (f2 & -> & Hc).
    eexists. split; [reflexivity|].
    unfold counted_from in Hc. cbn [lang set_lang] in Hc.
    decompose [and] Hc. cbn [lang set_sha256]. congruence.
  - exists f. rewrite scanfile_skipped by auto. split; [reflexivity | exact Hl].
Qed.

(** C8.  Two file names whose extensions differ in the case of letters at
    most resolve to the same language, or both to none; [scanfile] returns
    for both, and when no language lists the extension it returns the
    record as it is, without opening the file. *)
Theorem C8_extension_case (sha256_digest : bytes -> bytes) (w : world)
  (argpath p1 p2 n1 n2 : pystr) :
  case_variant (snd (OsPath.splitext n1)) (snd (OsPath.splitext n2)) = true ->
  let f1 := Filename_init w argpath p1 n1 in
  let f2 := Filename_init w argpath p2 n2 in
  extension f1 = extension f2 /\
  find_lang langs (extension f1) = find_lang langs (extension f2) /\
  (exists g1 g2,
      snd (scanfile sha256_digest w f1) = Some g1 /\
      snd (scanfile sha256_digest w f2) = Some g2 /\
      lang g1 = (if (size f1 =? 0)%Z then None else find_lang langs (extension f1)) /\
      lang g2 = (if (size f2 =? 0)%Z then None else find_lang langs (extension f1))) /\
  (find_lang langs (extension f1) = None ->
   scanfile sha256_digest w f1 = ([], Some f1) /\
   scanfile sha256_digest w f2 = ([], Some f2)).
Proof.
  intros Hv f1 f2.
  assert (He : extension f1 = extension f2).
  { unfold f1, f2. cbn [extension Filename_init]. apply case_variant_lower, Hv. }
  split; [exact He|]. split; [rewrite He; reflexivity|]. split.
  - destruct (@scanfile_lang sha256_digest w f1 eq_refl) as (g1 & E1 & L1).
    destruct (@scanfile_lang sha256_digest w f2 eq_refl) as (g2 & E2 & L2).
    exists g1, g2. rewrite <- He in L2. repeat split; assumption.
  - intros Hn. split; apply scanfile_skipped; try reflexivity; right; congruence.
Qed.

Lemma C8_extension_case_witness :
  case_variant (snd (OsPath.splitext (str "Main.PY")))
    (snd (OsPath.splitext (str "util.py"))) = true /\
  find_lang langs (extension (record_of case_world "Main.PY"))
    = find_lang langs (extension (record_of case_world "util.py")) /\
  case_variant (snd (OsPath.splitext (str "X.FOO")))
    (snd (OsPath.splitext (str "y.foo"))) = true /\
  find_lang langs (extension (record_of case_world "X.FOO")) = None /\
  scanfile (fun b => b) case_world (record_of case_world "X.FOO")
    = ([], Some (record_of case_world "X.FOO")).
Proof.
  split; [reflexivity|]. split.
  - exact (proj1 (proj2 (@C8_extension_case (fun b => b) case_world (str ".") (str ".")
                           (str ".") (str "Main.PY") (str "util.py") eq_refl))).
  - split; [reflexivity|]. split; [reflexivity|].
    exact (proj1 (proj2 (proj2 (proj2
             (@C8_extension_case (fun b => b) case_world (str ".") (str ".")
                (str ".") (str "X.FOO") (str "y.foo") eq_refl))) eq_refl)).
Defined.

(** ** C9: the extension [.mac] *)

(** C9.  ["IBM Macro"] and ["VB"] both list [.mac], and ["IBM Macro"] comes
    first in [langs]; a file whose lower-cased extension is [.mac] resolves
    to ["IBM Macro"], and that is the language of its record once it is
    scanned. *)
Theorem C9_mac_is_IBM_Macro (sha256_digest : bytes -> bytes) (w : world)
  (argpath p n : pystr) :
  Str.lower (snd (OsPath.splitext n)) = str ".mac" ->
  let f := Filename_init w argpath p n in
  find_lang langs (extension f) = Some (str "IBM Macro") /\
  (exists g,
      snd (scanfile sha256_digest w f) = Some g /\
      lang g = if (size f =? 0)%Z then None else Some (str "IBM Macro")) /\
  option_map (fun r => str_in (str ".mac") (Lang.ext r))
    (dict_get (str "IBM Macro") langs) = Some true /\
  option_map (fun r => str_in (str ".mac") (Lang.ext r))
    (dict_get (str "VB") langs) = Some true /\
  map fst (filter (fun lr => str_in (str ".mac") (Lang.ext (snd lr))) langs)
    = [str "IBM Macro"; str "VB"].
Proof.
  intros He f.
  assert (Hf : find_lang langs (extension f) = Some (str "IBM Macro")).
  { unfold f. cbn [extension Filename_init]. rewrite He. vm_compute. reflexivity. }
  split; [exact Hf|]. split.
  - destruct (@scanfile_lang sha256_digest w f eq_refl) as (g & E & L).
    exists g. rewrite <- Hf. auto.
  - repeat split; vm_compute; reflexivity.
Qed.

Lemma C9_mac_is_IBM_Macro_witness :
  Str.lower (snd (OsPath.splitext (str "m.MAC"))) = str ".mac" /\
  find_lang langs (extension (record_of case_world "m.MAC"))
    = Some (str "IBM Macro").
Proof.
  split; [reflexivity|].
  exact (proj1 (@C9_mac_is_IBM_Macro (fun b => b) case_world (str ".") (str ".")
                  (str "m.MAC") eq_refl)).
Defined.

(** ** C10: the digest of a skipped file *)

Lemma Forall2_refine (A B : Type) (P : A -> Prop) (R Q : A -> B -> Prop)
  (l : list A) (l' : list B) :
  (forall x y, P x -> R x y -> Q x y) ->
  Forall P l -> Forall2 R l l' -> Forall2 Q l l'.
Proof.
  intros Himp Hp Hr. induction Hr as [|a b l l' Hab _ IH]; [constructor|].
  inversion Hp; subst. constructor; auto.
Qed.

Lemma scanfile_digest (sha256_digest : bytes -> bytes) (w : world) (f g : Filename) :
  fresh f ->
  snd (scanfile sha256_digest w f) = Some g ->
  if skipped f
  then g = f /\ sha256 g = None /\ scanfile sha256_digest w f = ([], Some f)
  else sha256 g <> None.
Proof.
  intros (Hl & Hd & _) Hs. unfold skipped.
  destruct (Z.eqb_spec (size f) 0) as [Hz|Hz]; cbn [orb].
  - rewrite scanfile_skipped in * by auto. injection Hs as <-. auto.
  - destruct (find_lang langs (extension f)) as [l|] eqn:Hf.
    + destruct (scanfile_scanned sha256_digest w f Hz Hf) as (f2 & E & _).
      rewrite E in Hs. injection Hs as <-. discriminate.
    + rewrite scanfile_skipped in * by auto. injection Hs as <-. auto.
Qed.

(** C10.  In a run that scans and removes duplicates, a file that is
    skipped (size zero, or an extension that no language lists) comes out
    of [scanfile] as it went in, with the digest [None], and every other
    file gets a digest; of the records with the digest [None], that is of
    the skipped files, the first one is kept and no other. *)
Theorem C10_skipped_share_None (sha256_digest : bytes -> bytes) (args : Args)
  (w : world) :
  output_languages args = false ->
  include args = false ->
  let kept := filelist (counter (run sha256_digest args w)) in
  exists fl1,
    snd (scan_all sha256_digest w (snd (listfiles args w))) = Some fl1 /\
    Forall2
      (fun f g =>
         if skipped f
         then g = f /\ sha256 g = None /\
              scanfile sha256_digest w f = ([], Some f)
         else sha256 g <> None)
      (snd (listfiles args w)) fl1 /\
    kept = remove_duplicates fl1 /\
    filter (has_key None) kept = firstn 1 (filter (has_key None) fl1) /\
    (List.length (filter (has_key None) kept) <= 1)%nat.
Proof.
  intros Ho Hi kept. subst kept.
  destruct (run_counter sha256_digest args w Ho) as (fl1 & Hs & Hall & _ & Hc & _).
  cbv zeta in Hc. rewrite Hi in Hc. rewrite Hc, accumulate_filelist.
  exists fl1. split; [exact Hs|]. split.
  - eapply Forall2_refine; [|apply (listfiles_fresh args w) | exact Hall].
    intros f g Hf Hg. apply scanfile_digest; assumption.
  - split; [reflexivity|]. rewrite remove_duplicates_filter.
    split; [reflexivity|]. rewrite length_firstn. lia.
Qed.

Lemma C10_skipped_share_None_witness :
  output_languages args_default = false /\
  include args_default = false /\
  map name (snd (listfiles args_default skipped_world))
    = [str "empty.py"; str "also_empty.c"; str "notes.xyz"; str "b.py"] /\
  map skipped (snd (listfiles args_default skipped_world))
    = [true; true; true; false] /\
  (List.length
     (filter (has_key None)
        (filelist (counter (run (fun b => b) args_default skipped_world))))
   <= 1)%nat.
Proof.
  split; [reflexivity|]. split; [reflexivity|].
  split; [reflexivity|]. split; [reflexivity|].
  destruct (@C10_skipped_share_None (fun b => b) args_default skipped_world
              eq_refl eq_refl) as (fl1 & _ & _ & _ & _ & Hlen).
  exact Hlen.
Defined.

(** * Further properties of the code *)

(** ** The classifier, line by line *)

Lemma block_while_untouched (fuel : nat) (token e line : pystr) (ib : bool) :
  Str.contains token line = false ->
  block_while (S fuel) token e line ib = Some (line, ib).
Proof. intros Hc. cbn [block_while]. rewrite Hc. reflexivity. Qed.

Lemma block_for_untouched (pairs : list (pystr * pystr)) (fl : flags) (line : pystr) :
  forallb (fun p => negb (Str.contains (fst p) line)) pairs = true ->
  exists fl',
    block_for pairs fl line = Some (fl', line) /\
    inblock fl' = inblock fl /\ endcode fl' = endcode fl.
Proof.
  revert fl; induction pairs as [|[token e] rest IH]; intros fl;
    cbn [block_for forallb fst].
  - eauto.
  - rewrite andb_true_iff, negb_true_iff. intros [Hc Hrest].
    rewrite block_while_untouched by exact Hc.
    destruct (IH (set_inblock (inblock fl) (set_block token e fl)) Hrest)
      as (fl' & E & Hi & He).
    exists fl'. split; [exact E|]. split; [exact Hi | exact He].
Qed.

(** What [block_for] does to the line does not depend on the tokens
    remembered from earlier lines. *)
Lemma block_for_indep (pairs : list (pystr * pystr)) (fl1 fl2 : flags) (line : pystr) :
  inblock fl1 = inblock fl2 ->
  match block_for pairs fl1 line, block_for pairs fl2 line with
  | Some (a, l1), Some (b, l2) =>
      l1 = l2 /\ inblock a = inblock b /\
      endcode a = endcode fl1 /\ endcode b = endcode fl2
  | None, None => True
  | _, _ => False
  end.
Proof.
  revert fl1 fl2 line; induction pairs as [|[token e] rest IH];
    intros fl1 fl2 line Hib; cbn [block_for].
  - auto.
  - rewrite <- Hib.
    destruct (block_while (S (List.length line)) token e line (inblock fl1))
      as [[l' ib']|]; [|exact I].
    specialize (IH (set_inblock ib' (set_block token e fl1))
                   (set_inblock ib' (set_block token e fl2)) l' eq_refl).
    destruct (block_for rest (set_inblock ib' (set_block token e fl1)) l')
      as [[a l1]|];
      destruct (block_for rest (set_inblock ib' (set_block token e fl2)) l')
      as [[b l2]|]; auto.
Qed.

(** Outside a block and before any sentinel, the counter a line goes to,
    and whether it is a sentinel, do not depend on the lines before it. *)
Lemma classify_indep (r : Lang.rule) (fl1 fl2 : flags) (raw : pystr) :
  inblock fl1 = false -> inblock fl2 = false -> endcode fl1 = endcode fl2 ->
  match classify r fl1 raw, classify r fl2 raw with
  | Some (k1, a), Some (k2, b) =>
      k1 = k2 /\ inblock a = inblock b /\ endcode a = endcode b
  | None, None => True
  | _, _ => False
  end.
Proof.
  intros H1 H2 He. unfold classify. rewrite H1, H2, <- He. cbn [negb].
  destruct (Str.eqb (Str.strip raw) []); [repeat split; congruence|].
  destruct (endcode fl1) eqn:E1; [repeat split; congruence|].
  pose proof (@block_for_indep (Lang.bcomm r) fl1 fl2 (Str.strip raw)
                (eq_trans H1 (eq_sym H2))) as Hb.
  destruct (block_for (Lang.bcomm r) fl1 (Str.strip raw)) as [[a l1]|];
    destruct (block_for (Lang.bcomm r) fl2 (Str.strip raw)) as [[b l2]|];
    try contradiction; [|exact I].
  destruct Hb as (<- & Hab & Ha & Hb).
  destruct (Str.eqb l1 []); [repeat split; congruence|].
  destruct (existsb (Str.startswith l1) (Lang.comment r));
    [repeat split; congruence|].
  destruct (existsb (Str.eqb l1) (Lang.endcode r)); cbn; repeat split; congruence.
Qed.

Lemma classify_blank (r : Lang.rule) (fl fl' : flags) (raw : pystr) (k : kind) :
  classify r fl raw = Some (k, fl') ->
  (is_blank raw = true -> k = Blank /\ fl' = fl) /\
  (is_blank raw = false -> k <> Blank).
Proof.
  unfold classify, is_blank.
  destruct (Str.eqb (Str.strip raw) []).
  - intros [= <- <-]. split; [auto | discriminate].
  - intros Hc. split; [discriminate|]. intros _.
    destruct (endcode fl); [injection Hc as <- _; discriminate|].
    destruct (if negb (inblock fl) then _ else _) as [[fl1 line1]|]; [|discriminate].
    destruct (Str.eqb line1 []); [injection Hc as <- _; discriminate|].
    destruct (existsb _ (Lang.comment r)); injection Hc as <- _; discriminate.
Qed.

Lemma scan_lines_blanks (r : Lang.rule) (ls : list pystr) (fl fl' : flags)
  (fed fed' : bytes) (f f' : Filename) :
  scan_lines r ls fl fed f = Some (fl', fed', f') ->
  blanks f' = (blanks f + Z.of_nat (List.length (filter is_blank ls)))%Z.
Proof.
  revert fl fed f; induction ls as [|l ls IH]; intros fl fed f.
  - simpl. intros [= _ _ <-]. lia.
  - cbn [scan_lines filter].
    destruct (classify r fl l) as [[k fl1]|] eqn:Hc; [|discriminate].
    intros Hs. apply IH in Hs. rewrite Hs.
    apply classify_blank in Hc. destruct Hc as [Hb Hn].
    destruct (is_blank l).
    + destruct (Hb eq_refl) as [-> _]. cbn [List.length]. simpl. lia.
    + specialize (Hn eq_refl). destruct k; [congruence| |]; simpl; lia.
Qed.

(** What [scanfile] does with a record that [Filename.__init__] made: it
    returns it as it is, or scans the lines of the file under the rule of
    the first language that lists the extension. *)
Lemma scanfile_unfold (sha256_digest : bytes -> bytes) (w : world) (f : Filename) :
  fresh f ->
  if skipped f then scanfile sha256_digest w f = ([], Some f)
  else exists l r fl' fed' f2,
      find_lang langs (extension f) = Some l /\
      dict_get l langs = Some r /\
      scan_lines r (TextIO.read_lines (file_bytes w (path_of f))) init_flags []
        (set_lang l f) = Some (fl', fed', f2) /\
      scanfile sha256_digest w f
      = ([EvOpen (path_of f)], Some (set_sha256 (sha256_digest fed') f2)).
Proof.
  intros (Hl & _). unfold skipped.
  destruct (Z.eqb_spec (size f) 0) as [Hz|Hz]; cbn [orb].
  - apply scanfile_skipped; auto.
  - destruct (find_lang langs (extension f)) as [l|] eqn:Hf.
    + destruct (find_lang_key _ _ Hf) as [r Hr].
      pose proof (langs_rule_ok _ Hr) as Hok.
      destruct (@scan_lines_total r (TextIO.read_lines (file_bytes w (path_of f)))
                  init_flags [] (set_lang l f) Hok eq_refl)
        as (fl' & fed' & f2 & Hscan).
      exists l, r, fl', fed', f2. repeat split; try assumption.
      unfold scanfile. destruct (Z.eqb_spec (size f) 0) as [|_]; [contradiction|].
      rewrite Hf. cbn [lang set_lang path name]. fold (path_of f).
      rewrite Hr, Hscan. reflexivity.
    + apply scanfile_skipped; auto.
Qed.

(** X1.  The blank count of a file is the number of its lines that are
    empty once stripped, whatever its language and wherever the lines
    stand; a file that is skipped has none. *)
Theorem blanks_are_empty_lines (sha256_digest : bytes -> bytes) (w : world)
  (argpath p n : pystr) :
  let f := Filename_init w argpath p n in
  exists f',
    snd (scanfile sha256_digest w f) = Some f' /\
    blanks f' =
      if skipped f then 0%Z
      else Z.of_nat (List.length
                       (filter is_blank (TextIO.read_lines (file_bytes w (path_of f))))).
Proof.
  intros f.
  pose proof (@scanfile_unfold sha256_digest w f (Filename_init_fresh w argpath p n))
    as Hu.
  destruct (skipped f).
  - rewrite Hu. exists f. split; reflexivity.
  - destruct Hu as (l & r & fl' & fed' & f2 & _ & _ & Hs & ->).
    eexists. split; [reflexivity|].
    apply scan_lines_blanks in Hs. cbn [blanks set_sha256]. rewrite Hs.
    cbn [blanks set_lang]. reflexivity.
Qed.

(** X2.  Outside a block and before any sentinel, a line that is not empty
    once stripped and holds no start token of a block comment is counted
    as comment when it starts with a line-comment token and as code
    otherwise; a sentinel takes effect exactly when such a line is code
    and equals it. *)
Theorem line_without_block_token (r : Lang.rule) (fl : flags) (raw : pystr) :
  inblock fl = false ->
  endcode fl = false ->
  is_blank raw = false ->
  no_block_token r (Str.strip raw) = true ->
  exists fl',
    classify r fl raw
    = Some (if line_comment r (Str.strip raw) then Comment else Code, fl') /\
    inblock fl' = false /\
    endcode fl' =
      negb (line_comment r (Str.strip raw))
      && str_in (Str.strip raw) (Lang.endcode r).
Proof.
  intros Hib He Hb Ht. unfold classify, is_blank, no_block_token, line_comment in *.
  rewrite Hb, He, Hib. cbn [negb].
  destruct (@block_for_untouched (Lang.bcomm r) fl (Str.strip raw) Ht)
    as (fl1 & -> & Hi1 & He1).
  rewrite Hb.
  destruct (existsb (Str.startswith (Str.strip raw)) (Lang.comment r));
    cbn [negb andb].
  - exists fl1. repeat split; congruence.
  - unfold str_in.
    destruct (existsb (Str.eqb (Str.strip raw)) (Lang.endcode r)).
    + exists (set_endcode fl1). repeat split. exact (eq_trans Hi1 Hib).
    + exists fl1. repeat split; congruence.
Qed.

Lemma line_without_block_token_witness :
  is_blank (ln "  # note") = false /\
  no_block_token perl_rule (Str.strip (ln "  # note")) = true /\
  kind_alone perl_rule (ln "  # note") = Some Comment /\
  kind_alone perl_rule (ln "__END__ ") = Some Code.
Proof.
  split; [reflexivity|]. split; [reflexivity|]. split.
  - destruct (@line_without_block_token perl_rule init_flags (ln "  # note")
                eq_refl eq_refl eq_refl eq_refl) as (fl' & E & _).
    unfold kind_alone. rewrite E. reflexivity.
  - destruct (@line_without_block_token perl_rule init_flags (ln "__END__ ")
                eq_refl eq_refl eq_refl eq_refl) as (fl' & E & _).
    unfold kind_alone. rewrite E. reflexivity.
Defined.

Lemma classify_keeps_endcode (r : Lang.rule) (fl fl' : flags) (raw : pystr) (k : kind) :
  Lang.endcode r = [] -> inblock fl = false ->
  classify r fl raw = Some (k, fl') -> endcode fl' = endcode fl.
Proof.
  intros Hr Hib. unfold classify. rewrite Hr, Hib. cbn [negb existsb].
  destruct (Str.eqb (Str.strip raw) []); [intros [= _ <-]; reflexivity|].
  destruct (endcode fl) eqn:E; [intros [= _ <-]; exact E|].
  destruct (block_for _ fl _) as [[fl1 line1]|] eqn:Hb; [|discriminate].
  apply block_for_flags in Hb. destruct Hb as [_ Hb]. rewrite E in Hb.
  destruct (Str.eqb line1 []); [intros [= _ <-]; exact Hb|].
  destruct (existsb _ (Lang.comment r)); intros [= _ <-]; exact Hb.
Qed.

Lemma classify_lines_alone (r : Lang.rule) (ls : list pystr) (fl : flags) :
  Lang.endcode r = [] -> inblock fl = false -> endcode fl = false ->
  classify_lines r fl ls = all_some (map (kind_alone r) ls).
Proof.
  intros Hr. revert fl; induction ls as [|l ls IH]; intros fl Hib He;
    [reflexivity|].
  cbn [classify_lines map all_some]. unfold kind_alone at 1.
  pose proof (@classify_indep r fl init_flags l Hib eq_refl He) as Hi.
  destruct (classify r fl l) as [[k1 a]|] eqn:E1;
    destruct (classify r init_flags l) as [[k2 b]|] eqn:E2;
    try contradiction; [|reflexivity].
  destruct Hi as (<- & _ & _). cbn [option_map fst].
  rewrite (IH a); [reflexivity | |].
  - eapply classify_inblock; eauto.
  - rewrite (@classify_keeps_endcode r fl a l k1 Hr Hib E1). exact He.
Qed.

(** X3.  Under a rule without end-of-code sentinel, every line of a file is
    counted as it would be as the only line of a file: nothing of a line
    carries over to the lines after it. *)
Theorem lines_classified_alone (r : Lang.rule) (ls : list pystr) :
  Lang.endcode r = [] ->
  classify_lines r init_flags ls = all_some (map (kind_alone r) ls).
Proof. intros Hr. apply classify_lines_alone; auto. Qed.

Lemma lines_classified_alone_witness :
  Lang.endcode c_rule = [] /\
  classify_lines c_rule init_flags
    [ln "/* one */ x = 1;"; ln "/* two"; ln "// three"; ln "four */"]
  = Some [Code; Code; Comment; Code].
Proof.
  split; [reflexivity|].
  rewrite (@lines_classified_alone c_rule _ eq_refl). reflexivity.
Defined.

(** ** The loop that removes block comments from a line *)

Lemma block_while_exit (fuel : nat) (token e line : pystr) (ib : bool) :
  e <> [] -> (List.length line < fuel)%nat ->
  exists line',
    block_while fuel token e line ib = Some (line', ib) /\
    (List.length line' <= List.length line)%nat /\
    (Str.contains token line' = false \/
     (Str.find_from line' e (Str.find line' token) <= 0)%Z).
Proof.
  intros He. revert line; induction fuel as [|fuel IH]; intros line Hf; [lia|].
  cbn [block_while].
  destruct (Str.contains token line) eqn:Hc;
    [|exists line; repeat split; auto].
  destruct (Z.ltb_spec 0 (Str.find_from line e (Str.find line token))) as [Hp|Hp];
    [|exists line; repeat split; auto].
  rewrite (epos_positive_contains _ _ _ Hc) by assumption.
  pose proof (removed_slice _ _ _ Hc Hp) as Hr. cbv zeta in Hr.
  assert (Hn : (0 < List.length e)%nat) by (destruct e; [congruence | simpl; lia]).
  destruct (IH (Str.replace1 line
                  (Str.slice line (Str.find line token)
                     (Str.find_from line e (Str.find line token) + Str.len e)) []))
    as (line' & E & Hlen & Hexit); [lia|].
  exists line'. split; [exact E|]. split; [lia | exact Hexit].
Qed.

(** X4.  With a non-empty end token the loop ends: the line it leaves is
    no longer than the line it got, [inblock] is as before, and either no
    start token is left in the line or no end token follows the first
    one. *)
Theorem block_while_result (token e line : pystr) (ib : bool) :
  e <> [] ->
  exists line',
    block_while (S (List.length line)) token e line ib = Some (line', ib) /\
    (List.length line' <= List.length line)%nat /\
    (Str.contains token line' = false \/
     (Str.find_from line' e (Str.find line' token) <= 0)%Z).
Proof. intros He. apply block_while_exit; [exact He | lia]. Qed.

Lemma block_while_result_witness :
  str "*/" <> [] /\
  block_while (S (List.length (str "a /* b */ c /* d")))
    (str "/*") (str "*/") (str "a /* b */ c /* d") false
  = Some (str "a  c /* d", false).
Proof.
  assert (He : str "*/" <> []) by discriminate.
  split; [exact He|].
  destruct (@block_while_result (str "/*") (str "*/") (str "a /* b */ c /* d")
              false He) as (line' & E & _).
  rewrite E. vm_compute in E. injection E as <-. reflexivity.
Defined.

Lemma index_min (sub s : pystr) (n m : nat) :
  Str.index sub s = Some n -> (m < n)%nat ->
  Str.startswith (skipn m s) sub = false.
Proof.
  revert n m; induction s as [|c s IH]; intros n m; rewrite index_eq;
    destruct (Str.startswith _ sub) eqn:E; try discriminate.
  - intros [= <-]. lia.
  - intros [= <-]. lia.
  - destruct (Str.index sub s) as [k|] eqn:Hk; simpl; [|discriminate].
    intros [= <-] Hm. destruct m as [|m]; [rewrite skipn_O; exact E|].
    rewrite skipn_cons. apply (IH k); [reflexivity | lia].
Qed.

Lemma startswith_app_l (s x y : pystr) :
  Str.startswith s (x ++ y) = true -> Str.startswith s x = true.
Proof.
  revert s; induction x as [|a x IH]; intros s; [destruct s; reflexivity|].
  destruct s as [|c s]; simpl; [discriminate|].
  rewrite !andb_true_iff. intros [E1 E2]. split; [exact E1 | apply IH, E2].
Qed.

Lemma startswith_app_self (x y : pystr) : Str.startswith (x ++ y) x = true.
Proof.
  induction x as [|a x IH]; [destruct y; reflexivity|].
  simpl. rewrite N.eqb_refl. exact IH.
Qed.

Lemma index_exact (sub s : pystr) (n : nat) :
  Str.startswith (skipn n s) sub = true ->
  (forall m, (m < n)%nat -> Str.startswith (skipn m s) sub = false) ->
  Str.index sub s = Some n.
Proof.
  intros Hs Hmin. destruct (index_complete _ _ _ Hs) as (k & Hk & Hle).
  destruct (Nat.eq_dec k n) as [->|Hne]; [exact Hk|].
  apply index_sound in Hk. destruct Hk as [Hk _].
  rewrite Hmin in Hk by lia. discriminate.
Qed.

(** X5.  One round of the loop removes the leftmost block comment: when
    the first start token of the line is followed by an end token, the
    text from the start token through the end token is taken out, and when
    no start token is left after that the loop ends with the rest. *)
Theorem block_while_removes_leftmost (a t b e c : pystr) (ib : bool) :
  let line := a ++ t ++ b ++ e ++ c in
  t <> [] ->
  Str.index t line = Some (List.length a) ->
  Str.index e (t ++ b ++ e ++ c) = Some (List.length t + List.length b)%nat ->
  Str.contains t (a ++ c) = false ->
  block_while (S (List.length line)) t e line ib = Some (a ++ c, ib).
Proof.
  intros line Ht Hi He Hc.
  assert (Hlt : (0 < List.length t)%nat) by (destruct t; [congruence | simpl; lia]).
  assert (Hskip : skipn (List.length a) line = t ++ b ++ e ++ c).
  { unfold line. rewrite skipn_app, Nat.sub_diag, skipn_all. reflexivity. }
  assert (Hlen : List.length line
                 = (List.length a + List.length t + List.length b
                    + List.length e + List.length c)%nat).
  { unfold line. rewrite !length_app. lia. }
  cbn [block_while].
  assert (Hct : Str.contains t line = true) by (apply contains_index; eauto).
  rewrite Hct. unfold Str.find at 1 2 3. rewrite Hi.
  rewrite find_from_nat by lia. rewrite Hskip, He.
  destruct (Z.ltb_spec 0 (Z.of_nat (List.length a + (List.length t + List.length b))));
    [|lia].
  assert (Hce : Str.contains e line = true).
  { apply contains_index.
    assert (Hs : Str.startswith
                   (skipn (List.length a + (List.length t + List.length b)) line) e
                 = true).
    { apply index_sound in He. destruct He as [He _].
      rewrite <- Hskip, skipn_skipn in He.
      replace (List.length a + (List.length t + List.length b))%nat
        with (List.length t + List.length b + List.length a)%nat by lia.
      exact He. }
    destruct (index_complete _ _ _ Hs) as (k & Hk & _). eauto. }
  rewrite Hce.
  assert (Hslice :
            Str.slice line (Z.of_nat (List.length a))
              (Z.of_nat (List.length a + (List.length t + List.length b))
               + Str.len e)
            = t ++ b ++ e).
  { unfold Str.len.
    replace (Z.of_nat (List.length a + (List.length t + List.length b))
             + Z.of_nat (List.length e))%Z
      with (Z.of_nat (List.length a + List.length t + List.length b
                      + List.length e)) by lia.
    unfold Str.slice. rewrite !bound_of_nat by lia. rewrite Hskip.
    replace (List.length a + List.length t + List.length b + List.length e
             - List.length a)%nat
      with (List.length (t ++ b ++ e)) by (rewrite !length_app; lia).
    replace (t ++ b ++ e ++ c) with ((t ++ b ++ e) ++ c)
      by (rewrite <- !app_assoc; reflexivity).
    rewrite firstn_app, Nat.sub_diag, firstn_all. simpl. apply app_nil_r. }
  rewrite Hslice.
  assert (Hidx : Str.index (t ++ b ++ e) line = Some (List.length a)).
  { apply index_exact.
    - rewrite Hskip.
      replace (t ++ b ++ e ++ c) with ((t ++ b ++ e) ++ c)
        by (rewrite <- !app_assoc; reflexivity).
      apply startswith_app_self.
    - intros m Hm.
      destruct (Str.startswith (skipn m line) (t ++ b ++ e)) eqn:E; [|reflexivity].
      apply startswith_app_l in E. rewrite (index_min _ _ Hi Hm) in E. discriminate. }
  assert (Hrep : Str.replace1 line (t ++ b ++ e) [] = a ++ c).
  { unfold Str.replace1. rewrite Hidx. cbn [app].
    unfold line at 1. rewrite firstn_app, Nat.sub_diag, firstn_all. cbn [firstn].
    rewrite app_nil_r. f_equal.
    unfold line. rewrite skipn_app.
    rewrite skipn_all2 by lia.
    replace (List.length a + List.length (t ++ b ++ e) - List.length a)%nat
      with (List.length (t ++ b ++ e)) by lia.
    replace (t ++ b ++ e ++ c) with ((t ++ b ++ e) ++ c)
      by (rewrite <- !app_assoc; reflexivity).
    rewrite skipn_app, Nat.sub_diag, skipn_all. reflexivity. }
  rewrite Hrep.
  destruct (List.length line) as [|k] eqn:Hk; [lia|].
  apply block_while_untouched. exact Hc.
Qed.

Lemma block_while_removes_leftmost_witness :
  block_while (S (List.length (str "x = 1; /* set x */ y = 2;")))
    (str "/*") (str "*/") (str "x = 1; /* set x */ y = 2;") false
  = Some (str "x = 1;  y = 2;", false).
Proof.
  apply (@block_while_removes_leftmost (str "x = 1; ") (str "/*") (str " set x ")
           (str "*/") (str " y = 2;") false);
    [discriminate | reflexivity | reflexivity | reflexivity].
Defined.

(** X6.  An empty end token makes the loop run for ever on a line whose
    first start token does not stand at its very start: a round then
    removes nothing, and no fuel is enough. *)
Theorem empty_end_token_hangs (fuel : nat) (token line : pystr) (ib : bool) (n : nat) :
  Str.index token line = Some (S n) ->
  block_while fuel token [] line ib = None.
Proof.
  intros Hi. induction fuel as [|fuel IH]; [reflexivity|].
  cbn [block_while].
  assert (Hct : Str.contains token line = true) by (apply contains_index; eauto).
  rewrite Hct. unfold Str.find. rewrite Hi.
  destruct (index_sound _ _ Hi) as [_ Hle].
  rewrite find_from_nat by lia.
  assert (Hnil : forall s, Str.index [] s = Some 0%nat)
    by (intros s; rewrite index_eq; destruct s; reflexivity).
  rewrite Hnil. rewrite Nat.add_0_r.
  destruct (Z.ltb_spec 0 (Z.of_nat (S n))); [|lia].
  unfold Str.contains. rewrite Hnil.
  unfold Str.len. cbn [List.length]. rewrite Z.add_0_r.
  unfold Str.slice. rewrite bound_of_nat by lia. rewrite Nat.sub_diag. cbn [firstn].
  unfold Str.replace1. rewrite Hnil. cbn [firstn app List.length skipn Nat.add].
  exact IH.
Qed.

Lemma empty_end_token_hangs_witness :
  Str.index (str "#") (str "x #") = Some 2%nat /\
  block_while 100 (str "#") [] (str "x #") false = None.
Proof.
  split; [reflexivity|].
  exact (@empty_end_token_hangs 100 (str "#") (str "x #") false 1 eq_refl).
Defined.

(** ** More on [remove_duplicates] *)

Lemma existsb_key_In (k : option bytes) (seen : list (option bytes)) :
  existsb (key_eqb k) seen = true <-> In k seen.
Proof.
  rewrite existsb_exists. split.
  - intros (x & Hin & E). apply key_eqb_eq in E. subst. exact Hin.
  - intros Hin. exists k. split; [exact Hin | apply key_eqb_refl].
Qed.

Lemma firsts_not_seen (l : list Filename) (seen : list (option bytes)) (f : Filename) :
  In f (firsts seen l) -> ~ In (sha256 f) seen.
Proof.
  revert seen; induction l as [|g l IH]; intros seen; cbn [firsts]; [intros []|].
  destruct (existsb (key_eqb (sha256 g)) seen) eqn:E; [apply IH|].
  intros [<-|Hin].
  - intros Hs. apply existsb_key_In in Hs. congruence.
  - intros Hs. apply (IH _ Hin). apply in_or_app. left. exact Hs.
Qed.

Lemma firsts_NoDup (l : list Filename) (seen : list (option bytes)) :
  NoDup (map sha256 (firsts seen l)).
Proof.
  revert seen; induction l as [|g l IH]; intros seen; cbn [firsts]; [constructor|].
  destruct (existsb (key_eqb (sha256 g)) seen); [apply IH|].
  cbn [map]. constructor; [|apply IH].
  intros Hin. apply in_map_iff in Hin. destruct Hin as (h & Eh & Hh).
  apply firsts_not_seen in Hh. apply Hh. apply in_or_app. right. left. auto.
Qed.

Lemma firsts_keys (l : list Filename) (seen : list (option bytes)) (k : option bytes) :
  In k (map sha256 l) -> In k seen \/ In k (map sha256 (firsts seen l)).
Proof.
  revert seen; induction l as [|g l IH]; intros seen; cbn [firsts map]; [intros []|].
  intros [<-|Hin].
  - destruct (existsb (key_eqb (sha256 g)) seen) eqn:E.
    + left. apply existsb_key_In. exact E.
    + right. left. reflexivity.
  - destruct (existsb (key_eqb (sha256 g)) seen) eqn:E; [apply IH, Hin|].
    destruct (IH (seen ++ [sha256 g]) Hin) as [Hs|Hs].
    + apply in_app_or in Hs. destruct Hs as [Hs|[<-|[]]]; [left; exact Hs|].
      right. left. reflexivity.
    + right. right. exact Hs.
Qed.

(** X7.  After [remove_duplicates] no two records have the same digest,
    and the digests that occur are those that occurred before. *)
Theorem remove_duplicates_distinct (l : list Filename) :
  NoDup (map sha256 (remove_duplicates l)) /\
  forall k, In k (map sha256 (remove_duplicates l)) <-> In k (map sha256 l).
Proof.
  rewrite remove_duplicates_firsts. split; [apply firsts_NoDup|].
  intros k. split.
  - intros Hin. apply in_map_iff in Hin. destruct Hin as (f & <- & Hf).
    apply in_map, (firsts_incl _ _ _ Hf).
  - intros Hin. destruct (firsts_keys l [] k Hin) as [[]|H]; exact H.
Qed.

Lemma firsts_unchanged (l : list Filename) (seen : list (option bytes)) :
  NoDup (map sha256 l) ->
  (forall k, In k (map sha256 l) -> ~ In k seen) ->
  firsts seen l = l.
Proof.
  revert seen; induction l as [|g l IH]; intros seen Hnd Hs; [reflexivity|].
  cbn [firsts map] in *. inversion Hnd as [|? ? Hg Hl]; subst.
  destruct (existsb (key_eqb (sha256 g)) seen) eqn:E.
  - apply existsb_key_In in E. exfalso. apply (Hs (sha256 g)); auto. left; reflexivity.
  - f_equal. apply IH; [exact Hl|].
    intros k Hk Hin. apply in_app_or in Hin. destruct Hin as [Hin|[<-|[]]].
    + apply (Hs k); [right; exact Hk | exact Hin].
    + contradiction.
Qed.

(** X8.  A list in which all digests differ is left as it is, so that
    removing duplicates twice gives what removing them once gives. *)
Theorem remove_duplicates_idempotent (l : list Filename) :
  NoDup (map sha256 l) ->
  remove_duplicates l = l /\
  remove_duplicates (remove_duplicates l) = remove_duplicates l.
Proof.
  intros Hnd.
  assert (E : remove_duplicates l = l).
  { rewrite remove_duplicates_firsts. apply firsts_unchanged; [exact Hnd|].
    intros k _ []. }
  split; [exact E|]. rewrite E. exact E.
Qed.

Lemma firsts_subseq (l : list Filename) (seen : list (option bytes)) :
  subseq (firsts seen l) l.
Proof.
  revert seen; induction l as [|g l IH]; intros seen; cbn [firsts]; [constructor|].
  destruct (existsb (key_eqb (sha256 g)) seen); constructor; apply IH.
Qed.

Lemma subseq_length (A : Type) (l l' : list A) :
  subseq l l' -> (List.length l <= List.length l')%nat.
Proof. induction 1; simpl; lia. Qed.

Lemma remove_duplicates_idempotent_witness :
  let l := [empty_record; set_sha256 [1%N] empty_record] in
  NoDup (map sha256 l) /\ remove_duplicates l = l.
Proof.
  intros l.
  assert (Hnd : NoDup (map sha256 l)).
  { unfold l. cbn. constructor; [intros [E|[]]; discriminate|].
    constructor; [intros []|constructor]. }
  split; [exact Hnd|]. exact (proj1 (@remove_duplicates_idempotent l Hnd)).
Defined.

(** X9.  [remove_duplicates] only leaves records out: the records kept
    stand in the order of the enumeration, and the first record of the
    enumeration is always kept. *)
Theorem remove_duplicates_keeps_order (l : list Filename) :
  subseq (remove_duplicates l) l /\
  (List.length (remove_duplicates l) <= List.length l)%nat /\
  hd_error (remove_duplicates l) = hd_error l.
Proof.
  rewrite remove_duplicates_firsts. split; [apply firsts_subseq|]. split.
  - apply subseq_length, firsts_subseq.
  - destruct l as [|f l]; reflexivity.
Qed.

(** ** The order of the rows of [report_file] *)

Section SortedByKey.

Variable A : Type.
Variable key_of : A -> Z.

Lemma insert_sorted_perm (before : A -> A -> bool) (x : A) (l : list A) :
  Permutation (insert_sorted before x l) (x :: l).
Proof.
  induction l as [|y r IH]; cbn [insert_sorted]; [apply Permutation_refl|].
  destruct (before y x); [|apply Permutation_refl].
  eapply Permutation_trans; [apply perm_skip, IH | apply perm_swap].
Qed.

Lemma sorted_perm (before : A -> A -> bool) (l : list A) :
  Permutation (sorted before l) l.
Proof.
  unfold sorted. induction l as [|x l IH]; cbn [fold_right]; [constructor|].
  eapply Permutation_trans; [apply insert_sorted_perm | apply perm_skip, IH].
Qed.

Lemma insert_sorted_desc (x : A) (l : list A) :
  StronglySorted (fun a b => key_of b <= key_of a)%Z l ->
  StronglySorted (fun a b => key_of b <= key_of a)%Z (insert_sorted (key_before key_of) x l).
Proof.
  induction 1 as [|y r Hr IH Hy]; cbn [insert_sorted].
  - constructor; constructor.
  - unfold key_before at 1. destruct (Z.ltb_spec (key_of x) (key_of y)) as [Hlt|Hge].
    + constructor; [exact IH|].
      eapply Permutation_Forall; [apply Permutation_sym, insert_sorted_perm|].
      constructor; [lia | exact Hy].
    + constructor; [constructor; assumption|].
      constructor; [exact Hge|].
      eapply Forall_impl; [|exact Hy]. intros z Hz. cbv beta in *. lia.
Qed.

Lemma sorted_desc (l : list A) :
  StronglySorted (fun a b => key_of b <= key_of a)%Z (sorted (key_before key_of) l).
Proof.
  unfold sorted. induction l as [|x l IH]; cbn [fold_right]; [constructor|].
  apply insert_sorted_desc, IH.
Qed.

Lemma insert_sorted_stable (v : Z) (x : A) (l : list A) :
  filter (fun a => key_of a =? v)%Z (insert_sorted (key_before key_of) x l)
  = filter (fun a => key_of a =? v)%Z (x :: l).
Proof.
  induction l as [|y r IH]; cbn [insert_sorted]; [reflexivity|].
  unfold key_before at 1. destruct (Z.ltb_spec (key_of x) (key_of y)) as [Hlt|Hge];
    [|reflexivity].
  cbn [filter] in *. rewrite IH.
  destruct (Z.eqb_spec (key_of x) v), (Z.eqb_spec (key_of y) v); try reflexivity.
  lia.
Qed.

Lemma sorted_stable (v : Z) (l : list A) :
  filter (fun a => key_of a =? v)%Z (sorted (key_before key_of) l)
  = filter (fun a => key_of a =? v)%Z l.
Proof.
  unfold sorted. induction l as [|x l IH]; cbn [fold_right]; [reflexivity|].
  rewrite insert_sorted_stable. cbn [filter]. rewrite IH. reflexivity.
Qed.

End SortedByKey.

Lemma filter_perm (A : Type) (p : A -> bool) (l l' : list A) :
  Permutation l l' -> Permutation (filter p l) (filter p l').
Proof.
  induction 1 as [|x l l' _ IH|x y l|l l' l'' _ IH1 _ IH2]; cbn [filter].
  - constructor.
  - destruct (p x); [apply perm_skip, IH | exact IH].
  - destruct (p x), (p y); try apply Permutation_refl. apply perm_swap.
  - eapply Permutation_trans; eassumption.
Qed.

Lemma filter_strongly_sorted (A : Type) (R : A -> A -> Prop) (p : A -> bool)
  (l : list A) :
  StronglySorted R l -> StronglySorted R (filter p l).
Proof.
  induction 1 as [|x l Hl IH Hx]; cbn [filter]; [constructor|].
  destruct (p x); [|exact IH].
  constructor; [exact IH|].
  rewrite Forall_forall in *. intros y Hy. apply filter_In in Hy. apply Hx, Hy.
Qed.

Lemma filter_comm (A : Type) (p q : A -> bool) (l : list A) :
  filter p (filter q l) = filter q (filter p l).
Proof.
  induction l as [|x l IH]; cbn [filter]; [reflexivity|].
  destruct (p x) eqn:Ep, (q x) eqn:Eq; cbn [filter]; rewrite ?Ep, ?Eq, IH; reflexivity.
Qed.

Lemma report_file_filter (cc : CodeCounter) :
  report_file cc
  = Header (str "By File")
    :: map file_row (filter has_lang (sorted (key_before code) (filelist cc)))
    ++ [Summary (tfiles cc) (tblanks cc) (tcomments cc) (tcode cc) (tlines cc)].
Proof.
  unfold report_file. do 2 f_equal.
  change (fun y x => (code x <? code y)%Z) with (key_before code).
  induction (sorted (key_before code) (filelist cc)) as [|f l IH]; [reflexivity|].
  cbn [flat_map filter]. unfold has_lang at 1.
  destruct (lang f); cbn [app map]; rewrite IH; reflexivity.
Qed.

(** X10.  [report_file] prints the header, one row for every record that
    has a language, and the summary.  The rows stand by falling number of
    code lines, and among records with the same number of code lines in
    the order of the file list. *)
Theorem report_file_rows (cc : CodeCounter) :
  exists fs,
    report_file cc
    = Header (str "By File") :: map file_row fs
      ++ [Summary (tfiles cc) (tblanks cc) (tcomments cc) (tcode cc) (tlines cc)] /\
    Permutation fs (filter has_lang (filelist cc)) /\
    StronglySorted (fun a b => code b <= code a)%Z fs /\
    forall v, filter (fun f => code f =? v)%Z fs
              = filter (fun f => code f =? v)%Z (filter has_lang (filelist cc)).
Proof.
  exists (filter has_lang (sorted (key_before code) (filelist cc))).
  split; [|split; [|split]].
  - apply report_file_filter.
  - apply filter_perm, sorted_perm.
  - apply filter_strongly_sorted, sorted_desc.
  - intros v. rewrite filter_comm, sorted_stable. apply filter_comm.
Qed.

(** ** The subtotals of [report_lang] and [report_dir] *)

Lemma col_sum_app (sel : out_line -> Z) (a b : list out_line) :
  col_sum sel (a ++ b) = (col_sum sel a + col_sum sel b)%Z.
Proof.
  unfold col_sum. induction a as [|o a IH]; cbn [app fold_right]; [lia|].
  rewrite IH. lia.
Qed.

Lemma total_of_insert (m : Filename -> Z) (before : Filename -> Filename -> bool)
  (x : Filename) (l : list Filename) :
  total_of m (insert_sorted before x l) = (m x + total_of m l)%Z.
Proof.
  unfold total_of. induction l as [|y r IH]; cbn [insert_sorted fold_right];
    [reflexivity|].
  destruct (before y x); cbn [fold_right]; [rewrite IH; lia | reflexivity].
Qed.

Lemma total_of_sorted (m : Filename -> Z) (before : Filename -> Filename -> bool)
  (l : list Filename) :
  total_of m (sorted before l) = total_of m l.
Proof.
  unfold sorted. induction l as [|x l IH]; cbn [fold_right]; [reflexivity|].
  rewrite total_of_insert. unfold total_of at 2. cbn [fold_right].
  fold (total_of m l). rewrite IH. reflexivity.
Qed.

Lemma col_sum_cons (sel : out_line -> Z) (o : out_line) (l : list out_line) :
  col_sum sel (o :: l) = (sel o + col_sum sel l)%Z.
Proof. reflexivity. Qed.

Section Subtotals.

(** A counter of a record, the entry of [total] that sums it, and the
    column of the detail row that shows it. *)
Variable pf : Filename -> Z.
Variable pt : subtotal -> Z.
Variable sel : out_line -> Z.

Hypothesis pt_add : forall t f, pt (subtotal_add t f) = (pt t + pf f)%Z.
Hypothesis pt_start : forall k f, pt (subtotal_start k f) = pf f.
Hypothesis sel_detail : forall text t, sel (subtotal_detail text t) = pt t.
Hypothesis sel_dirline : forall d, sel (DirLine d) = 0%Z.
Hypothesis sel_dashes : sel Dashes = 0%Z.

(** What the running subtotal will add to the column once it is printed. *)
Let pending (t : subtotal) : Z := if truthy (key t) then pt t else 0%Z.

Lemma lang_step_sum (acc : subtotal * list out_line) (f : Filename) :
  lang f <> Some [] ->
  let acc' := report_lang_step acc f in
  (col_sum sel (snd acc') + pending (fst acc')
   = col_sum sel (snd acc) + pending (fst acc)
     + (if has_lang f then pf f else 0))%Z.
Proof.
  intros Hne. destruct acc as [total out]. unfold report_lang_step, has_lang, pending.
  destruct (lang f) as [l|] eqn:Hl; cbn [fst snd]; [|lia].
  assert (Ht : truthy (Some l) = true)
    by (destruct l; [exfalso; apply Hne; reflexivity | reflexivity]).
  destruct (opt_eqb (Some l) (key total)) eqn:E; cbn [fst snd].
  - destruct (key total) as [k|] eqn:Hk; [|discriminate]. cbn [opt_eqb] in E.
    apply eqb_eq in E. subst k. cbn [subtotal_add key]. rewrite Hk, Ht, pt_add. lia.
  - rewrite col_sum_app. cbn [subtotal_start key]. rewrite Ht.
    change (pt {| key := Some l; blank := blanks f; comment := comments f;
                  file := 1; code_ := code f; line := lines f |})
      with (pt (subtotal_start l f)).
    rewrite pt_start.
    destruct (truthy (key total));
      rewrite ?col_sum_cons, ?sel_detail; change (col_sum sel []) with 0%Z; lia.
Qed.

Lemma lang_fold_sum (l : list Filename) (acc : subtotal * list out_line) :
  Forall (fun f => lang f <> Some []) l ->
  let acc' := fold_left report_lang_step l acc in
  (col_sum sel (snd acc') + pending (fst acc')
   = col_sum sel (snd acc) + pending (fst acc)
     + total_of (fun f => if has_lang f then pf f else 0) l)%Z.
Proof.
  intros Hl. revert acc. induction Hl as [|f l Hf _ IH]; intros acc;
    cbn [fold_left total_of fold_right]; [lia|].
  cbv zeta in IH. rewrite IH.
  pose proof (@lang_step_sum acc f Hf) as Hs. cbv zeta in Hs. rewrite Hs.
  unfold total_of. lia.
Qed.

Lemma dir_step_sum (acc : subtotal * list out_line) (f : Filename) :
  truthy (shortpath f) = true ->
  let acc' := report_dir_step acc f in
  (col_sum sel (snd acc') + pending (fst acc')
   = col_sum sel (snd acc) + pending (fst acc) + pf f)%Z.
Proof.
  intros Ht. destruct acc as [total out]. unfold report_dir_step, pending.
  destruct (shortpath f) as [sp|] eqn:Hsp; [|discriminate].
  destruct (opt_eqb (Some sp) (key total)) eqn:E; cbn [fst snd].
  - destruct (key total) as [k|] eqn:Hk; [|discriminate]. cbn [opt_eqb] in E.
    apply eqb_eq in E. subst k. cbn [subtotal_add key]. rewrite Hk, Ht, pt_add. lia.
  - rewrite !col_sum_app. cbn [subtotal_start key]. rewrite Ht.
    change (pt {| key := Some sp; blank := blanks f; comment := comments f;
                  file := 1; code_ := code f; line := lines f |})
      with (pt (subtotal_start sp f)).
    rewrite pt_start.
    destruct (truthy (key total));
      rewrite ?col_sum_cons, ?sel_detail, ?sel_dirline, ?sel_dashes;
      change (col_sum sel []) with 0%Z; lia.
Qed.

Lemma dir_fold_sum (l : list Filename) (acc : subtotal * list out_line) :
  Forall (fun f => truthy (shortpath f) = true) l ->
  let acc' := fold_left report_dir_step l acc in
  (col_sum sel (snd acc') + pending (fst acc')
   = col_sum sel (snd acc) + pending (fst acc) + total_of pf l)%Z.
Proof.
  intros Hl. revert acc. induction Hl as [|f l Hf _ IH]; intros acc;
    cbn [fold_left total_of fold_right]; [lia|].
  cbv zeta in IH. rewrite IH.
  pose proof (@dir_step_sum acc f Hf) as Hs. cbv zeta in Hs. rewrite Hs.
  unfold total_of. lia.
Qed.

Hypothesis sel_header : forall t, sel (Header t) = 0%Z.
Hypothesis sel_summary : forall a b c d e, sel (Summary a b c d e) = 0%Z.

Lemma report_lang_column (cc : CodeCounter) :
  Forall (fun f => lang f <> Some []) (filelist cc) ->
  col_sum sel (report_lang cc)
  = total_of (fun f => if has_lang f then pf f else 0%Z) (filelist cc).
Proof.
  intros Hl. unfold report_lang.
  set (srt := sorted _ (filelist cc)).
  assert (Hs : Forall (fun f => lang f <> Some []) srt).
  { eapply Permutation_Forall; [apply Permutation_sym, sorted_perm | exact Hl]. }
  pose proof (@lang_fold_sum srt (subtotal0, []) Hs) as Hf. cbv zeta in Hf.
  destruct (fold_left report_lang_step srt (subtotal0, [])) as [total out].
  cbn [fst snd] in Hf. unfold pending in Hf. cbn [subtotal0 key truthy] in Hf.
  change (col_sum sel []) with 0%Z in Hf.
  unfold srt in Hf. rewrite total_of_sorted in Hf.
  change (col_sum sel (Header (str "By Language") :: out
                       ++ (if truthy (key total)
                           then [subtotal_detail (str_of (key total)) total] else [])
                       ++ [Summary (tfiles cc) (tblanks cc) (tcomments cc)
                             (tcode cc) (tlines cc)])
          = total_of (fun f => if has_lang f then pf f else 0%Z) (filelist cc)).
  rewrite col_sum_cons, sel_header, !col_sum_app.
  destruct (truthy (key total));
    rewrite ?col_sum_cons, ?sel_detail, ?sel_summary;
    change (col_sum sel []) with 0%Z; lia.
Qed.

Lemma report_dir_column (cc : CodeCounter) :
  Forall (fun f => truthy (shortpath f) = true) (filelist cc) ->
  col_sum sel (report_dir cc) = total_of pf (filelist cc).
Proof.
  intros Hl. unfold report_dir.
  set (srt := sorted _ (filelist cc)).
  assert (Hs : Forall (fun f => truthy (shortpath f) = true) srt).
  { eapply Permutation_Forall; [apply Permutation_sym, sorted_perm | exact Hl]. }
  pose proof (@dir_fold_sum srt (subtotal0, []) Hs) as Hf. cbv zeta in Hf.
  destruct (fold_left report_dir_step srt (subtotal0, [])) as [total out].
  cbn [fst snd] in Hf. unfold pending in Hf. cbn [subtotal0 key truthy] in Hf.
  change (col_sum sel []) with 0%Z in Hf.
  unfold srt in Hf. rewrite total_of_sorted in Hf.
  change (col_sum sel (Header (str "By Directory") :: out
                       ++ (if truthy (key total)
                           then [subtotal_detail [] total] else [])
                       ++ [Summary (tfiles cc) (tblanks cc) (tcomments cc)
                             (tcode cc) (tlines cc)])
          = total_of pf (filelist cc)).
  rewrite col_sum_cons, sel_header, !col_sum_app.
  destruct (truthy (key total));
    rewrite ?col_sum_cons, ?sel_detail, ?sel_summary;
    change (col_sum sel []) with 0%Z; lia.
Qed.

End Subtotals.

Lemma total_of_filter (m : Filename -> Z) (p : Filename -> bool) (l : list Filename) :
  total_of (fun f => if p f then m f else 0%Z) l = total_of m (filter p l).
Proof.
  unfold total_of. induction l as [|f l IH]; cbn [fold_right filter]; [reflexivity|].
  destruct (p f); cbn [fold_right]; rewrite IH; reflexivity.
Qed.

Lemma total_of_ones (l : list Filename) :
  total_of (fun _ => 1%Z) l = Z.of_nat (List.length l).
Proof.
  unfold total_of. induction l as [|f l IH]; cbn [fold_right List.length]; lia.
Qed.

(** X11.  In the report by language nothing is lost or counted twice: the
    file counts of the rows add up to the number of records that have a
    language, and the blank, comment, code and line columns add up to the
    sums of these counters over those records. *)
Theorem report_lang_adds_up (cc : CodeCounter) :
  Forall (fun f => lang f <> Some []) (filelist cc) ->
  let counted := filter has_lang (filelist cc) in
  col_sum row_files (report_lang cc) = Z.of_nat (List.length counted) /\
  col_sum row_blank (report_lang cc) = total_of blanks counted /\
  col_sum row_comment (report_lang cc) = total_of comments counted /\
  col_sum row_code (report_lang cc) = total_of code counted /\
  col_sum row_line (report_lang cc) = total_of lines counted.
Proof.
  intros Hl counted. unfold counted.
  rewrite <- total_of_ones, <- !total_of_filter.
  repeat split.
  - apply (@report_lang_column (fun _ => 1%Z) file row_files); auto.
  - apply (@report_lang_column blanks blank row_blank); auto.
  - apply (@report_lang_column comments comment row_comment); auto.
  - apply (@report_lang_column code code_ row_code); auto.
  - apply (@report_lang_column lines line row_line); auto.
Qed.

Lemma report_lang_adds_up_witness :
  let cc := new_counter
              [count Code (set_lang (str "C") empty_record);
               empty_record;
               count Comment (set_lang (str "Perl") empty_record);
               count Code (count Code (set_lang (str "C") empty_record))] in
  Forall (fun f => lang f <> Some []) (filelist cc) /\
  report_lang cc
  = [Header (str "By Language"); Detail (str "C") 2 0 0 3 0;
     Detail (str "Perl") 1 0 1 0 0; Summary 0 0 0 0 0] /\
  col_sum row_files (report_lang cc) = 3%Z /\
  col_sum row_code (report_lang cc) = 3%Z.
Proof.
  intros cc.
  assert (Hl : Forall (fun f => lang f <> Some []) (filelist cc))
    by (repeat constructor; discriminate).
  split; [exact Hl|]. split; [reflexivity|].
  destruct (@report_lang_adds_up cc Hl) as (E1 & _ & _ & E4 & _).
  split; [exact E1 | exact E4].
Defined.

(** X12.  In the report by directory the file counts of the rows add up to
    the number of records of the file list, with or without a language,
    and the other columns to the sums of the counters over the list. *)
Theorem report_dir_adds_up (cc : CodeCounter) :
  Forall (fun f => truthy (shortpath f) = true) (filelist cc) ->
  col_sum row_files (report_dir cc) = Z.of_nat (List.length (filelist cc)) /\
  col_sum row_blank (report_dir cc) = total_of blanks (filelist cc) /\
  col_sum row_comment (report_dir cc) = total_of comments (filelist cc) /\
  col_sum row_code (report_dir cc) = total_of code (filelist cc) /\
  col_sum row_line (report_dir cc) = total_of lines (filelist cc).
Proof.
  intros Hl. rewrite <- total_of_ones.
  repeat split.
  - apply (@report_dir_column (fun _ => 1%Z) file row_files); auto.
  - apply (@report_dir_column blanks blank row_blank); auto.
  - apply (@report_dir_column comments comment row_comment); auto.
  - apply (@report_dir_column code code_ row_code); auto.
  - apply (@report_dir_column lines line row_line); auto.
Qed.

Lemma report_dir_adds_up_witness :
  let cc := counter (run (fun b => b) args_bygroup mixed_world) in
  Forall (fun f => truthy (shortpath f) = true) (filelist cc) /\
  col_sum row_files (report_dir cc) = 2%Z /\
  col_sum row_line (report_dir cc) = 1%Z.
Proof.
  intros cc.
  assert (Hl : Forall (fun f => truthy (shortpath f) = true) (filelist cc))
    by (repeat constructor).
  split; [exact Hl|].
  destruct (@report_dir_adds_up cc Hl) as (E1 & _ & _ & _ & E5).
  split; [exact E1 | exact E5].
Defined.

(** ** [Filename.__init__] *)

Lemma lstrip_length (s : pystr) : (List.length (Str.lstrip s) <= List.length s)%nat.
Proof.
  induction s as [|c s IH]; cbn [Str.lstrip]; [lia|].
  destruct (Str.is_space c); cbn [List.length]; lia.
Qed.

Lemma strip_length (s : pystr) : (List.length (Str.strip s) <= List.length s)%nat.
Proof.
  unfold Str.strip, Str.rstrip. rewrite length_rev.
  eapply Nat.le_trans; [apply lstrip_length|]. rewrite length_rev. apply lstrip_length.
Qed.

Lemma slice_length (s : pystr) (a n : Z) :
  (0 <= a)%Z -> (0 <= n)%Z ->
  (List.length (Str.slice s a (a + n)) <= Z.to_nat n)%nat.
Proof.
  intros Ha Hn. unfold Str.slice. rewrite length_firstn.
  unfold Str.bound, Str.len.
  destruct (Z.ltb_spec a 0); [lia|]. destruct (Z.ltb_spec (a + n) 0); lia.
Qed.

Lemma rindex_skipn (ch : N) (s : pystr) (n : nat) :
  Str.rindex_char ch s = Some n ->
  (n < List.length s)%nat /\ exists rest, skipn n s = ch :: rest.
Proof.
  revert n; induction s as [|c s IH]; intros n; cbn [Str.rindex_char]; [discriminate|].
  destruct (Str.rindex_char ch s) as [k|].
  - intros [= <-]. destruct (IH k eq_refl) as [Hk [rest Hr]].
    cbn [List.length skipn]. split; [lia | eauto].
  - destruct (N.eqb_spec c ch) as [->|_]; [|discriminate].
    intros [= <-]. cbn [List.length skipn]. split; [lia | eauto].
Qed.

Lemma splitext_extension (p : pystr) :
  snd (OsPath.splitext p) = [] \/
  exists rest, snd (OsPath.splitext p) = OsPath.extsep :: rest.
Proof.
  unfold OsPath.splitext.
  destruct (Z.ltb_spec (Str.rfind_char p OsPath.sep) (Str.rfind_char p OsPath.extsep));
    [|left; reflexivity].
  destruct (forallb _ _); [left; reflexivity|]. right. cbn [snd].
  unfold Str.rfind_char in *.
  destruct (Str.rindex_char OsPath.extsep p) as [n|] eqn:E.
  - destruct (rindex_skipn _ _ E) as [Hn [rest Hr]].
    exists rest. unfold Str.slice_from. rewrite bound_of_nat by lia. exact Hr.
  - destruct (Str.rindex_char OsPath.sep p); lia.
Qed.

(** X16.  Of every record [Filename.__init__] makes: [shortpath] is a
    string that starts with a dot and has at most 79 code points, so it is
    never [None] and never empty; [extension] is empty or starts with a
    dot; the counters are zero, and there is neither a language nor a
    digest. *)
Theorem Filename_init_shape (w : world) (argpath p n : pystr) :
  let f := Filename_init w argpath p n in
  (exists rest, shortpath f = Some (46%N :: rest) /\ (List.length rest <= 78)%nat) /\
  truthy (shortpath f) = true /\
  (extension f = [] \/ exists rest, extension f = 46%N :: rest) /\
  fresh f.
Proof.
  intros f. split; [|split; [|split]].
  - eexists. split; [reflexivity|].
    eapply Nat.le_trans; [apply strip_length|].
    pose proof (@slice_length p (Str.len argpath) 78) as Hs.
    unfold Str.len in *. change (Z.to_nat 78) with 78%nat in Hs. apply Hs; lia.
  - reflexivity.
  - unfold f. cbn [extension Filename_init].
    destruct (splitext_extension n) as [->|[rest ->]]; [left; reflexivity|].
    right. eexists. reflexivity.
  - apply Filename_init_fresh.
Qed.

(** ** [listfiles] and [walk] *)

Lemma rindex_none (ch : N) (s : pystr) :
  ~ In ch s -> Str.rindex_char ch s = None.
Proof.
  induction s as [|c s IH]; cbn [Str.rindex_char]; [reflexivity|].
  intros Hn. rewrite IH by (intros H; apply Hn; right; exact H).
  destruct (N.eqb_spec c ch) as [->|_]; [|reflexivity].
  exfalso. apply Hn. left. reflexivity.
Qed.

Lemma split_bare (p : pystr) : ~ In OsPath.sep p -> OsPath.split p = ([], p).
Proof.
  intros Hn. unfold OsPath.split, Str.rfind_char. rewrite rindex_none by exact Hn.
  change (-1 + 1)%Z with (Z.of_nat 0). unfold Str.slice_to, Str.slice_from.
  rewrite bound_of_nat by lia. reflexivity.
Qed.

Lemma join_empty (p : pystr) : ~ In OsPath.sep p -> OsPath.join [] p = p.
Proof.
  intros Hn. unfold OsPath.join.
  destruct p as [|c p]; [reflexivity|]. cbn [Str.startswith].
  destruct (N.eqb_spec OsPath.sep c) as [E|_]; [|reflexivity].
  exfalso. apply Hn. left. auto.
Qed.

(** X14.  [walk] does not look below a folder whose name is in
    [ignoredirs], at any depth: the events and the records are those of
    the tree without these folders. *)
Theorem walk_ignores_folders (w : world) (argpath : pystr) :
  forall (t : dirtree) (root : pystr),
    walk_tree w argpath root t = walk_tree w argpath root (prune t).
Proof.
  fix IH 1. intros [files subdirs] root. cbn [walk_tree prune].
  match goal with
  | |- context [fst (?D (?K subdirs))] => set (descend := D); set (keep := K)
  end.
  assert (Hd : forall folder sub rest,
             descend ((folder, sub) :: rest)
             = if str_in folder ignoredirs then descend rest
               else (fst (walk_tree w argpath (OsPath.join root folder) sub)
                     ++ fst (descend rest),
                     snd (walk_tree w argpath (OsPath.join root folder) sub)
                     ++ snd (descend rest)))
    by (intros; reflexivity).
  assert (Hk : forall folder sub rest,
             keep ((folder, sub) :: rest)
             = if str_in folder ignoredirs then keep rest
               else (folder, prune sub) :: keep rest)
    by (intros; reflexivity).
  assert (E : forall ds, descend ds = descend (keep ds)).
  { induction ds as [|[folder sub] rest IHr]; [reflexivity|].
    rewrite Hk, Hd. destruct (str_in folder ignoredirs) eqn:Ei; [exact IHr|].
    rewrite Hd, Ei, <- IHr, <- IH. reflexivity. }
  rewrite <- E. reflexivity.
Qed.

(** ** A run as a whole *)

Lemma walk_files_made (w : world) (argpath root : pystr) (files : list pystr) :
  Forall (fun f => exists p n, f = Filename_init w argpath p n)
    (snd (walk_files w argpath root files)).
Proof.
  unfold walk_files. induction files as [|n files IH]; simpl; [constructor|].
  destruct (isfile w _); simpl; [|exact IH].
  constructor; [eauto | exact IH].
Qed.

Lemma walk_tree_made (w : world) (argpath : pystr) :
  forall (t : dirtree) (root : pystr),
    Forall (fun f => exists p n, f = Filename_init w argpath p n)
      (snd (walk_tree w argpath root t)).
Proof.
  fix IH 1. intros [files subdirs] root. cbn [walk_tree snd].
  apply Forall_app. split; [apply walk_files_made|].
  induction subdirs as [|[folder sub] rest IHr]; [constructor|].
  destruct (str_in folder ignoredirs); [exact IHr|].
  cbn [snd]. apply Forall_app. split; [apply IH | exact IHr].
Qed.

Lemma listfiles_made (args : Args) (w : world) :
  Forall (fun f => exists p n, f = Filename_init w (arg_path args) p n)
    (snd (listfiles args w)).
Proof.
  unfold listfiles. destruct (isdir w (arg_path args)).
  - apply walk_tree_made.
  - destruct (OsPath.split (arg_path args)) as [root filename].
    destruct (isfile w _); simpl; [|constructor].
    constructor; [eauto | constructor].
Qed.

Lemma find_lang_In (registry : list (pystr * Lang.rule)) (e l : pystr) :
  find_lang registry e = Some l ->
  exists r, In (l, r) registry /\ str_in e (Lang.ext r) = true.
Proof.
  induction registry as [|[l0 r0] rest IH]; cbn [find_lang]; [discriminate|].
  destruct (str_in e (Lang.ext r0)) eqn:E.
  - intros [= <-]. exists r0. split; [left; reflexivity | exact E].
  - intros Hf. destruct (IH Hf) as (r & Hin & Hr). exists r. split; [right|]; auto.
Qed.

Lemma langs_names_nonempty (e l : pystr) :
  find_lang langs e = Some l -> l <> [].
Proof.
  intros Hf. destruct (find_lang_In _ _ Hf) as (r & Hin & _).
  assert (Hall : forallb (fun p => negb (Str.eqb (fst p) [])) langs = true)
    by (vm_compute; reflexivity).
  rewrite forallb_forall in Hall. specialize (Hall _ Hin). cbn [fst] in Hall.
  apply negb_true_iff, eqb_neq in Hall. exact Hall.
Qed.

Lemma scanfile_well (sha256_digest : bytes -> bytes) (w : world)
  (argpath p n : pystr) (g : Filename) :
  snd (scanfile sha256_digest w (Filename_init w argpath p n)) = Some g ->
  well_scanned g.
Proof.
  set (f := Filename_init w argpath p n). intros Hs.
  pose proof (@scanfile_unfold sha256_digest w f (Filename_init_fresh w argpath p n))
    as Hu.
  destruct (skipped f).
  - rewrite Hu in Hs. injection Hs as <-.
    unfold well_scanned, balanced, has_lang. cbn. repeat split; discriminate.
  - destruct Hu as (l & r & fl' & fed' & f2 & Hf & _ & Hscan & E).
    rewrite E in Hs. injection Hs as <-.
    apply scan_lines_spec in Hscan. destruct Hscan as (_ & Hc & _).
    unfold counted_from in Hc. cbn in Hc.
    destruct Hc as (H1 & H2 & _ & _ & _ & H6 & _ & _ & _ & _ & _ & H12 & _).
    unfold well_scanned, balanced, has_lang. cbn [shortpath lang set_sha256 lines code
      comments blanks].
    rewrite H6, H12. repeat split; try lia; try discriminate.
    intros [= E0]. exact (langs_names_nonempty _ Hf E0).
Qed.

Lemma run_kept_well (sha256_digest : bytes -> bytes) (args : Args) (w : world) :
  output_languages args = false ->
  Forall well_scanned (filelist (counter (run sha256_digest args w))).
Proof.
  intros Ho.
  destruct (run_counter sha256_digest args w Ho) as (fl1 & _ & Hall & _ & Hc & _).
  cbv zeta in Hc. rewrite Hc, accumulate_filelist.
  assert (H1 : Forall well_scanned fl1).
  { pose proof (listfiles_made args w) as Hm.
    clear Hc. revert Hm Hall. generalize (snd (listfiles args w)) as fl0.
    intros fl0 Hm Hall.
    induction Hall as [|f g l l' Hfg _ IH]; [constructor|].
    inversion Hm as [|? ? (p & n & E) Hm']; subst.
    constructor; [exact (scanfile_well _ _ _ _ _ Hfg) | apply IH, Hm']. }
  destruct (include args); [exact H1|].
  rewrite Forall_forall in *. intros g Hg. apply H1, remove_duplicates_incl, Hg.
Qed.

Lemma total_of_perm (m : Filename -> Z) (l l' : list Filename) :
  Permutation l l' -> total_of m l = total_of m l'.
Proof.
  unfold total_of.
  induction 1 as [|x l l' _ IH|x y l|l l' l'' _ IH1 _ IH2]; cbn [fold_right]; lia.
Qed.

Lemma total_of_counted (m : Filename -> Z) (l : list Filename) :
  Forall (fun f => has_lang f = false -> m f = 0%Z) l ->
  total_of m (filter has_lang l) = total_of m l.
Proof.
  unfold total_of. induction 1 as [|f l Hf _ IH]; cbn [filter fold_right];
    [reflexivity|].
  destruct (has_lang f); cbn [fold_right]; [lia|]. rewrite Hf by reflexivity. lia.
Qed.

Lemma report_file_column (sel : out_line -> Z) (m : Filename -> Z) (cc : CodeCounter) :
  (forall f, sel (file_row f) = m f) ->
  (forall t, sel (Header t) = 0%Z) ->
  (forall a b c d e, sel (Summary a b c d e) = 0%Z) ->
  col_sum sel (report_file cc) = total_of m (filter has_lang (filelist cc)).
Proof.
  intros Hrow Hh Hs. rewrite report_file_filter.
  set (fs := filter has_lang (sorted (key_before code) (filelist cc))).
  assert (Hp : Permutation fs (filter has_lang (filelist cc)))
    by apply filter_perm, sorted_perm.
  rewrite col_sum_cons, Hh, col_sum_app, col_sum_cons, Hs.
  change (col_sum sel []) with 0%Z.
  rewrite <- (total_of_perm m Hp).
  assert (E : col_sum sel (map file_row fs) = total_of m fs).
  { clear Hp. unfold col_sum, total_of.
    induction fs as [|f fs IH]; cbn [map fold_right]; [reflexivity|].
    rewrite Hrow, IH. reflexivity. }
  lia.
Qed.


Lemma report_ends_in_summary (args : Args) (cc : CodeCounter) :
  (bylang args || bygroup args || byfile args) = true ->
  last (report args cc) Dashes
  = Summary (tfiles cc) (tblanks cc) (tcomments cc) (tcode cc) (tlines cc).
Proof.
  intros Hr. unfold report.
  destruct (bylang args); [|destruct (bygroup args);
                             [|destruct (byfile args); [|discriminate]]].
  - unfold report_lang. destruct (fold_left _ _ _) as [total out].
    rewrite app_comm_cons, app_assoc. apply last_last.
  - unfold report_dir. destruct (fold_left _ _ _) as [total out].
    rewrite app_comm_cons, app_assoc. apply last_last.
  - unfold report_file. rewrite app_comm_cons. apply last_last.
Qed.

(** X13.  In a run that prints a report, the rows of the report add up to
    its totals row: the blank, comment, code and line columns of the rows
    sum to the totals the last line shows, whichever of the three reports
    is chosen.  The file total counts the kept records with at least one
    line, and is at most the sum of the file column. *)
Theorem run_report_adds_up (sha256_digest : bytes -> bytes) (args : Args) (w : world) :
  output_languages args = false ->
  (bylang args || bygroup args || byfile args) = true ->
  let cc := counter (run sha256_digest args w) in
  let out := report args cc in
  last out Dashes
  = Summary (tfiles cc) (tblanks cc) (tcomments cc) (tcode cc) (tlines cc) /\
  col_sum row_blank out = tblanks cc /\
  col_sum row_comment out = tcomments cc /\
  col_sum row_code out = tcode cc /\
  col_sum row_line out = tlines cc /\
  tfiles cc
  = Z.of_nat (List.length (filter (fun f => (0 <? lines f)%Z) (filelist cc))) /\
  (tfiles cc <= col_sum row_files out)%Z.
Proof.
  intros Ho Hr cc out.
  pose proof (run_kept_well sha256_digest args w Ho) as Hw. fold cc in Hw.
  destruct (run_counter sha256_digest args w Ho) as (fl1 & _ & _ & _ & Hc & _).
  cbv zeta in Hc. fold cc in Hc.
  set (fl2 := if include args then fl1 else remove_duplicates fl1) in Hc.
  assert (Hfl : filelist cc = fl2) by (rewrite Hc; apply accumulate_filelist).
  destruct (fold_add_file fl2 (new_counter fl2)) as (_ & T1 & T2 & T3 & T4 & T5).
  change (fold_left add_file fl2 (new_counter fl2))
    with (accumulate (new_counter fl2)) in T1, T2, T3, T4, T5.
  rewrite <- Hc in T1, T2, T3, T4, T5. cbn [new_counter tlines tcode tcomments
    tblanks tfiles] in T1, T2, T3, T4, T5.
  fold (total_of lines fl2) in T1. fold (total_of code fl2) in T2.
  fold (total_of comments fl2) in T3. fold (total_of blanks fl2) in T4.
  rewrite <- Hfl in T1, T2, T3, T4, T5.
  assert (Hsp : Forall (fun f => truthy (shortpath f) = true) (filelist cc)).
  { eapply Forall_impl; [|exact Hw]. intros f (H1 & _). exact H1. }
  assert (Hln : Forall (fun f => lang f <> Some []) (filelist cc)).
  { eapply Forall_impl; [|exact Hw]. intros f (_ & H2 & _). exact H2. }
  assert (Hz : forall m, In m [blanks; comments; code; lines] ->
             Forall (fun f => has_lang f = false -> m f = 0%Z) (filelist cc)).
  { intros m Hm. eapply Forall_impl; [|exact Hw].
    intros f (_ & _ & _ & H4) Hf. destruct (H4 Hf) as (E1 & E2 & E3 & E4).
    cbn [In] in Hm. destruct Hm as [<-|[<-|[<-|[<-|[]]]]]; assumption. }
  assert (Hcount : (Z.of_nat (List.length
                      (filter (fun f => (0 <? lines f)%Z) (filelist cc)))
                    <= Z.of_nat (List.length (filter has_lang (filelist cc))))%Z).
  { clear - Hw. induction Hw as [|f l (_ & _ & _ & H4) _ IH];
      cbn [filter]; [lia|].
    destruct (has_lang f) eqn:Hf.
    - destruct (0 <? lines f)%Z; cbn [List.length]; lia.
    - destruct (H4 eq_refl) as (-> & _). cbn [Z.ltb Z.compare]. exact IH. }
  assert (Hlen : (Z.of_nat (List.length (filter has_lang (filelist cc)))
                  <= Z.of_nat (List.length (filelist cc)))%Z).
  { apply inj_le, filter_length_le. }
  split; [apply report_ends_in_summary, Hr|].
  assert (Hcols :
    forall (m : Filename -> Z) (pt : subtotal -> Z) (sel : out_line -> Z),
      In m [blanks; comments; code; lines] ->
      (forall t f, pt (subtotal_add t f) = (pt t + m f)%Z) ->
      (forall k f, pt (subtotal_start k f) = m f) ->
      (forall text t, sel (subtotal_detail text t) = pt t) ->
      (forall f, sel (file_row f) = m f) ->
      (forall t, sel (Header t) = 0%Z) ->
      (forall a b c d e, sel (Summary a b c d e) = 0%Z) ->
      (forall d, sel (DirLine d) = 0%Z) ->
      sel Dashes = 0%Z ->
      col_sum sel out = total_of m (filelist cc)).
  { intros m pt sel Hm A1 A2 A3 A4 A5 A6 A7 A8. unfold out, report.
    destruct (bylang args); [|destruct (bygroup args);
                               [|destruct (byfile args); [|discriminate]]].
    - rewrite (@report_lang_column m pt sel) by assumption.
      rewrite total_of_filter. apply total_of_counted, Hz, Hm.
    - apply (@report_dir_column m pt sel); assumption.
    - rewrite (@report_file_column sel m) by assumption.
      apply total_of_counted, Hz, Hm. }
  split; [rewrite T4; apply (Hcols blanks blank row_blank); cbn [In]; auto|].
  split; [rewrite T3; apply (Hcols comments comment row_comment); cbn [In]; auto|].
  split; [rewrite T2; apply (Hcols code code_ row_code); cbn [In]; auto|].
  split; [rewrite T1; apply (Hcols lines line row_line); cbn [In]; auto|].
  split; [rewrite T5; lia|].
  rewrite T5. unfold out, report.
  destruct (bylang args); [|destruct (bygroup args);
                             [|destruct (byfile args); [|discriminate]]].
  - rewrite (@report_lang_column (fun _ => 1%Z) file row_files) by auto.
    rewrite total_of_filter, total_of_ones. lia.
  - rewrite (@report_dir_column (fun _ => 1%Z) file row_files) by auto.
    rewrite total_of_ones. lia.
  - rewrite (@report_file_column row_files (fun _ => 1%Z)) by auto.
    rewrite total_of_ones. lia.
Qed.

Lemma run_report_adds_up_witness :
  let cc := counter (run (fun fed => fed) args_bylang skipped_world) in
  output_languages args_bylang = false /\
  (bylang args_bylang || bygroup args_bylang || byfile args_bylang) = true /\
  col_sum row_line (report args_bylang cc) = tlines cc /\
  (tfiles cc <= col_sum row_files (report args_bylang cc))%Z.
Proof.
  intros cc. split; [reflexivity|]. split; [reflexivity|].
  destruct (@run_report_adds_up (fun fed => fed) args_bylang skipped_world
              eq_refl eq_refl) as (_ & _ & _ & _ & E & _ & L).
  split; [exact E | exact L].
Defined.


(** ** One row for each language, one block for each directory *)

Lemma ltb_asym (a b : pystr) : Str.ltb a b = true -> Str.ltb b a = false.
Proof.
  revert b; induction a as [|x a IH]; intros [|y b]; cbn [Str.ltb]; try congruence.
  destruct (N.ltb_spec x y) as [Hxy|Hxy].
  - intros _. destruct (N.ltb_spec y x) as [Hyx|Hyx]; [lia|].
    destruct (N.eqb_spec y x); [lia | reflexivity].
  - destruct (N.eqb_spec x y) as [->|Hne]; [|discriminate].
    rewrite N.ltb_irrefl, N.eqb_refl. apply IH.
Qed.

Lemma ltb_le_trans (a b c : pystr) :
  Str.ltb b a = false -> Str.ltb c b = false -> Str.ltb c a = false.
Proof.
  revert b c; induction a as [|x a IH]; intros [|y b] [|z c]; cbn [Str.ltb];
    try congruence.
  destruct (N.ltb_spec y x) as [Hyx|Hyx]; [discriminate|].
  destruct (N.ltb_spec z y) as [Hzy|Hzy]; [discriminate|].
  destruct (N.eqb_spec y x) as [->|Hne1].
  - destruct (N.eqb_spec z x) as [->|Hne2].
    + rewrite N.ltb_irrefl. apply IH.
    + intros _ _. destruct (N.ltb_spec z x); [lia | reflexivity].
  - intros _. destruct (N.ltb_spec z x) as [|Hzx]; [lia|].
    destruct (N.eqb_spec z x) as [->|]; [|reflexivity].
    destruct (N.eqb_spec x y); [congruence|]. lia.
Qed.

Lemma ltb_antisym (a b : pystr) :
  Str.ltb a b = false -> Str.ltb b a = false -> a = b.
Proof.
  revert b; induction a as [|x a IH]; intros [|y b]; cbn [Str.ltb];
    try congruence.
  destruct (N.ltb_spec x y) as [Hxy|Hxy]; [discriminate|].
  destruct (N.ltb_spec y x) as [Hyx|Hyx]; [discriminate|].
  assert (x = y) by lia. subst y. rewrite N.eqb_refl.
  intros H1 H2. f_equal. apply IH; assumption.
Qed.

Lemma ltb_lt_le (p n m : pystr) :
  Str.ltb p n = true -> Str.ltb m n = false -> Str.ltb p m = true.
Proof.
  intros Hpn Hmn. destruct (Str.ltb p m) eqn:E; [reflexivity|].
  rewrite (@ltb_le_trans n m p Hmn E) in Hpn. discriminate.
Qed.

Section SortedByName.

Variable A : Type.
Variable name_of : A -> pystr.

Let before (y x : A) : bool := Str.ltb (name_of y) (name_of x).
Let le (a b : A) : Prop := Str.ltb (name_of b) (name_of a) = false.

Lemma insert_sorted_asc (x : A) (l : list A) :
  StronglySorted le l -> StronglySorted le (insert_sorted before x l).
Proof.
  induction 1 as [|y r Hr IH Hy]; cbn [insert_sorted].
  - constructor; constructor.
  - unfold before at 1. destruct (Str.ltb (name_of y) (name_of x)) eqn:E.
    + constructor; [exact IH|].
      eapply Permutation_Forall; [apply Permutation_sym, insert_sorted_perm|].
      constructor; [apply ltb_asym, E | exact Hy].
    + constructor; [constructor; assumption|].
      constructor; [exact E|].
      eapply Forall_impl; [|exact Hy]. intros b Hb. unfold le in *.
      eapply ltb_le_trans; eassumption.
Qed.

Lemma sorted_asc (l : list A) : StronglySorted le (sorted before l).
Proof.
  unfold sorted. induction l as [|x l IH]; cbn [fold_right]; [constructor|].
  apply insert_sorted_asc, IH.
Qed.

End SortedByName.

Lemma squeeze_In (prev : option pystr) (ns : list pystr) (n : pystr) :
  In n (squeeze prev ns) -> In n ns.
Proof.
  revert prev; induction ns as [|m r IH]; intros prev; cbn [squeeze]; [tauto|].
  destruct (opt_eqb (Some m) prev).
  - intros H. right. exact (IH _ H).
  - intros [->|H]; [left; reflexivity | right; exact (IH _ H)].
Qed.

Lemma opt_eqb_eq (n : pystr) (prev : option pystr) :
  opt_eqb (Some n) prev = true <-> prev = Some n.
Proof.
  destruct prev as [p|]; cbn [opt_eqb]; [|split; discriminate].
  rewrite eqb_eq. split; congruence.
Qed.

Lemma In_squeeze (prev : option pystr) (ns : list pystr) (n : pystr) :
  In n ns -> In n (squeeze prev ns) \/ prev = Some n.
Proof.
  revert prev; induction ns as [|m r IH]; intros prev; cbn [squeeze]; [tauto|].
  destruct (opt_eqb (Some m) prev) eqn:E.
  - apply opt_eqb_eq in E. intros [->|H]; [right; exact E | apply IH, H].
  - intros [->|H]; [left; left; reflexivity|].
    destruct (IH (Some m) H) as [H'|[= ->]]; left; [right; exact H' | left; reflexivity].
Qed.

Lemma squeeze_above (p : pystr) (ns : list pystr) :
  StronglySorted (fun a b => Str.ltb b a = false) ns ->
  Forall (fun n => Str.ltb n p = false) ns ->
  Forall (fun m => Str.ltb p m = true) (squeeze (Some p) ns).
Proof.
  induction 1 as [|n r Hr IH Hn]; intros Hp; cbn [squeeze]; [constructor|].
  inversion Hp as [|? ? Hpn Hpr]; subst.
  destruct (opt_eqb (Some n) (Some p)) eqn:E; [apply IH, Hpr|].
  assert (Hlt : Str.ltb p n = true).
  { destruct (Str.ltb p n) eqn:E2; [reflexivity|].
    cbn [opt_eqb] in E. apply eqb_neq in E. elim E.
    apply ltb_antisym; assumption. }
  constructor; [exact Hlt|].
  rewrite Forall_forall. intros m Hm. apply squeeze_In in Hm.
  rewrite Forall_forall in Hn. eapply ltb_lt_le; [exact Hlt | apply Hn, Hm].
Qed.

Lemma squeeze_strict (prev : option pystr) (ns : list pystr) :
  StronglySorted (fun a b => Str.ltb b a = false) ns ->
  StronglySorted (fun a b => Str.ltb a b = true) (squeeze prev ns).
Proof.
  intros Hs. revert prev. induction Hs as [|n r Hr IH Hn]; intros prev;
    cbn [squeeze]; [constructor|].
  destruct (opt_eqb (Some n) prev); [apply IH|].
  constructor; [apply IH|]. apply squeeze_above; assumption.
Qed.

Lemma labels_app (a b : list out_line) : labels (a ++ b) = labels a ++ labels b.
Proof. apply flat_map_app. Qed.

Lemma dirlines_app (a b : list out_line) :
  dirlines (a ++ b) = dirlines a ++ dirlines b.
Proof. apply flat_map_app. Qed.

Lemma strict_NoDup (ns : list pystr) :
  StronglySorted (fun a b => Str.ltb a b = true) ns -> NoDup ns.
Proof.
  induction 1 as [|n r Hr IH Hn]; constructor; [|exact IH].
  intros Hin. rewrite Forall_forall in Hn. specialize (Hn _ Hin).
  rewrite (ltb_asym _ _ Hn) in Hn. discriminate.
Qed.

(** The row of the running subtotal that is still to be printed. *)
Lemma lang_fold_labels (l : list Filename) :
  Forall (fun f => lang f <> Some []) l ->
  forall acc : subtotal * list out_line,
    key (fst acc) = None \/ truthy (key (fst acc)) = true ->
    let acc' := fold_left report_lang_step l acc in
    (key (fst acc') = None \/ truthy (key (fst acc')) = true) /\
    labels (snd acc')
    ++ (if truthy (key (fst acc')) then [str_of (key (fst acc'))] else [])
    = labels (snd acc)
      ++ (if truthy (key (fst acc)) then [str_of (key (fst acc))] else [])
      ++ squeeze (key (fst acc)) (lang_names l).
Proof.
  induction 1 as [|f l Hf _ IH]; intros [total out] Hk; cbv zeta in *;
    cbn [fold_left].
  - cbn [fst snd lang_names flat_map squeeze]. rewrite app_nil_r.
    split; [exact Hk | reflexivity].
  - cbn [fst snd] in Hk |- *. unfold lang_names. cbn [flat_map]. fold (lang_names l).
    destruct (lang f) as [n|] eqn:El.
    + cbn [app squeeze]. destruct (opt_eqb (Some n) (key total)) eqn:E.
      * replace (report_lang_step (total, out) f) with (subtotal_add total f, out)
          by (unfold report_lang_step; rewrite El, E; reflexivity).
        apply (IH (subtotal_add total f, out)). exact Hk.
      * assert (Hn : truthy (Some n) = true).
        { destruct n; [elim Hf; reflexivity | reflexivity]. }
        replace (report_lang_step (total, out) f)
          with (subtotal_start n f,
                out ++ (if truthy (key total)
                        then [subtotal_detail (str_of (key total)) total]
                        else []))
          by (unfold report_lang_step; rewrite El, E; reflexivity).
        destruct (IH (subtotal_start n f,
                      out ++ (if truthy (key total)
                              then [subtotal_detail (str_of (key total)) total]
                              else [])) (or_intror Hn)) as (IH1 & IH2).
        split; [exact IH1|].
        rewrite IH2. cbn [fst snd subtotal_start key]. rewrite Hn, labels_app.
        cbn [str_of].
        destruct (truthy (key total)); cbn [labels flat_map subtotal_detail app];
          rewrite <- ?app_assoc; reflexivity.
    + replace (report_lang_step (total, out) f) with (total, out)
        by (unfold report_lang_step; rewrite El; reflexivity).
      apply (IH (total, out) Hk).
Qed.

Lemma dir_fold_lines (l : list Filename) :
  Forall (fun f => truthy (shortpath f) = true) l ->
  forall acc : subtotal * list out_line,
    key (fst acc) = None \/ truthy (key (fst acc)) = true ->
    let acc' := fold_left report_dir_step l acc in
    (key (fst acc') = None \/ truthy (key (fst acc')) = true) /\
    dirlines (snd acc')
    = dirlines (snd acc) ++ squeeze (key (fst acc)) (short_paths l) /\
    (List.length (labels (snd acc')) + (if truthy (key (fst acc')) then 1 else 0)
     = List.length (labels (snd acc)) + (if truthy (key (fst acc)) then 1 else 0)
       + List.length (squeeze (key (fst acc)) (short_paths l)))%nat.
Proof.
  induction 1 as [|f l Hf _ IH]; intros [total out] Hk; cbv zeta in *;
    cbn [fold_left].
  - cbn [fst snd short_paths flat_map squeeze List.length]. rewrite app_nil_r.
    split; [exact Hk|]. split; [reflexivity | lia].
  - cbn [fst snd] in Hk |- *. unfold short_paths. cbn [flat_map].
    fold (short_paths l).
    destruct (shortpath f) as [n|] eqn:El; [|discriminate].
    cbn [app squeeze]. destruct (opt_eqb (Some n) (key total)) eqn:E.
    + replace (report_dir_step (total, out) f) with (subtotal_add total f, out)
        by (unfold report_dir_step; rewrite El, E; reflexivity).
      apply (IH (subtotal_add total f, out)). exact Hk.
    + replace (report_dir_step (total, out) f)
        with (subtotal_start n f,
              out ++ (if truthy (key total)
                      then [subtotal_detail [] total; Dashes] else [])
              ++ [DirLine n])
        by (unfold report_dir_step; rewrite El, E; reflexivity).
      destruct (IH (subtotal_start n f,
                    out ++ (if truthy (key total)
                            then [subtotal_detail [] total; Dashes] else [])
                    ++ [DirLine n]) (or_intror Hf)) as (IH1 & IH2 & IH3).
      split; [exact IH1|].
      rewrite IH2, IH3. cbn [fst snd subtotal_start key].
      rewrite Hf, !dirlines_app, !labels_app, !length_app.
      destruct (truthy (key total));
        cbn [dirlines labels flat_map subtotal_detail app List.length];
        rewrite <- ?app_assoc; (split; [reflexivity | lia]).
Qed.

Lemma lang_names_In (l : list Filename) (n : pystr) :
  In n (lang_names l) <-> In (Some n) (map lang l).
Proof.
  unfold lang_names. induction l as [|f l IH]; cbn [flat_map map In]; [tauto|].
  rewrite in_app_iff, IH. destruct (lang f) as [m|]; cbn [In].
  - split; [intros [[->|[]]|H]; auto | intros [[= ->]|H]; auto].
  - split; [intros [[]|H]; auto | intros [H|H]; [discriminate | auto]].
Qed.

Lemma short_paths_In (l : list Filename) (n : pystr) :
  In n (short_paths l) <-> In (Some n) (map shortpath l).
Proof.
  unfold short_paths. induction l as [|f l IH]; cbn [flat_map map In]; [tauto|].
  rewrite in_app_iff, IH. destruct (shortpath f) as [m|]; cbn [In].
  - split; [intros [[->|[]]|H]; auto | intros [[= ->]|H]; auto].
  - split; [intros [[]|H]; auto | intros [H|H]; [discriminate | auto]].
Qed.

Lemma names_sorted (attr : Filename -> option pystr) (l : list Filename) :
  StronglySorted (fun a b => Str.ltb (str_of (attr b)) (str_of (attr a)) = false) l ->
  StronglySorted (fun a b => Str.ltb b a = false)
    (flat_map (fun f => match attr f with Some n => [n] | None => [] end) l).
Proof.
  induction 1 as [|f l Hl IH Hf]; cbn [flat_map]; [constructor|].
  destruct (attr f) as [n|] eqn:E; cbn [app]; [|exact IH].
  constructor; [exact IH|].
  rewrite Forall_forall in *. intros m Hm. apply in_flat_map in Hm.
  destruct Hm as (g & Hg & Hm). specialize (Hf g Hg).
  destruct (attr g) as [k|]; [|destruct Hm].
  destruct Hm as [<-|[]]. exact Hf.
Qed.

(** X18.  The report by language has one row for each language that a
    record of the list has, and no other: the rows stand in ascending
    order of the language names, and no name stands twice. *)
Theorem report_lang_one_row_per_language (cc : CodeCounter) :
  Forall (fun f => lang f <> Some []) (filelist cc) ->
  let names := labels (report_lang cc) in
  StronglySorted (fun a b => Str.ltb a b = true) names /\
  NoDup names /\
  forall n, In n names <-> In (Some n) (map lang (filelist cc)).
Proof.
  intros Hl names.
  set (srt := sorted (fun y x => Str.ltb (str_of (lang y)) (str_of (lang x)))
                (filelist cc)).
  assert (Hp : Permutation srt (filelist cc)) by apply sorted_perm.
  assert (Hs : Forall (fun f => lang f <> Some []) srt).
  { eapply Permutation_Forall; [apply Permutation_sym, Hp | exact Hl]. }
  assert (E : names = squeeze None (lang_names srt)).
  { unfold names, report_lang. fold srt.
    destruct (@lang_fold_labels srt Hs (subtotal0, []) (or_introl eq_refl))
      as (_ & Hf). cbn [fst snd subtotal0 key truthy labels flat_map app] in Hf.
    destruct (fold_left report_lang_step srt (subtotal0, [])) as [total out].
    cbn [fst snd] in Hf. rewrite <- Hf.
    change (Header (str "By Language") :: ?x) with ([Header (str "By Language")] ++ x).
    rewrite !labels_app. cbn [labels flat_map app].
    destruct (truthy (key total)); cbn [flat_map subtotal_detail app];
      reflexivity. }
  assert (Hsorted : StronglySorted (fun a b => Str.ltb a b = true) names).
  { rewrite E. apply squeeze_strict. apply (names_sorted lang).
    apply (sorted_asc (fun f => str_of (lang f))). }
  split; [exact Hsorted|]. split; [apply strict_NoDup, Hsorted|].
  intros n. rewrite E. split.
  - intros H. apply squeeze_In, lang_names_In in H.
    eapply Permutation_in; [apply Permutation_map, Hp | exact H].
  - intros H. assert (H' : In n (lang_names srt)).
    { apply lang_names_In.
      eapply Permutation_in; [apply Permutation_map, Permutation_sym, Hp | exact H]. }
    destruct (In_squeeze None _ _ H') as [H2|H2]; [exact H2 | discriminate].
Qed.

Lemma report_lang_one_row_per_language_witness :
  let cc := new_counter
              [count Code (set_lang (str "Perl") empty_record);
               count Code (set_lang (str "C") empty_record);
               empty_record;
               count Comment (set_lang (str "Perl") empty_record)] in
  Forall (fun f => lang f <> Some []) (filelist cc) /\
  labels (report_lang cc) = [str "C"; str "Perl"] /\
  NoDup (labels (report_lang cc)).
Proof.
  intros cc.
  assert (Hl : Forall (fun f => lang f <> Some []) (filelist cc))
    by (repeat constructor; discriminate).
  split; [exact Hl|]. split; [reflexivity|].
  exact (proj1 (proj2 (@report_lang_one_row_per_language cc Hl))).
Defined.

(** X19.  The report by directory has one directory line for each short
    path that a record of the list has, and no other, in ascending order
    and none twice; and it has as many subtotal rows as directory lines. *)
Theorem report_dir_one_block_per_directory (cc : CodeCounter) :
  Forall (fun f => truthy (shortpath f) = true) (filelist cc) ->
  let dirs := dirlines (report_dir cc) in
  StronglySorted (fun a b => Str.ltb a b = true) dirs /\
  NoDup dirs /\
  (forall d, In d dirs <-> In (Some d) (map shortpath (filelist cc))) /\
  List.length (labels (report_dir cc)) = List.length dirs.
Proof.
  intros Hl dirs.
  set (srt := sorted (fun y x => Str.ltb (str_of (shortpath y)) (str_of (shortpath x)))
                (filelist cc)).
  assert (Hp : Permutation srt (filelist cc)) by apply sorted_perm.
  assert (Hs : Forall (fun f => truthy (shortpath f) = true) srt).
  { eapply Permutation_Forall; [apply Permutation_sym, Hp | exact Hl]. }
  assert (E : dirs = squeeze None (short_paths srt) /\
              List.length (labels (report_dir cc)) = List.length dirs).
  { unfold dirs, report_dir. fold srt.
    destruct (@dir_fold_lines srt Hs (subtotal0, []) (or_introl eq_refl))
      as (_ & Hf & Hn).
    cbn [fst snd subtotal0 key truthy labels dirlines flat_map app List.length]
      in Hf, Hn.
    destruct (fold_left report_dir_step srt (subtotal0, [])) as [total out].
    cbn [fst snd] in Hf, Hn. rewrite <- Hf in *.
    change (Header (str "By Directory") :: ?x) with ([Header (str "By Directory")] ++ x).
    rewrite !labels_app, !dirlines_app, !length_app.
    destruct (truthy (key total));
      cbn [labels dirlines flat_map subtotal_detail app List.length];
      rewrite ?app_nil_r; split; (reflexivity || lia). }
  destruct E as (E & En).
  assert (Hsorted : StronglySorted (fun a b => Str.ltb a b = true) dirs).
  { rewrite E. apply squeeze_strict. apply (names_sorted shortpath).
    apply (sorted_asc (fun f => str_of (shortpath f))). }
  split; [exact Hsorted|]. split; [apply strict_NoDup, Hsorted|].
  split; [|exact En].
  intros n. rewrite E. split.
  - intros H. apply squeeze_In, short_paths_In in H.
    eapply Permutation_in; [apply Permutation_map, Hp | exact H].
  - intros H. assert (H' : In n (short_paths srt)).
    { apply short_paths_In.
      eapply Permutation_in; [apply Permutation_map, Permutation_sym, Hp | exact H]. }
    destruct (In_squeeze None _ _ H') as [H2|H2]; [exact H2 | discriminate].
Qed.

Lemma report_dir_one_block_per_directory_witness :
  let cc := counter (run (fun fed => fed) args_bygroup skipped_world) in
  Forall (fun f => truthy (shortpath f) = true) (filelist cc) /\
  report_dir cc
  = [Header (str "By Directory"); DirLine (str "."); Detail [] 2 0 0 1 1;
     Summary 1 0 0 1 1] /\
  NoDup (dirlines (report_dir cc)).
Proof.
  intros cc.
  assert (Hl : Forall (fun f => truthy (shortpath f) = true) (filelist cc))
    by (repeat constructor).
  split; [exact Hl|]. split; [vm_compute; reflexivity|].
  exact (proj1 (proj2 (@report_dir_one_block_per_directory cc Hl))).
Defined.

(** ** Runs in which [os.stat] or [open] raises *)


Lemma until_raise_clean (ft : faults) (evs : list event) :
  forallb (fun e => negb (raises ft e)) evs = true ->
  until_raise ft evs = (evs, None).
Proof.
  induction evs as [|e evs IH]; cbn [until_raise forallb]; [reflexivity|].
  destruct (raises ft e); cbn [negb andb]; [discriminate|].
  intros H. rewrite (IH H). reflexivity.
Qed.


Lemma prints_raise_nothing (ft : faults) (out : list out_line) (tail : list event) :
  forallb (fun e => negb (raises ft e)) tail = true ->
  forallb (fun e => negb (raises ft e)) (map EvPrint out ++ tail) = true.
Proof.
  intros Ht. induction out as [|o out IH]; cbn [map app forallb]; [exact Ht|].
  exact IH.
Qed.




(** X15.  For a path without a slash that is not a directory, [listfiles]
    tests ["/" + path], not the path.  When that is no file, nothing is
    listed and [os.stat] is not called.  When it is a file, the one call
    is [os.stat(path)], on the path itself: if that raises, the run ends
    there with the exception; if not, one record is listed for the
    path. *)
Theorem listfiles_bare_name (sha256_digest : bytes -> bytes) (ft : faults)
  (args : Args) (w : world) :
  ~ In OsPath.sep (arg_path args) ->
  isdir w (arg_path args) = false ->
  fst (listfiles args w)
  = (if isfile w (str "/" ++ arg_path args) then [EvStat (arg_path args)] else []) /\
  (isfile w (str "/" ++ arg_path args) = false -> snd (listfiles args w) = []) /\
  (isfile w (str "/" ++ arg_path args) = true ->
   if stat_raises ft (arg_path args)
   then run_os sha256_digest ft args w
        = ([EvStat (arg_path args)], OSError (EvStat (arg_path args)))
   else snd (listfiles args w)
        = [Filename_init w (arg_path args) [] (arg_path args)]).
Proof.
  intros Hn Hd.
  assert (E : listfiles args w
              = if isfile w (str "/" ++ arg_path args)
                then ([EvStat (arg_path args)],
                      [Filename_init w (arg_path args) [] (arg_path args)])
                else ([], [])).
  { unfold listfiles. rewrite Hd, split_bare by exact Hn.
    cbn [app]. rewrite join_empty by exact Hn. reflexivity. }
  split; [rewrite E; destruct (isfile w _); reflexivity|].
  split; [intros Hf; rewrite E, Hf; reflexivity|].
  intros Hf. destruct (stat_raises ft (arg_path args)) eqn:Hs;
    [|rewrite E, Hf; reflexivity].
  assert (Ht : exists rest, trace (run sha256_digest args w)
                            = EvStat (arg_path args) :: rest).
  { unfold run. rewrite E, Hf.
    destruct (output args) as [[ev_out msg]|]; [eexists; reflexivity|].
    destruct (scan_all _ _ _) as [ev_scan [fl1|]]; [|eexists; reflexivity].
    cbv zeta. destruct (totals_assertion _); eexists; reflexivity. }
  destruct Ht as (rest & Ht). unfold run_os. rewrite Ht.
  cbn [until_raise raises]. rewrite Hs. reflexivity.
Qed.

Lemma listfiles_bare_name_witness :
  let w := {| isdir := fun _ => false;
              isfile := fun p => Str.eqb p (str "/a.py");
              listing := fun _ => Dir [] [];
              st_size := fun _ => 2%Z;
              file_bytes := fun _ => [120; 10]%N |} in
  let ft := {| stat_raises := fun p => negb (isfile w p);
               open_raises := fun p => negb (isfile w p) |} in
  let args := {| arg_path := str "a.py"; byfile := true; bygroup := false;
                 bylang := false; output_languages := false; time := true;
                 debug := false; include := false; markup := None |} in
  isfile w (arg_path args) = false /\
  isfile w (str "/" ++ arg_path args) = true /\
  run_os (fun fed => fed) ft args w
  = ([EvStat (str "a.py")], OSError (EvStat (str "a.py"))).
Proof.
  intros w ft args. split; [reflexivity|]. split; [reflexivity|].
  assert (Hn : ~ In OsPath.sep (arg_path args)).
  { cbn. intros [E|[E|[E|[E|[]]]]]; discriminate. }
  exact (proj2 (proj2 (@listfiles_bare_name (fun fed => fed) ft args w Hn eq_refl))
           eq_refl).
Defined.

(** X20.  When the path is no directory and the file that [listfiles]
    tests for it, [root + "/" + filename] with [root, filename] from
    [os.path.split(path)], is no file, the run calls neither [os.stat] nor
    [open], so that no such call can end it: it keeps no record, prints
    the header and a totals row of zeros of the chosen report and nothing
    between them, and returns.  For a name without a slash the file tested
    is ["/" + name]: this is what happens for a file of the current
    directory. *)
Theorem run_missing_path (sha256_digest : bytes -> bytes) (ft : faults)
  (args : Args) (w : world) :
  output_languages args = false ->
  isdir w (arg_path args) = false ->
  isfile w (fst (OsPath.split (arg_path args)) ++ str "/"
            ++ snd (OsPath.split (arg_path args))) = false ->
  run_os sha256_digest ft args w
  = (map EvPrint
       (if bylang args then [Header (str "By Language"); Summary 0 0 0 0 0]
        else if bygroup args then [Header (str "By Directory"); Summary 0 0 0 0 0]
        else if byfile args then [Header (str "By File"); Summary 0 0 0 0 0]
        else [])
     ++ (if time args then [EvPrintRuntime] else []),
     Ends Returned) /\
  filelist (counter (run sha256_digest args w)) = [].
Proof.
  intros Ho Hd Hf.
  assert (E : trace (run sha256_digest args w)
              = map EvPrint
                  (if bylang args then [Header (str "By Language"); Summary 0 0 0 0 0]
                   else if bygroup args
                        then [Header (str "By Directory"); Summary 0 0 0 0 0]
                   else if byfile args then [Header (str "By File"); Summary 0 0 0 0 0]
                   else [])
                ++ (if time args then [EvPrintRuntime] else [])
              /\ ending (run sha256_digest args w) = Returned
              /\ filelist (counter (run sha256_digest args w)) = []).
  { unfold run, output, listfiles. rewrite Ho, Hd.
    destruct (OsPath.split (arg_path args)) as [root filename]. cbn [fst snd] in Hf.
    rewrite Hf. cbn [scan_all].
    destruct (include args); cbn -[report]; (split; [|split; reflexivity]);
      unfold report; destruct (bylang args), (bygroup args), (byfile args);
      reflexivity. }
  destruct E as (Et & Ee & Ef). split; [|exact Ef].
  unfold run_os. rewrite Et, Ee, until_raise_clean; [reflexivity|].
  apply prints_raise_nothing. destruct (time args); reflexivity.
Qed.

Lemma run_missing_path_witness :
  let w := {| isdir := fun _ => false;
              isfile := fun p => Str.eqb p (str "a.py");
              listing := fun _ => Dir [] [];
              st_size := fun _ => 2%Z;
              file_bytes := fun _ => [120; 10]%N |} in
  let ft := {| stat_raises := fun _ => true; open_raises := fun _ => true |} in
  let args := {| arg_path := str "a.py"; byfile := true; bygroup := false;
                 bylang := false; output_languages := false; time := false;
                 debug := false; include := false; markup := None |} in
  isfile w (arg_path args) = true /\
  run_os (fun fed => fed) ft args w
  = ([EvPrint (Header (str "By File")); EvPrint (Summary 0 0 0 0 0)],
     Ends Returned).
Proof.
  intros w ft args. split; [reflexivity|].
  exact (proj1 (@run_missing_path (fun fed => fed) ft args w eq_refl eq_refl eq_refl)).
Defined.
